(** * hotwheels_bot: the storefront bot of [src/main.py]

    A shallow embedding of the handlers of [src/main.py] and the properties
    of the category rendering pipeline, the image cache, the collage
    composer, the session store and the conversation state machines.

    Conventions of the embedding:
    - Python [int] is [Z]; [str] and [bytes] are [string] (byte strings,
      UTF-8 for the literals of the source);
    - a handler is a computation in the monad [M] over the [World]: the
      module-level dictionaries of the source ([user_data], [image_cache]),
      the FSM storage, the database, and the record of every call made to
      the outside (Bot API, HTTP);
    - an exception is the [Raise] result; [try]/[except]/[finally] are the
      combinators [try_except] and [try_finally];
    - what the outside answers (does a send succeed, which message id does
      it return, what does a URL serve) is read from the oracles of [Env],
      indexed by the number of outside calls made so far;
    - handlers run one after the other (the event loop of the source is
      single-threaded); [asyncio.gather] is modelled by one schedule, given
      where it is used;
    - logging is not part of the model. *)

From Stdlib Require Import ZArith String Ascii List Decimal DecimalString DecimalZ Lia Bool.
From stdpp Require Import base option list gmap strings fin_maps.

Local Open Scope string_scope.
Local Open Scope list_scope.
Local Open Scope Z_scope.

(* ===================================================================== *)
(** * Python text primitives *)
(* ===================================================================== *)

Module Py.

(** The line feed of the source's ["\n"]. *)
Definition nl : string := String (ascii_of_nat 10) EmptyString.

(** A text is the UTF-8 encoding of a Python [str]: the literals of the
    source are written so, and so is the text of a message. A character of
    a text is one UTF-8 sequence: a byte that continues no sequence, with
    the continuation bytes after it. *)
Definition byte_of (c : ascii) : Z := Z.of_nat (nat_of_ascii c).

Definition is_continuation (c : ascii) : bool :=
  (128 <=? byte_of c) && (byte_of c <? 192).

Fixpoint chars_go (s : string) (cur : string) : list string :=
  match s with
  | EmptyString => [cur]
  | String c s' =>
      if is_continuation c then chars_go s' (cur +:+ String c "")
      else cur :: chars_go s' (String c "")
  end.

(** [list(s)]: the characters of [s]. *)
Definition chars (s : string) : list string :=
  match s with
  | EmptyString => []
  | String c s' => chars_go s' (String c "")
  end.

(** [ord(ch)] for one character; [-1] where the bytes are no sequence of
    UTF-8. *)
Definition ord (ch : string) : Z :=
  match byte_of <$> list_ascii_of_string ch with
  | [a] => if a <? 128 then a else -1
  | [a; b] =>
      if (192 <=? a) && (a <? 224) then (a - 192) * 64 + (b - 128) else -1
  | [a; b; c] =>
      if (224 <=? a) && (a <? 240)
      then (a - 224) * 4096 + (b - 128) * 64 + (c - 128) else -1
  | [a; b; c; d] =>
      if (240 <=? a) && (a <? 248)
      then (a - 240) * 262144 + (b - 128) * 4096 + (c - 128) * 64 + (d - 128) else -1
  | _ => -1
  end.

(** [ch.isspace()], the white space of [str.split]: TAB..CR, FS..US, SPACE,
    U+0085, U+00A0, U+1680, U+2000..U+200A, U+2028, U+2029, U+202F, U+205F
    and U+3000. *)
Definition is_space (ch : string) : bool :=
  let n := ord ch in
  ((9 <=? n) && (n <=? 13)) || ((28 <=? n) && (n <=? 32)) ||
  (n =? 0x85) || (n =? 0xa0) || (n =? 0x1680) ||
  ((0x2000 <=? n) && (n <=? 0x200a)) ||
  (n =? 0x2028) || (n =? 0x2029) || (n =? 0x202f) || (n =? 0x205f) || (n =? 0x3000).

(** The characters that are decimal digits ([unicodedata.decimal]) come in
    runs of ten, zero to nine; these are the zeros (Unicode 14.0, the table
    of CPython 3.11). *)
Definition digit_zeros : list Z :=
  [0x30; 0x660; 0x6f0; 0x7c0; 0x966; 0x9e6; 0xa66; 0xae6; 0xb66; 0xbe6; 0xc66;
   0xce6; 0xd66; 0xde6; 0xe50; 0xed0; 0xf20; 0x1040; 0x1090; 0x17e0; 0x1810;
   0x1946; 0x19d0; 0x1a80; 0x1a90; 0x1b50; 0x1bb0; 0x1c40; 0x1c50; 0xa620;
   0xa8d0; 0xa900; 0xa9d0; 0xa9f0; 0xaa50; 0xabf0; 0xff10; 0x104a0; 0x10d30;
   0x11066; 0x110f0; 0x11136; 0x111d0; 0x112f0; 0x11450; 0x114d0; 0x11650;
   0x116c0; 0x11730; 0x118e0; 0x11950; 0x11c50; 0x11d50; 0x11da0; 0x16a60;
   0x16ac0; 0x16b50; 0x1d7ce; 0x1d7d8; 0x1d7e2; 0x1d7ec; 0x1d7f6; 0x1e140;
   0x1e2f0; 0x1e950; 0x1fbf0].

(** The value of a decimal digit. *)
Definition decimal (ch : string) : option Z :=
  let n := ord ch in
  match List.find (fun z => (z <=? n) && (n <=? z + 9)) digit_zeros with
  | Some z => Some (n - z)
  | None => None
  end.

(** The white space [int] skips around the digits, once the text is
    brought to ASCII: TAB..CR and SPACE. *)
Definition is_c_space (c : ascii) : bool :=
  let n := nat_of_ascii c in
  (((9 <=? n) && (n <=? 13)) || (n =? 32))%nat.

Definition digit_of (c : ascii) : option (uint -> uint) :=
  match c with
  | "0"%char => Some D0 | "1"%char => Some D1 | "2"%char => Some D2
  | "3"%char => Some D3 | "4"%char => Some D4 | "5"%char => Some D5
  | "6"%char => Some D6 | "7"%char => Some D7 | "8"%char => Some D8
  | "9"%char => Some D9 | _ => None
  end.

(** [str(n)] for an [int]. *)
Definition str (n : Z) : string := NilZero.string_of_int (Z.to_int n).

(** [s.split()]: the maximal runs of characters that are no white space.
    [cur] is the run being read. *)
Fixpoint split_go (l : list string) (cur : string) : list string :=
  match l with
  | [] => if String.eqb cur "" then [] else [cur]
  | ch :: l' =>
      if is_space ch
      then (if String.eqb cur "" then split_go l' "" else cur :: split_go l' "")
      else split_go l' (cur +:+ ch)
  end.

Definition split (s : string) : list string := split_go (chars s) "".

(** [s.split(sep)] for a one-character separator: the fields between the
    separators, empty ones included; never the empty list. *)
Fixpoint split_on (sep : ascii) (s : string) : list string :=
  match s with
  | EmptyString => [""]
  | String c s' =>
      if Ascii.eqb c sep then "" :: split_on sep s'
      else match split_on sep s' with
           | f :: fs => String c f :: fs
           | [] => [String c ""]
           end
  end.

Fixpoint skip_spaces (s : string) : string :=
  match s with
  | String c s' => if is_c_space c then skip_spaces s' else s
  | EmptyString => s
  end.

(** The digits of an integer literal, [digit ("_"? digit)*], read from the
    front of [s]: the number read and what follows it. [after_digit] says
    that the character before was a digit. *)
Fixpoint scan_digits (s : string) (after_digit : bool) : option (uint * string) :=
  match s with
  | EmptyString => if after_digit then Some (Nil, "") else None
  | String c s' =>
      match digit_of c with
      | Some d =>
          match scan_digits s' true with
          | Some (u, rest) => Some (d u, rest)
          | None => None
          end
      | None =>
          if Ascii.eqb c "_"
          then (if after_digit then scan_digits s' false else None)
          else (if after_digit then Some (Nil, s) else None)
      end
  end.

(** What [int] reads of a character: a character below 127 is read as it
    is, any other white space as a space, any other decimal digit as the
    ASCII digit of its value, and the rest as a character no number
    holds. *)
Definition ascii_of_char (ch : string) : ascii :=
  let n := ord ch in
  if (0 <=? n) && (n <? 127) then ascii_of_nat (Z.to_nat n)
  else if is_space ch then " "%char
  else match decimal ch with
       | Some d => ascii_of_nat (Z.to_nat (48 + d))
       | None => "?"%char
       end.

Definition to_ascii (s : string) : string :=
  string_of_list_ascii (ascii_of_char <$> chars s).

(** The number an ASCII text writes in base ten: white space around, one
    optional sign, digits with single underscores between them. *)
Definition long_of_ascii (s : string) : option Z :=
  let s1 := skip_spaces s in
  let '(negative, s2) :=
    match s1 with
    | String "-"%char r => (true, r)
    | String "+"%char r => (false, r)
    | _ => (false, s1)
    end in
  match scan_digits s2 false with
  | Some (u, rest) =>
      match skip_spaces rest with
      | EmptyString => Some (Z.of_int (if negative then Neg u else Pos u))
      | String _ _ => None
      end
  | None => None
  end.

(** [int(s)]: the number the text writes once brought to ASCII. [None] is
    [ValueError]. (The length limit of [int] on digit strings is above the
    longest text a message carries.) *)
Definition int (s : string) : option Z := long_of_ascii (to_ascii s).

(** [enumerate(l, start)]. *)
Fixpoint enumerate {A : Type} (l : list A) (start : Z) : list (Z * A) :=
  match l with
  | [] => []
  | x :: l' => (start, x) :: enumerate l' (start + 1)
  end.

(** [range(lo, hi)]. *)
Definition range (lo hi : Z) : list Z := seqZ lo (hi - lo).

(** [l[i]]: a negative index counts from the end; [None] is [IndexError]. *)
Definition index {A : Type} (l : list A) (i : Z) : option A :=
  let n := Z.of_nat (length l) in
  if i <? 0 then (if i + n <? 0 then None else l !! Z.to_nat (i + n))
  else l !! Z.to_nat i.

(** [sep.join(l)]. *)
Fixpoint join (sep : string) (l : list string) : string :=
  match l with
  | [] => ""
  | [x] => x
  | x :: l' => x +:+ sep +:+ join sep l'
  end.

End Py.

(* ===================================================================== *)
(** * Data model *)
(* ===================================================================== *)

Definition bytes := string.

(** A row of the [Product] table of [database]. *)
Module Product.
Record t := mk {
  id : Z;
  category : string;
  name : string;
  price : Z;
  photo_id : string;
  description : string
}.
End Product.

(** A row of the [Cart] table of [database]. *)
Module Cart.
Record t := mk {
  id : Z;
  user_id : Z;
  product_id : Z
}.
End Cart.

(** Modelled from the spec: the module [database] ([Session], [Product],
    [Cart]) is not part of the sources. The store holds the two tables in
    row order; a query returns the rows that pass its filter, in that order
    ([listItems], [getItem], [listCartEntries] of the spec's section 6); a
    deletion made through a session is seen by the later queries of that
    session and reaches the database at [commit]. *)
Module Store.
Record t := mk {
  products : list Product.t;
  carts : list Cart.t
}.

(** [query(Product).filter(Product.category == c).all()] *)
Definition products_of_category (c : string) (s : t) : list Product.t :=
  filter (fun p => Product.category p = c) (products s).

(** [query(Product).filter(Product.id == i).first()] *)
Definition product_by_id (i : Z) (s : t) : option Product.t :=
  head (filter (fun p => Product.id p = i) (products s)).

(** [query(Cart).filter(Cart.user_id == u).all()] *)
Definition carts_of_user (u : Z) (s : t) : list Cart.t :=
  filter (fun c => Cart.user_id c = u) (carts s).

(** [session.delete(product)]: the row goes by its primary key. *)
Definition delete_product (p : Product.t) (s : t) : t :=
  mk (filter (fun q => Product.id q ≠ Product.id p) (products s)) (carts s).

(** [query(Cart).filter(Cart.user_id == u).delete()] *)
Definition delete_carts_of_user (u : Z) (s : t) : t :=
  mk (products s) (filter (fun c => Cart.user_id c ≠ u) (carts s)).
End Store.

(** A decoded bitmap of Pillow: its size and its pixels. *)
Record Image := mkImage {
  size : Z * Z;
  pixels : bytes
}.

(** The canvas of a collage: [Image.new('RGB', size)] and the images pasted
    on it, each with the upper left corner it was pasted at, in the order of
    the calls. *)
Record Canvas := mkCanvas {
  canvas_size : Z * Z;
  pasted : list (Image * (Z * Z))
}.

Definition Image_new (sz : Z * Z) : Canvas := mkCanvas sz [].
Definition paste (c : Canvas) (img : Image) (box : Z * Z) : Canvas :=
  mkCanvas (canvas_size c) (pasted c ++ [(img, box)]).

Record InlineKeyboardButton := mkButton {
  text : string;
  callback_data : string
}.

Inductive Markup :=
  | NoMarkup
  | MainKeyboard                      (* get_main_keyboard() *)
  | ReplyKeyboardRemove
  | InlineKeyboardMarkup (inline_keyboard : list (list InlineKeyboardButton)).

Inductive ChatId :=
  | ChatInt (n : Z)
  | ChatStr (s : string).

Inductive Photo :=
  | BufferedInputFile (data : bytes) (filename : string)
  | FileId (file_id : string).

(** What one aiohttp [session.get(url)] with [response.read()] gives. *)
Inductive HttpResponse :=
  | HttpFailure                            (* the request or the read raises *)
  | HttpStatus (status : Z) (body : bytes).

(** The calls made to the outside, each with what it answered: a send gives
    the identifier of the new message, or raises ([None]). *)
Inductive Event :=
  | SendMessage (chat : ChatId) (txt : string) (markup : Markup) (res : option Z)
  | SendPhoto (chat : ChatId) (photo : Photo) (caption : string) (markup : Markup)
      (res : option Z)
  | DeleteMessage (chat : Z) (message_id : Z) (ok : bool)
  | AnswerCallback (txt : option string) (ok : bool)
  | GetFile (file_id : string) (res : option string)
  | HttpGet (url : string) (res : HttpResponse)
  | Commit.

(** [user_data[user_id]]: the session of a user. ['products'] is a Python
    dictionary: its keys keep the order of their first insertion. *)
Record UserData := mkUserData {
  ud_category : string;
  ud_products : list (Z * Product.t);
  last_msg_ids : list Z
}.

(** Values kept in the FSM data of a conversation. *)
Inductive PyVal :=
  | VNone
  | VStr (s : string)
  | VInt (n : Z).

Inductive FsmState :=
  | OrderStates_waiting_phone
  | OrderStates_waiting_payment_info
  | AddProduct_waiting_photo
  | AddProduct_waiting_name
  | AddProduct_waiting_price
  | AddProduct_waiting_description
  | AddProduct_waiting_category
  | DeleteProduct_waiting_id.

(** The conversation context of one (chat, user): [None] is the idle state. *)
Record FsmCtx := mkFsm {
  fsm_state : option FsmState;
  fsm_data : gmap string PyVal
}.

Definition fsm_idle : FsmCtx := mkFsm None ∅.

(** The exceptions the handlers meet. *)
Inductive exn :=
  | ValueError | TypeError | AttributeError | KeyError | IndexError
  | ZeroDivisionError | UnboundLocalError
  | OSError                              (* Pillow cannot read an image *)
  | TelegramError                        (* a Bot API call failed *)
  | ClientError.                         (* an HTTP call failed *)

(** The configuration and the outside. The oracles are indexed by the
    number of outside calls made before the one they answer. *)
Record Env := mkEnv {
  TOKEN : string;
  ADMIN_ID : string;
  api_send : nat -> option Z;            (* sendMessage, sendPhoto *)
  api_ok : nat -> bool;                  (* deleteMessage, answerCallbackQuery *)
  api_get_file : nat -> string -> option string;   (* getFile: file_path *)
  http_get : nat -> string -> HttpResponse;
  Image_open : bytes -> option Image;    (* [None]: it raises *)
  thumbnail : Image -> Z * Z -> option Image;
  jpeg_save : Canvas -> option bytes;
  exn_str : exn -> string                (* [str(e)] of a caught exception *)
}.

Record World := mkWorld {
  env : Env;
  db : Store.t;                          (* the committed database *)
  session : option Store.t;              (* the open database session's view *)
  user_data : gmap Z UserData;
  image_cache : gmap string Image;
  fsm : gmap (Z * Z) FsmCtx;
  clock : nat;
  trace : list Event
}.

Definition set_db (f : Store.t -> Store.t) (w : World) : World :=
  mkWorld (env w) (f (db w)) (session w) (user_data w) (image_cache w) (fsm w)
    (clock w) (trace w).
Definition set_session (f : option Store.t -> option Store.t) (w : World) : World :=
  mkWorld (env w) (db w) (f (session w)) (user_data w) (image_cache w) (fsm w)
    (clock w) (trace w).
Definition set_user_data (f : gmap Z UserData -> gmap Z UserData) (w : World) : World :=
  mkWorld (env w) (db w) (session w) (f (user_data w)) (image_cache w) (fsm w)
    (clock w) (trace w).
Definition set_image_cache (f : gmap string Image -> gmap string Image) (w : World)
  : World :=
  mkWorld (env w) (db w) (session w) (user_data w) (f (image_cache w)) (fsm w)
    (clock w) (trace w).
Definition set_fsm (f : gmap (Z * Z) FsmCtx -> gmap (Z * Z) FsmCtx) (w : World) : World :=
  mkWorld (env w) (db w) (session w) (user_data w) (image_cache w) (f (fsm w))
    (clock w) (trace w).
(** A step recorded in the trace that no oracle answers. *)
Definition note (e : Event) (w : World) : World :=
  mkWorld (env w) (db w) (session w) (user_data w) (image_cache w) (fsm w)
    (clock w) (trace w ++ [e]).
(** One more call to the outside: the clock advances, the call is recorded. *)
Definition emit (e : Event) (w : World) : World :=
  mkWorld (env w) (db w) (session w) (user_data w) (image_cache w) (fsm w)
    (S (clock w)) (trace w ++ [e]).

(** An incoming message and an incoming button press. *)
Record Message := mkMessage {
  msg_chat_id : Z;                       (* message.chat.id *)
  msg_from_id : Z;                       (* message.from_user.id *)
  msg_username : option string;          (* message.from_user.username *)
  msg_text : option string;              (* message.text *)
  msg_contact : option string            (* message.contact.phone_number *)
}.

Record CallbackQuery := mkCallback {
  cb_from_id : Z;                        (* callback.from_user.id *)
  cb_data : string;                      (* callback.data *)
  cb_message : Message                   (* callback.message *)
}.

(* ===================================================================== *)
(** * The monad of handlers: state and exceptions *)
(* ===================================================================== *)

Inductive result (A : Type) :=
  | Ok (a : A)
  | Raise (e : exn).
Arguments Ok {A} a.
Arguments Raise {A} e.

Definition M (A : Type) : Type := World -> result A * World.

Definition ret {A} (a : A) : M A := fun w => (Ok a, w).
Definition raise {A} (e : exn) : M A := fun w => (Raise e, w).
Definition bind {A B} (m : M A) (k : A -> M B) : M B :=
  fun w => match m w with
           | (Ok a, w') => k a w'
           | (Raise e, w') => (Raise e, w')
           end.
Definition gets {A} (f : World -> A) : M A := fun w => (Ok (f w), w).
Definition modify (f : World -> World) : M unit := fun w => (Ok tt, f w).

(** [try: m except Exception as e: h e] *)
Definition try_except {A} (m : M A) (h : exn -> M A) : M A :=
  fun w => match m w with
           | (Ok a, w') => (Ok a, w')
           | (Raise e, w') => h e w'
           end.

(** [try: m finally: f]: [f] runs on every exit of [m]; what [f] raises
    replaces the outcome of [m]. *)
Definition try_finally {A} (m : M A) (f : M unit) : M A :=
  fun w => match m w with
           | (r, w') => match f w' with
                        | (Ok _, w'') => (r, w'')
                        | (Raise e, w'') => (Raise e, w'')
                        end
           end.

Declare Scope py_scope.
Delimit Scope py_scope with py.
Notation "x <- m ;; k" := (bind m (fun x => k))
  (at level 100, m at next level, right associativity) : py_scope.
Notation "m ;; k" := (bind m (fun _ => k))
  (at level 100, right associativity) : py_scope.
Local Open Scope py_scope.

(** [for x in l: body x] *)
Fixpoint for_each {A} (l : list A) (body : A -> M unit) : M unit :=
  match l with
  | [] => ret tt
  | x :: l' => body x ;; for_each l' body
  end.

(** A value that may be missing: [None] raises [e]. *)
Definition expect {A} (o : option A) (e : exn) : M A :=
  match o with
  | Some a => ret a
  | None => raise e
  end.

(* ===================================================================== *)
(** * Calls to the outside *)
(* ===================================================================== *)

(** [await bot.send_message(chat_id, text, reply_markup=markup)] *)
Definition bot_send_message (chat : ChatId) (txt : string) (markup : Markup) : M Z :=
  fun w =>
    let r := api_send (env w) (clock w) in
    let w' := emit (SendMessage chat txt markup r) w in
    match r with
    | Some message_id => (Ok message_id, w')
    | None => (Raise TelegramError, w')
    end.

(** [await message.answer(text, reply_markup=markup)] *)
Definition message_answer (message : Message) (txt : string) (markup : Markup) : M Z :=
  bot_send_message (ChatInt (msg_chat_id message)) txt markup.

(** [await message.answer_photo(photo, caption, reply_markup=markup)] *)
Definition message_answer_photo (message : Message) (photo : Photo) (caption : string)
    (markup : Markup) : M Z :=
  fun w =>
    let r := api_send (env w) (clock w) in
    let w' := emit (SendPhoto (ChatInt (msg_chat_id message)) photo caption markup r) w in
    match r with
    | Some message_id => (Ok message_id, w')
    | None => (Raise TelegramError, w')
    end.

(** [await bot.delete_message(chat_id, message_id)] *)
Definition bot_delete_message (chat_id : Z) (message_id : Z) : M unit :=
  fun w =>
    let ok := api_ok (env w) (clock w) in
    let w' := emit (DeleteMessage chat_id message_id ok) w in
    if ok then (Ok tt, w') else (Raise TelegramError, w').

(** [await callback.answer(text)] *)
Definition callback_answer (txt : option string) : M unit :=
  fun w =>
    let ok := api_ok (env w) (clock w) in
    let w' := emit (AnswerCallback txt ok) w in
    if ok then (Ok tt, w') else (Raise TelegramError, w').

(** [session.get(url)] of aiohttp followed by [response.read()]: the status
    and the body. *)
Definition session_get (url : string) : M (Z * bytes) :=
  fun w =>
    let r := http_get (env w) (clock w) url in
    let w' := emit (HttpGet url r) w in
    match r with
    | HttpStatus status body => (Ok (status, body), w')
    | HttpFailure => (Raise ClientError, w')
    end.

(* ===================================================================== *)
(** * Message lifecycle *)
(* ===================================================================== *)

(** [delete_previous_messages]: every identifier is tried; a failure is
    logged and the loop goes on. *)
Definition delete_previous_messages (chat_id : Z) (message_ids : list Z) : M unit :=
  for_each message_ids (fun msg_id =>
    try_except (bot_delete_message chat_id msg_id) (fun _ => ret tt)).

(* ===================================================================== *)
(** * Image fetch and cache *)
(* ===================================================================== *)

(** The part of [download_image] after a cache miss: the [try] block and
    the final [return None]. *)
Definition fetch_image (url : string) : M (option Image) :=
  try_except
    (response <- session_get url ;;
     let '(status, image_data) := response in
     if status =? 200 then
       e <- gets env ;;
       image <- expect (Image_open e image_data) OSError ;;
       image <- expect (thumbnail e image (400, 400)) OSError ;;
       modify (set_image_cache <[url := image]>) ;;
       ret (Some image)
     else ret None)
    (fun _ => ret None).

Definition download_image (url : string) : M (option Image) :=
  cache <- gets image_cache ;;
  match cache !! url with
  | Some image => ret (Some image)
  | None => fetch_image url
  end.

(** The number of network retrievals recorded in a trace. *)
Definition is_http_get (e : Event) : bool :=
  match e with HttpGet _ _ => true | _ => false end.
Definition retrievals (t : list Event) : nat := length (List.filter is_http_get t).

(* ===================================================================== *)
(** * Collage composer *)
(* ===================================================================== *)

(** The [try] block of [create_collage_sync] up to the canvas with every
    image pasted. *)
Definition compose_collage (images : list Image) : result Canvas :=
  let num_images := Z.of_nat (length images) in
  let cols := Z.min 3 num_images in
  if cols =? 0 then Raise ZeroDivisionError else
  let rows := (num_images + cols - 1) / cols in
  match images with
  | [] => Raise IndexError
  | first :: _ =>
      let '(img_width, img_height) := size first in
      let collage := Image_new (cols * img_width, rows * img_height) in
      Ok (fold_left
            (fun collage '(i, img) =>
               let row := i / cols in
               let col := i mod cols in
               paste collage img (col * img_width, row * img_height))
            (Py.enumerate images 0) collage)
  end.

(** [create_collage_sync]: the JPEG bytes of the collage; [None] when the
    [try] block raised. *)
Definition create_collage_sync (e : Env) (images : list Image) : option bytes :=
  match compose_collage images with
  | Ok collage => jpeg_save e collage
  | Raise _ => None
  end.

(* ===================================================================== *)
(** * Database sessions, FSM contexts, user sessions *)
(* ===================================================================== *)

(** [session = Session()] *)
Definition Session_open : M unit :=
  modify (fun w => set_session (fun _ => Some (db w)) w).

(** The local variable [session]; it is unbound before [Session()]. *)
Definition the_session : M Store.t :=
  s <- gets session ;; expect s UnboundLocalError.

Definition session_query {A} (q : Store.t -> A) : M A :=
  s <- the_session ;; ret (q s).

Definition session_update (f : Store.t -> Store.t) : M unit :=
  s <- the_session ;; modify (set_session (fun _ => Some (f s))).

(** [session.commit()] *)
Definition session_commit : M unit :=
  s <- the_session ;; modify (fun w => note Commit (set_db (fun _ => s) w)).

(** [session.close()]: what was not committed is dropped. *)
Definition session_close : M unit :=
  _ <- the_session ;; modify (set_session (fun _ => None)).

(** The FSM context of aiogram is kept per (chat, user). *)
Definition fsm_key (message : Message) : Z * Z :=
  (msg_chat_id message, msg_from_id message).

Definition fsm_ctx (k : Z * Z) (w : World) : FsmCtx :=
  default fsm_idle (fsm w !! k).

(** [await state.get_data()] *)
Definition state_get_data (k : Z * Z) : M (gmap string PyVal) :=
  gets (fun w => fsm_data (fsm_ctx k w)).

(** [await state.update_data(key=v)] *)
Definition state_update_data (k : Z * Z) (key : string) (v : PyVal) : M unit :=
  modify (fun w =>
    set_fsm <[k := mkFsm (fsm_state (fsm_ctx k w)) (<[key := v]> (fsm_data (fsm_ctx k w)))]> w).

(** [await state.set_state(s)] *)
Definition state_set_state (k : Z * Z) (s : FsmState) : M unit :=
  modify (fun w => set_fsm <[k := mkFsm (Some s) (fsm_data (fsm_ctx k w))]> w).

(** [await state.clear()] *)
Definition state_clear (k : Z * Z) : M unit :=
  modify (set_fsm <[k := fsm_idle]>).

(** A Python dictionary with the order of its keys: [d[k] = v]. *)
Fixpoint dict_set {V : Type} (k : Z) (v : V) (d : list (Z * V)) : list (Z * V) :=
  match d with
  | [] => [(k, v)]
  | (k', v') :: d' => if k' =? k then (k, v) :: d' else (k', v') :: dict_set k v d'
  end.

(** [d.get(k)] *)
Fixpoint dict_get {V : Type} (k : Z) (d : list (Z * V)) : option V :=
  match d with
  | [] => None
  | (k', v') :: d' => if k' =? k then Some v' else dict_get k d'
  end.

(** [{p.id: p for p in products}]: one more entry, then all of them. *)
Definition dict_add (d : list (Z * Product.t)) (p : Product.t) : list (Z * Product.t) :=
  dict_set (Product.id p) p d.

Definition products_dict (products : list Product.t) : list (Z * Product.t) :=
  fold_left dict_add products [].

(** [user_data[user_id]['last_msg_ids'] = ids] *)
Definition set_last_msg_ids (user_id : Z) (ids : list Z) : M unit :=
  ud <- gets user_data ;;
  u <- expect (ud !! user_id) KeyError ;;
  modify (set_user_data <[user_id := mkUserData (ud_category u) (ud_products u) ids]>).

(** [f"{v}"] *)
Definition fmt (v : PyVal) : string :=
  match v with
  | VNone => "None"
  | VStr s => s
  | VInt n => Py.str n
  end.

Definition fmt_opt (o : option string) : string := default "None" o.

(* ===================================================================== *)
(** * Category render pipeline *)
(* ===================================================================== *)

(** [mapM]: the computations of a list, one after the other. *)
Fixpoint map_M {A B} (f : A -> M B) (l : list A) : M (list B) :=
  match l with
  | [] => ret []
  | x :: l' => y <- f x ;; ys <- map_M f l' ;; ret (y :: ys)
  end.

(** [asyncio.gather] of the [download_image] tasks of one render. Every task
    starts before any response arrives, so each one tests the cache as it
    is at the start; the responses are then taken in the order of the
    requests. *)
Definition gather_download_image (urls : list string) : M (list (option Image)) :=
  cache <- gets image_cache ;;
  map_M (fun url =>
           match cache !! url with
           | Some image => ret (Some image)
           | None => fetch_image url
           end) urls.

(** [await bot.get_file(file_id)] with its outcome as a value. *)
Definition bot_get_file (file_id : string) : M (option string) :=
  fun w =>
    let r := api_get_file (env w) (clock w) file_id in
    (Ok r, emit (GetFile file_id r) w).

(** [asyncio.gather] of the [bot.get_file] tasks: every request is made, and
    a failed one raises out of the [gather]. *)
Definition gather_get_file (file_ids : list string) : M (list string) :=
  files <- map_M bot_get_file file_ids ;;
  if forallb (fun f => match f with Some _ => true | None => false end) files
  then ret (omap (fun f => f) files)
  else raise TelegramError.

(** One line of the caption: [f"{idx}. {product.name} - {product.price} руб.\n"] *)
Definition product_line (idx : Z) (product : Product.t) : string :=
  Py.str idx +:+ ". " +:+ Product.name product +:+ " - " +:+
  Py.str (Product.price product) +:+ " руб." +:+ Py.nl.

(** The text of the list of a category. *)
Definition list_text (category_name : string) (products : list Product.t) : string :=
  fold_left (fun products_text '(idx, product) => products_text +:+ product_line idx product)
    (Py.enumerate products 1)
    ("📋 " +:+ category_name +:+ " - список моделей:" +:+ Py.nl +:+ Py.nl).

Definition create_combined_message (photo_urls : list string) (products : list Product.t)
    (category_name : string) : M (option (bytes * string * Z)) :=
  images <- gather_download_image photo_urls ;;
  let images := omap (fun img => img) images in
  match images with
  | [] => ret None
  | _ :: _ =>
      let products_text := list_text category_name products in
      e <- gets env ;;
      match create_collage_sync e images with
      | None => ret None
      | Some collage_buffer =>
          ret (Some (collage_buffer, products_text, Z.of_nat (length products)))
      end
  end.

(** The rows of numbered buttons under construction: the finished rows and
    the row being filled. A row is closed at every third button. *)
Definition add_button (st : list (list InlineKeyboardButton) * list InlineKeyboardButton)
    (idx : Z) (b : InlineKeyboardButton)
  : list (list InlineKeyboardButton) * list InlineKeyboardButton :=
  let '(buttons, row) := st in
  let row := row ++ [b] in
  if idx mod 3 =? 0 then (buttons ++ [row], []) else (buttons, row).

Definition back_to_menu_row : list InlineKeyboardButton :=
  [mkButton "⬅️ Назад в меню" "back_to_menu"].

Definition finish_buttons
    (st : list (list InlineKeyboardButton) * list InlineKeyboardButton)
  : list (list InlineKeyboardButton) :=
  let '(buttons, row) := st in
  (match row with [] => buttons | _ :: _ => buttons ++ [row] end) ++ [back_to_menu_row].

Definition product_button (idx : Z) (product : Product.t) : InlineKeyboardButton :=
  mkButton (Py.str idx) ("product_" +:+ Py.str (Product.id product)).

(** The button loop of [show_category]: [for idx in range(1, num_products + 1)]
    with [products[idx-1]]. *)
Fixpoint index_buttons (products : list Product.t) (idxs : list Z)
    (st : list (list InlineKeyboardButton) * list InlineKeyboardButton)
  : result (list (list InlineKeyboardButton) * list InlineKeyboardButton) :=
  match idxs with
  | [] => Ok st
  | idx :: idxs' =>
      match Py.index products (idx - 1) with
      | Some product => index_buttons products idxs' (add_button st idx (product_button idx product))
      | None => Raise IndexError
      end
  end.

Definition category_buttons (products : list Product.t) (num_products : Z)
  : result (list (list InlineKeyboardButton)) :=
  match index_buttons products (Py.range 1 (num_products + 1)) ([], []) with
  | Ok st => Ok (finish_buttons st)
  | Raise e => Raise e
  end.

(** The button loop of [show_products_list]: [for idx, product in
    enumerate(products, 1)]. *)
Definition list_buttons (products : list Product.t) : list (list InlineKeyboardButton) :=
  finish_buttons
    (fold_left (fun st '(idx, product) => add_button st idx (product_button idx product))
       (Py.enumerate products 1) ([], [])).

Definition lift {A} (r : result A) : M A :=
  match r with
  | Ok a => ret a
  | Raise e => raise e
  end.

Definition category_map (label : string) : option string :=
  if decide (label = "🏎 Мейн модели") then Some "main"
  else if decide (label = "🚗 Спец. серии") then Some "special"
  else if decide (label = "🏁 Премиум модели") then Some "premium"
  else if decide (label = "🔮 Замак модели") then Some "zamak"
  else if decide (label = "🚚 Тим транспорт") then Some "team_transport"
  else None.

(** The dictionary of [show_products_list] and [back_to_list], with
    [.get(category, category)]. *)
Definition category_label (category : string) : string :=
  if decide (category = "main") then "🏎 Мейн модели"
  else if decide (category = "special") then "🚗 Спец. серии"
  else if decide (category = "premium") then "🏁 Премиум модели"
  else if decide (category = "zamak") then "🔮 Замак модели"
  else if decide (category = "team_transport") then "🚚 Тим транспорт"
  else category.

(** [if user_data[user_id]['last_msg_ids']: await delete_previous_messages(...)] *)
Definition retract_last (chat_id : Z) (user_id : Z) : M unit :=
  ud <- gets user_data ;;
  u <- expect (ud !! user_id) KeyError ;;
  match last_msg_ids u with
  | [] => ret tt
  | _ :: _ => delete_previous_messages chat_id (last_msg_ids u)
  end.

Definition show_products_list (message : Message) (user_id : Z) : M unit :=
  ud <- gets user_data ;;
  match ud !! user_id with
  | None => message_answer message "Ошибка отображения списка" NoMarkup ;; ret tt
  | Some u =>
      let products := map snd (ud_products u) in
      let category_name := category_label (ud_category u) in
      let products_text := list_text category_name products in
      let buttons := list_buttons products in
      try_except
        (retract_last (msg_chat_id message) user_id ;;
         msg <- message_answer message products_text (InlineKeyboardMarkup buttons) ;;
         set_last_msg_ids user_id [msg])
        (fun _ =>
           message_answer message "Произошла ошибка 😢 Попробуйте позже." NoMarkup ;;
           ret tt)
  end.

Definition file_url (e : Env) (file_path : string) : string :=
  "https://api.telegram.org/file/bot" +:+ TOKEN e +:+ "/" +:+ file_path.

(** The [try] block of [show_category]. *)
Definition show_category_body (message : Message) (category category_name : string)
  : M unit :=
  let user_id := msg_from_id message in
  products <- session_query (Store.products_of_category category) ;;
  match products with
  | [] => message_answer message "В этой категории пока нет товаров 😢" NoMarkup ;; ret tt
  | _ :: _ =>
      modify (set_user_data
                <[user_id := mkUserData category (products_dict products) []]>) ;;
      files <- gather_get_file (map Product.photo_id products) ;;
      e <- gets env ;;
      let photo_urls := map (file_url e) files in
      combined <- create_combined_message photo_urls products category_name ;;
      match combined with
      | None =>
          message_answer message "Ошибка при создании коллажа, показываем только список"
            NoMarkup ;;
          show_products_list message user_id
      | Some (collage_buffer, products_text, num_products) =>
          buttons <- lift (category_buttons products num_products) ;;
          ud <- gets user_data ;;
          match ud !! user_id with
          | Some u =>
              match last_msg_ids u with
              | [] => ret tt
              | _ :: _ => delete_previous_messages (msg_chat_id message) (last_msg_ids u)
              end
          | None => ret tt
          end ;;
          msg <- message_answer_photo message
                   (BufferedInputFile collage_buffer "collage.jpg")
                   products_text (InlineKeyboardMarkup buttons) ;;
          set_last_msg_ids user_id [msg]
      end
  end.

Definition show_category (message : Message) : M unit :=
  category_name <- expect (msg_text message) KeyError ;;
  category <- expect (category_map category_name) KeyError ;;
  Session_open ;;
  try_finally
    (try_except
       (show_category_body message category category_name)
       (fun _ =>
          message_answer message "Произошла ошибка 😢 Попробуйте позже." NoMarkup ;;
          ret tt))
    session_close.

(* ===================================================================== *)
(** * Item selection *)
(* ===================================================================== *)

(** [get_product_keyboard(product_id, category)] *)
Definition get_product_keyboard (product_id : Z) (category : string) : Markup :=
  InlineKeyboardMarkup
    [[mkButton "⬅️ Назад к списку" ("back_to_list_" +:+ category);
      mkButton "➕ В корзину" ("add_" +:+ Py.str product_id)]].

(** [int(callback.data.split('_')[1])] *)
Definition callback_product_id (data : string) : result Z :=
  match Py.index (Py.split_on "_" data) 1 with
  | None => Raise IndexError
  | Some field =>
      match Py.int field with
      | Some n => Ok n
      | None => Raise ValueError
      end
  end.

Definition product_caption (product : Product.t) : string :=
  "<b>🚀 " +:+ Product.name product +:+ "</b>" +:+ Py.nl +:+
  "💵 Цена: " +:+ Py.str (Product.price product) +:+ " руб." +:+ Py.nl +:+
  "📝 Описание: " +:+ Product.description product.

Definition show_product (callback : CallbackQuery) : M unit :=
  let user_id := cb_from_id callback in
  product_id <- lift (callback_product_id (cb_data callback)) ;;
  ud <- gets user_data ;;
  match ud !! user_id with
  | None => callback_answer (Some "Товар не найден")
  | Some u =>
      match dict_get product_id (ud_products u) with
      | None => callback_answer (Some "Товар не найден")
      | Some product =>
          let category := ud_category u in
          try_except
            (retract_last (msg_chat_id (cb_message callback)) user_id ;;
             msg <- message_answer_photo (cb_message callback)
                      (FileId (Product.photo_id product))
                      (product_caption product)
                      (get_product_keyboard (Product.id product) category) ;;
             set_last_msg_ids user_id [msg])
            (fun _ =>
               message_answer (cb_message callback)
                 "Ошибка отображения товара 😢 Попробуйте позже." NoMarkup ;;
               ret tt) ;;
          callback_answer None
      end
  end.

(* ===================================================================== *)
(** * Checkout completion *)
(* ===================================================================== *)

(** The loop over the cart of [process_payment_info]: the two texts and the
    total, one cart row after the other. *)
Fixpoint order_lines (cart_items : list Cart.t) (acc : string * string * Z)
  : M (string * string * Z) :=
  match cart_items with
  | [] => ret acc
  | item :: cart_items' =>
      let '(order_text, admin_order_text, total) := acc in
      found <- session_query (Store.product_by_id (Cart.product_id item)) ;;
      product <- expect found AttributeError ;;
      let line := "• " +:+ Product.name product +:+ " - " +:+
                  Py.str (Product.price product) +:+ " руб." +:+ Py.nl in
      order_lines cart_items'
        (order_text +:+ line, admin_order_text +:+ line, total + Product.price product)
  end.

Definition order_header (contact payment_info : string) : string :=
  "✅ Ваш заказ оформлен!" +:+ Py.nl +:+ Py.nl +:+
  "📞 Ваши контакты: " +:+ contact +:+ Py.nl +:+
  "💳 Способ оплаты: " +:+ payment_info +:+ Py.nl +:+ Py.nl +:+
  "🛒 Состав заказа:" +:+ Py.nl.

Definition order_footer (total : Z) : string :=
  Py.nl +:+ "💸 Итого к оплате: <b>" +:+ Py.str total +:+ " руб.</b>" +:+ Py.nl +:+ Py.nl +:+
  "Спасибо за заказ! Мы свяжемся с вами в ближайшее время.".

Definition admin_header (user_tag contact payment_info : string) : string :=
  "🆕 НОВЫЙ ЗАКАЗ!" +:+ Py.nl +:+ Py.nl +:+
  "👤 Пользователь: " +:+ user_tag +:+ Py.nl +:+
  "📞 Контакты: " +:+ contact +:+ Py.nl +:+
  "💳 Способ оплаты: " +:+ payment_info +:+ Py.nl +:+ Py.nl +:+
  "📦 Заказанные товары:" +:+ Py.nl.

Definition admin_footer (total : Z) : string :=
  Py.nl +:+ "💰 Общая сумма: <b>" +:+ Py.str total +:+ " руб.</b>" +:+ Py.nl +:+
  Py.nl +:+ "✉️ Пользователь ожидает вашего ответа!".

(** The [try] block of [process_payment_info]. *)
Definition process_payment_info_body (message : Message) (contact payment_info user_tag : string)
  : M unit :=
  let user_id := msg_from_id message in
  cart_items <- session_query (Store.carts_of_user user_id) ;;
  match cart_items with
  | [] =>
      message_answer message "Ваша корзина пуста!" MainKeyboard ;;
      state_clear (fsm_key message)
  | _ :: _ =>
      texts <- order_lines cart_items
                 (order_header contact payment_info,
                  admin_header user_tag contact payment_info, 0) ;;
      let '(order_text, admin_order_text, total) := texts in
      let order_text := order_text +:+ order_footer total in
      let admin_order_text := admin_order_text +:+ admin_footer total in
      session_update (Store.delete_carts_of_user user_id) ;;
      session_commit ;;
      message_answer message order_text MainKeyboard ;;
      e <- gets env ;;
      bot_send_message (ChatStr (ADMIN_ID e)) admin_order_text NoMarkup ;;
      ret tt
  end.

Definition process_payment_info (message : Message) : M unit :=
  let payment_info := fmt_opt (msg_text message) in
  data <- state_get_data (fsm_key message) ;;
  let contact := fmt (default (VStr "не указан") (data !! "contact")) in
  let user_id := msg_from_id message in
  let user_tag :=
    match msg_username message with
    | Some (String c u) => "@" +:+ String c u
    | _ => "ID: " +:+ Py.str user_id
    end in
  Session_open ;;
  try_finally
    (try_except
       (process_payment_info_body message contact payment_info user_tag)
       (fun _ =>
          message_answer message "Произошла ошибка при оформлении заказа 😢" NoMarkup ;;
          ret tt))
    (session_close ;; state_clear (fsm_key message)).

(* ===================================================================== *)
(** * Catalog administration *)
(* ===================================================================== *)

Definition process_price (message : Message) : M unit :=
  try_except
    (txt <- expect (msg_text message) TypeError ;;
     price <- expect (Py.int txt) ValueError ;;
     state_update_data (fsm_key message) "price" (VInt price) ;;
     message_answer message "Введите описание товара:" NoMarkup ;;
     state_set_state (fsm_key message) AddProduct_waiting_description)
    (fun e =>
       match e with
       | ValueError =>
           message_answer message "❌ Цена должна быть числом! Попробуйте еще раз" NoMarkup ;;
           ret tt
       | _ => raise e
       end).

(** The [category_map] of [process_category]. *)
Definition admin_category_map (label : string) : option string :=
  if decide (label = "Мейн модели (main)") then Some "main"
  else if decide (label = "Спец. серии (special)") then Some "special"
  else if decide (label = "Премиум модели (premium)") then Some "premium"
  else if decide (label = "Замак модели (zamak)") then Some "zamak"
  else if decide (label = "Тим транспорт (team_transport)") then Some "team_transport"
  else None.

(** Modelled from the spec: [createItem] of the store, absent from the
    sources with the module [database]. The new row gets the identifier
    after the greatest one in the table and goes last. *)
Definition next_product_id (s : Store.t) : Z :=
  1 + fold_right Z.max 0 (map Product.id (Store.products s)).

Definition add_product (category name : string) (price : Z) (photo_id description : string)
    (s : Store.t) : Store.t :=
  Store.mk
    (Store.products s ++
       [Product.mk (next_product_id s) category name price photo_id description])
    (Store.carts s).

(** [data[key]] as the value of a text column and of the integer column of
    [Product]: a missing key is [KeyError]. The columns are declared in the
    module [database], which is not part of the sources; as the catalog
    item of the spec has a text name, description and image reference and
    an integer price, a value of another type is taken to be refused when
    the row is built. *)
Definition data_str (data : gmap string PyVal) (key : string) : M string :=
  v <- expect (data !! key) KeyError ;;
  match v with
  | VStr s => ret s
  | _ => raise TypeError
  end.

Definition data_int (data : gmap string PyVal) (key : string) : M Z :=
  v <- expect (data !! key) KeyError ;;
  match v with
  | VInt n => ret n
  | _ => raise TypeError
  end.

Definition process_category (message : Message) : M unit :=
  match msg_text message ≫= admin_category_map with
  | None =>
      message_answer message "❌ Выберите категорию из предложенных" NoMarkup ;;
      ret tt
  | Some category =>
      data <- state_get_data (fsm_key message) ;;
      Session_open ;;
      try_finally
        (try_except
           (name <- data_str data "name" ;;
            price <- data_int data "price" ;;
            photo_id <- data_str data "photo_id" ;;
            description <- data_str data "description" ;;
            session_update (add_product category name price photo_id description) ;;
            session_commit ;;
            message_answer message
              ("✅ Товар успешно добавлен в категорию " +:+ category +:+ "!" +:+ Py.nl +:+ Py.nl +:+
               "Название: " +:+ name +:+ Py.nl +:+
               "Цена: " +:+ Py.str price +:+ " руб.")
              MainKeyboard ;;
            ret tt)
           (fun _ =>
              message_answer message "❌ Ошибка при сохранении товара" NoMarkup ;;
              ret tt))
        (session_close ;; state_clear (fsm_key message))
  end.

(** The body of the loop of [process_delete_id] for one token. *)
Definition delete_one (id_str : string) (acc : list string * list string)
  : M (list string * list string) :=
  let '(deleted_products, not_found_ids) := acc in
  try_except
    (product_id <- expect (Py.int id_str) ValueError ;;
     found <- session_query (Store.product_by_id product_id) ;;
     match found with
     | Some product =>
         session_update (Store.delete_product product) ;;
         ret (deleted_products ++ [Product.name product], not_found_ids)
     | None => ret (deleted_products, not_found_ids ++ [Py.str product_id])
     end)
    (fun e =>
       match e with
       | ValueError => ret (deleted_products, not_found_ids ++ [id_str])
       | _ => raise e
       end).

Fixpoint delete_loop (ids : list string) (acc : list string * list string)
  : M (list string * list string) :=
  match ids with
  | [] => ret acc
  | id_str :: ids' => acc' <- delete_one id_str acc ;; delete_loop ids' acc'
  end.

Definition delete_response (deleted_products not_found_ids : list string) : string :=
  let response :=
    match deleted_products with
    | [] => ""
    | _ :: _ =>
        "✅ Удалены товары:" +:+ Py.nl +:+
        Py.join Py.nl (map (fun name => "• " +:+ name) deleted_products) +:+ Py.nl +:+ Py.nl
    end in
  let response :=
    match not_found_ids with
    | [] => response
    | _ :: _ => response +:+ "❌ Не найдены товары с ID: " +:+ Py.join ", " not_found_ids
    end in
  if String.eqb response "" then "Ничего не удалено" else response.

Definition process_delete_id (message : Message) : M unit :=
  (* the local variable [session] is not bound yet *)
  modify (set_session (fun _ => None)) ;;
  try_finally
    (try_except
       (txt <- expect (msg_text message) AttributeError ;;
        let ids := Py.split txt in
        Session_open ;;
        lists <- delete_loop ids ([], []) ;;
        let '(deleted_products, not_found_ids) := lists in
        session_commit ;;
        message_answer message (delete_response deleted_products not_found_ids)
          MainKeyboard ;;
        ret tt)
       (fun e =>
          env <- gets env ;;
          message_answer message ("❌ Произошла ошибка при удалении: " +:+ exn_str env e)
            NoMarkup ;;
          ret tt))
    (session_close ;; state_clear (fsm_key message)).

(* ===================================================================== *)
(** * Menu, and the way back to the list *)
(* ===================================================================== *)

Definition cmd_start (message : Message) : M unit :=
  message_answer message
    ("🚗 Добро пожаловать в Hot Wheels Kriak Shop!" +:+ Py.nl +:+ Py.nl +:+
     "Здесь вы можете найти нужную вам модель Hot Wheels." +:+ Py.nl +:+
     "Выберите категорию:")
    MainKeyboard ;;
  ret tt.

Definition back_to_menu (callback : CallbackQuery) : M unit :=
  message_answer (cb_message callback) "Выберите категорию:" MainKeyboard ;;
  callback_answer None.

(** [callback.data.split('_')[-1]] *)
Definition callback_category (data : string) : result string :=
  match Py.index (Py.split_on "_" data) (-1) with
  | Some category => Ok category
  | None => Raise IndexError
  end.

(** The [try] block of [back_to_list]. The value says how the block was
    left: [true] by one of its [return] statements, [false] by its end. *)
Definition back_to_list_body (callback : CallbackQuery) (category category_name : string)
  : M bool :=
  let user_id := cb_from_id callback in
  let message := cb_message callback in
  products <- session_query (Store.products_of_category category) ;;
  match products with
  | [] =>
      message_answer message "В этой категории пока нет товаров 😢" NoMarkup ;;
      ret true
  | _ :: _ =>
      ud <- gets user_data ;;
      u <- expect (ud !! user_id) KeyError ;;
      modify (set_user_data
                <[user_id := mkUserData (ud_category u) (products_dict products)
                               (last_msg_ids u)]>) ;;
      files <- gather_get_file (map Product.photo_id products) ;;
      e <- gets env ;;
      let photo_urls := map (file_url e) files in
      combined <- create_combined_message photo_urls products category_name ;;
      match combined with
      | None =>
          message_answer message "Ошибка при создании коллажа, показываем только список"
            NoMarkup ;;
          show_products_list message user_id ;;
          ret true
      | Some (collage_buffer, products_text, num_products) =>
          buttons <- lift (category_buttons products num_products) ;;
          msg <- message_answer_photo message
                   (BufferedInputFile collage_buffer "collage.jpg")
                   products_text (InlineKeyboardMarkup buttons) ;;
          set_last_msg_ids user_id [msg] ;;
          ret false
      end
  end.

(** [back_to_list] from [session = Session()] on. *)
Definition back_to_list_render (callback : CallbackQuery) (category category_name : string)
  : M unit :=
  Session_open ;;
  returned <-
    try_finally
      (try_except
         (back_to_list_body callback category category_name)
         (fun _ =>
            message_answer (cb_message callback) "Произошла ошибка 😢 Попробуйте позже."
              NoMarkup ;;
            ret false))
      session_close ;;
  if returned : bool then ret tt else callback_answer None.

Definition back_to_list (callback : CallbackQuery) : M unit :=
  let user_id := cb_from_id callback in
  category <- lift (callback_category (cb_data callback)) ;;
  ud <- gets user_data ;;
  match ud !! user_id with
  | None => callback_answer (Some "Ошибка навигации")
  | Some u =>
      if negb (String.eqb (ud_category u) category)
      then callback_answer (Some "Ошибка навигации")
      else
        let category_name := category_label category in
        match last_msg_ids u with
        | [] => ret tt
        | _ :: _ =>
            delete_previous_messages (msg_chat_id (cb_message callback)) (last_msg_ids u)
        end ;;
        back_to_list_render callback category category_name
  end.

(* ===================================================================== *)
(** * Cart *)
(* ===================================================================== *)

(** Modelled from the spec: the cart side of the module [database], which
    is not part of the sources ([addCartEntry], [removeCartEntry] of the
    spec's section 6). A new row gets the identifier after the greatest one
    in the table and goes last; a row is deleted by its primary key;
    [cart_item.product] is the product the row points to. *)
Definition next_cart_id (s : Store.t) : Z :=
  1 + fold_right Z.max 0 (map Cart.id (Store.carts s)).

Definition add_cart (user_id product_id : Z) (s : Store.t) : Store.t :=
  Store.mk (Store.products s)
    (Store.carts s ++ [Cart.mk (next_cart_id s) user_id product_id]).

Definition delete_cart (c : Cart.t) (s : Store.t) : Store.t :=
  Store.mk (Store.products s) (filter (fun d => Cart.id d ≠ Cart.id c) (Store.carts s)).

(** [query(Cart).filter(Cart.user_id == u, Cart.product_id == p).first()] *)
Definition cart_of_user_product (u p : Z) (s : Store.t) : option Cart.t :=
  head (filter (fun c => Cart.user_id c = u /\ Cart.product_id c = p) (Store.carts s)).

(** [query(Cart).filter(Cart.id == i, Cart.user_id == u).first()] *)
Definition cart_by_id_of_user (i u : Z) (s : Store.t) : option Cart.t :=
  head (filter (fun c => Cart.id c = i /\ Cart.user_id c = u) (Store.carts s)).

(** A handler awaited by another handler: it has a local variable [session]
    of its own, and the caller's is as it was when the call returns. *)
Definition call {A} (m : M A) : M A :=
  fun w => match m w with
           | (r, w') => (r, set_session (fun _ => session w) w')
           end.

Definition add_to_cart (callback : CallbackQuery) : M unit :=
  let user_id := cb_from_id callback in
  product_id <- lift (callback_product_id (cb_data callback)) ;;
  Session_open ;;
  try_finally
    (try_except
       (exists_ <- session_query (cart_of_user_product user_id product_id) ;;
        match exists_ with
        | None =>
            session_update (add_cart user_id product_id) ;;
            session_commit ;;
            callback_answer (Some "Товар добавлен в корзину! 🛒")
        | Some _ => callback_answer (Some "Этот товар уже в корзине")
        end)
       (fun _ => callback_answer (Some "Ошибка при добавлении 😢")))
    session_close.

(** One line of the cart:
    [f"• {product.name} - {product.price} руб. [<a href='tg://btn/{item.id}'>❌</a>]\n"] *)
Definition cart_line (item : Cart.t) (product : Product.t) : string :=
  "• " +:+ Product.name product +:+ " - " +:+ Py.str (Product.price product) +:+
  " руб. [<a href='tg://btn/" +:+ Py.str (Cart.id item) +:+ "'>❌</a>]" +:+ Py.nl.

(** The loop over the cart of [show_cart]: the text and the total. *)
Fixpoint cart_lines (cart_items : list Cart.t) (acc : string * Z) : M (string * Z) :=
  match cart_items with
  | [] => ret acc
  | item :: cart_items' =>
      let '(cart_text, total) := acc in
      found <- session_query (Store.product_by_id (Cart.product_id item)) ;;
      product <- expect found AttributeError ;;
      cart_lines cart_items' (cart_text +:+ cart_line item product, total + Product.price product)
  end.

Definition cart_keyboard : Markup :=
  InlineKeyboardMarkup
    [[mkButton "❌ Очистить корзину" "clear_cart";
      mkButton "💳 Оформить заказ" "checkout"]].

Definition cart_header : string := "<b>🛒 Ваша корзина:</b>" +:+ Py.nl +:+ Py.nl.

Definition cart_footer (total : Z) : string :=
  Py.nl +:+ "💸 Итого к оплате: <b>" +:+ Py.str total +:+ " руб.</b>".

Definition show_cart (message : Message) : M unit :=
  let user_id := msg_from_id message in
  Session_open ;;
  try_finally
    (try_except
       (cart_items <- session_query (Store.carts_of_user user_id) ;;
        match cart_items with
        | [] => message_answer message "Ваша корзина пуста 🛒" MainKeyboard ;; ret tt
        | _ :: _ =>
            texts <- cart_lines cart_items (cart_header, 0) ;;
            let '(cart_text, total) := texts in
            let cart_text := cart_text +:+ cart_footer total in
            msg <- message_answer message cart_text cart_keyboard ;;
            ud <- gets user_data ;;
            match ud !! user_id with
            | Some _ => set_last_msg_ids user_id [msg]
            | None => ret tt
            end
        end)
       (fun _ =>
          message_answer message "Произошла ошибка при загрузке корзины 😢" NoMarkup ;;
          ret tt))
    session_close.

Definition handle_cart_message (message : Message) : M unit :=
  call (show_cart message).

Definition remove_from_cart (callback : CallbackQuery) : M unit :=
  cart_id <- lift (callback_product_id (cb_data callback)) ;;
  let user_id := cb_from_id callback in
  Session_open ;;
  try_finally
    (try_except
       (cart_item <- session_query (cart_by_id_of_user cart_id user_id) ;;
        match cart_item with
        | Some cart_item =>
            found <- session_query (Store.product_by_id (Cart.product_id cart_item)) ;;
            product <- expect found AttributeError ;;
            let product_name := Product.name product in
            session_update (delete_cart cart_item) ;;
            session_commit ;;
            callback_answer (Some ("Товар " +:+ product_name +:+ " удален из корзины")) ;;
            call (show_cart (cb_message callback))
        | None => callback_answer (Some "Товар не найден в корзине")
        end)
       (fun _ => callback_answer (Some "Ошибка при удалении 😢")))
    session_close.

Definition clear_cart (callback : CallbackQuery) : M unit :=
  let user_id := cb_from_id callback in
  Session_open ;;
  try_finally
    (try_except
       (session_update (Store.delete_carts_of_user user_id) ;;
        session_commit ;;
        callback_answer (Some "Корзина очищена!") ;;
        message_answer (cb_message callback) "Ваша корзина пуста 🛒" MainKeyboard ;;
        ret tt)
       (fun _ => callback_answer (Some "Ошибка при очистке корзины 😢")))
    session_close.

(* ===================================================================== *)
(** * Checkout: the contact *)
(* ===================================================================== *)

Definition process_phone (message : Message) : M unit :=
  if decide (msg_text message = Some "Отменить заказ") then
    message_answer message "Оформление заказа отменено" MainKeyboard ;;
    state_clear (fsm_key message)
  else
    let contact :=
      match msg_contact message with
      | Some phone_number => VStr phone_number
      | None => match msg_text message with
                | Some txt => VStr txt
                | None => VNone
                end
      end in
    state_update_data (fsm_key message) "contact" contact ;;
    message_answer message
      "Теперь укажите предпочитаемый способ оплаты (карта, наличные и т.д.):"
      ReplyKeyboardRemove ;;
    state_set_state (fsm_key message) OrderStates_waiting_payment_info.

(* ===================================================================== *)
(** * Catalog administration: the commands and the first steps *)
(* ===================================================================== *)

(** [str(message.from_user.id) != ADMIN_ID] *)
Definition not_admin (e : Env) (message : Message) : bool :=
  negb (String.eqb (Py.str (msg_from_id message)) (ADMIN_ID e)).

Definition cmd_add (message : Message) : M unit :=
  e <- gets env ;;
  if not_admin e message then
    message_answer message "Эта команда доступна только администратору" NoMarkup ;;
    ret tt
  else
    message_answer message "Отправьте фото товара" NoMarkup ;;
    state_set_state (fsm_key message) AddProduct_waiting_photo.

(** [process_photo]: [photo] is [message.photo], the file identifiers of the
    sizes of the picture, the largest last. *)
Definition process_photo (message : Message) (photo : list string) : M unit :=
  file_id <- expect (Py.index photo (-1)) IndexError ;;
  state_update_data (fsm_key message) "photo_id" (VStr file_id) ;;
  message_answer message "Отлично! Теперь введите название товара:" NoMarkup ;;
  state_set_state (fsm_key message) AddProduct_waiting_name.

Definition process_name (message : Message) : M unit :=
  state_update_data (fsm_key message) "name"
    (match msg_text message with Some txt => VStr txt | None => VNone end) ;;
  message_answer message "Введите цену товара (только число):" NoMarkup ;;
  state_set_state (fsm_key message) AddProduct_waiting_price.

(** One line of the list of [cmd_delete]: [f"{p.id}: {p.name}"] *)
Definition delete_list_line (p : Product.t) : string :=
  Py.str (Product.id p) +:+ ": " +:+ Product.name p.

Definition cmd_delete (message : Message) : M unit :=
  e <- gets env ;;
  if not_admin e message then
    message_answer message "Эта команда доступна только администратору" NoMarkup ;;
    ret tt
  else
    Session_open ;;
    try_finally
      (products <- session_query Store.products ;;
       match products with
       | [] => message_answer message "Нет товаров для удаления" NoMarkup ;; ret tt
       | _ :: _ =>
           let products_list := Py.join Py.nl (map delete_list_line products) in
           message_answer message
             ("Список товаров (ID: Название):" +:+ Py.nl +:+ products_list +:+ Py.nl +:+ Py.nl +:+
              "Введите ID товаров для удаления через пробел:")
             NoMarkup ;;
           state_set_state (fsm_key message) DeleteProduct_waiting_id
       end)
      session_close.

Definition cmd_myid (message : Message) : M unit :=
  message_answer message
    ("Ваш ID: " +:+ Py.str (msg_from_id message) +:+ Py.nl +:+
     "Ваш тег: @" +:+
     match msg_username message with
     | Some (String c u) => String c u
     | _ => "отсутствует"
     end)
    NoMarkup ;;
  ret tt.

(* ===================================================================== *)
(** * Vocabulary of the statements *)
(* ===================================================================== *)

Definition is_send (e : Event) : bool :=
  match e with SendMessage _ _ _ _ => true | _ => false end.

(** The messages a trace sent as photos, and those it tried to delete. *)
Definition sent_ids (t : list Event) : list Z :=
  omap (fun e => match e with SendPhoto _ _ _ _ res => res | _ => None end) t.

Definition retracted_ids (t : list Event) : list Z :=
  omap (fun e => match e with DeleteMessage _ message_id _ => Some message_id | _ => None end) t.

Definition is_fetch (e : Event) : bool :=
  match e with
  | GetFile _ _ | HttpGet _ _ => true
  | _ => false
  end.

(** From [w] to [w']: only files and images were fetched. *)
Definition fetches_only (w w' : World) : Prop :=
  env w' = env w /\ db w' = db w /\ session w' = session w /\
  user_data w' = user_data w /\ fsm w' = fsm w /\
  exists evs, trace w' = trace w ++ evs /\ Forall (fun e => is_fetch e = true) evs.

(** The calls [delete_previous_messages] makes, from the clock [c] on. *)
Fixpoint retraction_events (e : Env) (c : nat) (chat_id : Z) (message_ids : list Z)
  : list Event :=
  match message_ids with
  | [] => []
  | msg_id :: message_ids' =>
      DeleteMessage chat_id msg_id (api_ok e c) :: retraction_events e (S c) chat_id message_ids'
  end.

(** What a category render may send: fetches, texts to the chat, and the
    collage with the given caption and keyboard. *)
Definition render_event (chat_id : Z) (caption : string) (markup : Markup) (e : Event)
  : Prop :=
  match e with
  | GetFile _ _ | HttpGet _ _ => True
  | SendMessage chat _ _ _ => chat = ChatInt chat_id
  | SendPhoto chat (BufferedInputFile _ filename) cap mk _ =>
      chat = ChatInt chat_id /\ filename = "collage.jpg" /\ cap = caption /\ mk = markup
  | _ => False
  end.

(** The caption, line by line. *)
Definition caption_lines (products : list Product.t) : list string :=
  map (fun '(idx, product) => product_line idx product) (Py.enumerate products 1).

(** The products the rows of a cart point to; [None] when a row points to
    no product of the catalog. *)
Definition cart_products (s : Store.t) (cart_items : list Cart.t) : option (list Product.t) :=
  mapM (fun item => Store.product_by_id (Cart.product_id item) s) cart_items.

Definition order_line (product : Product.t) : string :=
  "• " +:+ Product.name product +:+ " - " +:+ Py.str (Product.price product) +:+ " руб." +:+ Py.nl.

Definition order_items_text (products : list Product.t) : string :=
  foldr (fun product rest => order_line product +:+ rest) "" products.

Definition sum_prices (products : list Product.t) : Z :=
  foldr Z.add 0 (Product.price <$> products).

Definition order_contact (message : Message) (w : World) : string :=
  fmt (default (VStr "не указан") (fsm_data (fsm_ctx (fsm_key message) w) !! "contact")).

Definition order_user_tag (message : Message) : string :=
  match msg_username message with
  | Some (String c u) => "@" +:+ String c u
  | _ => "ID: " +:+ Py.str (msg_from_id message)
  end.

(** The loop of [process_delete_id] as a function of the store: the store
    after the tokens, the names reported deleted, the identifiers reported
    not found. *)
Fixpoint sweep (s : Store.t) (ids : list string) : Store.t * list string * list string :=
  match ids with
  | [] => (s, [], [])
  | id_str :: ids' =>
      match Py.int id_str with
      | None => let '(s', deleted, not_found) := sweep s ids' in (s', deleted, id_str :: not_found)
      | Some product_id =>
          match Store.product_by_id product_id s with
          | Some product =>
              let '(s', deleted, not_found) := sweep (Store.delete_product product s) ids' in
              (s', Product.name product :: deleted, not_found)
          | None =>
              let '(s', deleted, not_found) := sweep s ids' in
              (s', deleted, Py.str product_id :: not_found)
          end
      end
  end.

(** A text without the character [_]. *)
Definition no_underscore (s : string) : Prop :=
  forall c, In c (list_ascii_of_string s) -> c <> "_"%char.

(** What [back_to_list] may do once it has retracted the recorded messages:
    fetch, send texts to the chat, send the collage with the given caption
    and keyboard, retract again on the way to the text list, and answer the
    callback without a text. *)
Definition relist_event (chat_id : Z) (caption : string) (markup : Markup) (e : Event)
  : Prop :=
  match e with
  | GetFile _ _ | HttpGet _ _ | AnswerCallback None _ => True
  | DeleteMessage chat _ _ => chat = chat_id
  | SendMessage chat _ _ _ => chat = ChatInt chat_id
  | SendPhoto chat (BufferedInputFile _ filename) cap mk _ =>
      chat = ChatInt chat_id /\ filename = "collage.jpg" /\ cap = caption /\ mk = markup
  | _ => False
  end.

(** What a cart row says: which user holds which product. *)
Definition cart_key (c : Cart.t) : Z * Z := (Cart.user_id c, Cart.product_id c).

(** The lines of the cart text, a row and its product at a time. *)
Definition cart_items_text (cart_items : list Cart.t) (products : list Product.t) : string :=
  foldr (fun '(item, product) rest => cart_line item product +:+ rest) ""
    (zip cart_items products).

(** The characters of a text of single bytes. *)
Definition singles (s : string) : list string :=
  (fun c => String c "") <$> list_ascii_of_string s.

(** An ASCII text without white space. *)
Definition no_space (s : string) : Prop :=
  forall c, In c (list_ascii_of_string s) ->
    (nat_of_ascii c < 127)%nat /\ Py.is_space (String c "") = false.

(** The [getFile] calls of one render, from the clock [c] on, each with its
    answer. *)
Fixpoint get_file_events (e : Env) (c : nat) (file_ids : list string) : list Event :=
  match file_ids with
  | [] => []
  | file_id :: file_ids' =>
      GetFile file_id (api_get_file e c file_id) :: get_file_events e (S c) file_ids'
  end.

Definition get_file_answer (e : Event) : option string :=
  match e with
  | GetFile _ res => res
  | _ => None
  end.

(* ===================================================================== *)
(** * A small shop, for the examples *)
(* ===================================================================== *)

Module Demo.
Definition bone_shaker : Product.t :=
  Product.mk 5 "main" "Bone Shaker" 100 "photo-A" "Hot rod with a skull".
Definition twin_mill : Product.t :=
  Product.mk 7 "main" "Twin Mill" 250 "photo-B" "Two engines".
Definition deora : Product.t :=
  Product.mk 9 "premium" "Deora II" 400 "photo-C" "Surf truck".

(** The buyer 42 has the two main models in the cart. *)
Definition shop : Store.t :=
  Store.mk [bone_shaker; twin_mill; deora]
           [Cart.mk 1 42 5; Cart.mk 2 42 7; Cart.mk 3 77 9].

Definition url_of (photo : string) : string :=
  "https://api.telegram.org/file/botTOKEN/photos/" +:+ photo.

(** Every call succeeds but one: the picture of the first product is not
    served. The [n]-th call that sends a message returns the identifier
    [1000 + n]. *)
Definition outside : Env :=
  mkEnv "TOKEN" "1"
    (fun n => Some (1000 + Z.of_nat n))
    (fun _ => true)
    (fun _ file_id => Some ("photos/" +:+ file_id))
    (fun _ url => if String.eqb url (url_of "photo-A")
                  then HttpStatus 404 ""
                  else HttpStatus 200 url)
    (fun data => Some (mkImage (400, 300) data))
    (fun image _ => Some image)
    (fun _ => Some "JPEG")
    (fun _ => "error").

(** The same, but the second call that sends a message fails. *)
Definition flaky : Env :=
  mkEnv "TOKEN" "1"
    (fun n => if Nat.eqb n 1 then None else Some (1000 + Z.of_nat n))
    (fun _ => true)
    (fun _ file_id => Some ("photos/" +:+ file_id))
    (fun _ url => HttpStatus 200 url)
    (fun data => Some (mkImage (400, 300) data))
    (fun image _ => Some image)
    (fun _ => Some "JPEG")
    (fun _ => "error").

Definition world : World := mkWorld outside shop None ∅ ∅ ∅ 0 [].

Definition says (txt : string) : Message :=
  mkMessage 42 42 (Some "racer") (Some txt) None.

Definition presses (data : string) : CallbackQuery :=
  mkCallback 42 data (mkMessage 42 42 (Some "racer") None None).

(** The buyer is asked for the payment method. *)
Definition paying (e : Env) : World :=
  mkWorld e shop None ∅ ∅
    {[ (42, 42) := mkFsm (Some OrderStates_waiting_payment_info)
                     {[ "contact" := VStr "+100200300" ]} ]}
    0 [].

(** The operator is asked for the price of a new product, then for its
    category. *)
Definition pricing : World :=
  mkWorld outside shop None ∅ ∅
    {[ (42, 42) := mkFsm (Some AddProduct_waiting_price)
                     {[ "photo_id" := VStr "photo-D"; "name" := VStr "Rodger Dodger" ]} ]}
    0 [].

Definition deleting : World :=
  mkWorld outside shop None ∅ ∅
    {[ (42, 42) := mkFsm (Some DeleteProduct_waiting_id) ∅ ]}
    0 [].

Definition thumb (n : string) : Image := mkImage (400, 300) n.
End Demo.

(** More of the shop: a truck of the transport category, the operator (the
    user 1 of [Demo.outside]), and button presses as Telegram delivers
    them, under a message the bot (the user 999) sent to the chat 42. *)
Module Scenes.
Definition hauler : Product.t :=
  Product.mk 11 "team_transport" "Hauler" 900 "photo-E" "Car carrier".

Definition garage : Store.t :=
  Store.mk [Demo.bone_shaker; Demo.twin_mill; Demo.deora; hauler]
           [Cart.mk 1 42 5; Cart.mk 2 42 7; Cart.mk 3 77 9].

Definition depot : World := mkWorld Demo.outside garage None ∅ ∅ ∅ 0 [].

Definition taps (data : string) : CallbackQuery :=
  mkCallback 42 data (mkMessage 42 999 (Some "hotwheels_bot") None None).

Definition operator_says (txt : string) : Message :=
  mkMessage 1 1 (Some "boss") (Some txt) None.

(** A message of the operator without a text: a photo. *)
Definition operator_sends : Message := mkMessage 1 1 (Some "boss") None None.

(** A message of the buyer without a text: a photo. *)
Definition sends_photo : Message := mkMessage 42 42 (Some "racer") None None.

(** The buyer shares the phone number. *)
Definition shares_contact : Message :=
  mkMessage 42 42 (Some "racer") None (Some "+100200300").

(** [getFile] fails for the picture of the second product. *)
Definition no_file : Env :=
  mkEnv "TOKEN" "1"
    (fun n => Some (1000 + Z.of_nat n))
    (fun _ => true)
    (fun _ file_id => if String.eqb file_id "photo-B" then None
                      else Some ("photos/" +:+ file_id))
    (fun _ url => HttpStatus 200 url)
    (fun data => Some (mkImage (400, 300) data))
    (fun image _ => Some image)
    (fun _ => Some "JPEG")
    (fun _ => "error").

(** The operator has given the picture, the name, the price and the
    description of a new product. *)
Definition describing : World :=
  mkWorld Demo.outside Demo.shop None ∅ ∅
    {[ (1, 1) := mkFsm (Some AddProduct_waiting_category)
                   {[ "photo_id" := VStr "photo-D"; "name" := VStr "Rodger Dodger";
                      "price" := VInt 300; "description" := VStr "Muscle car" ]} ]}
    0 [].

(** The operator is asked which products to delete. *)
Definition purging : World :=
  mkWorld Demo.outside Demo.shop None ∅ ∅
    {[ (1, 1) := mkFsm (Some DeleteProduct_waiting_id) ∅ ]}
    0 [].

(** The buyer is asked for the payment method while the operator is asked
    which products to delete. *)
Definition crossing : World :=
  mkWorld Demo.outside Demo.shop None ∅ ∅
    {[ (42, 42) := mkFsm (Some OrderStates_waiting_payment_info)
                     {[ "contact" := VStr "+100200300" ]};
       (1, 1) := mkFsm (Some DeleteProduct_waiting_id) ∅ ]}
    0 [].

(** The buyer is asked for the contact. *)
Definition contacting : World :=
  mkWorld Demo.outside Demo.shop None ∅ ∅
    {[ (42, 42) := mkFsm (Some OrderStates_waiting_phone) ∅ ]}
    0 [].
End Scenes.

(** Unfolding of the monad and of the fields of the world, leaving maps,
    lists and texts as they are. *)
Ltac run :=
  repeat (progress (
    cbv beta iota zeta delta
      [bind ret raise gets modify try_except try_finally expect lift
       set_db set_session set_user_data set_image_cache set_fsm note emit
       bot_send_message message_answer message_answer_photo bot_delete_message
       callback_answer session_get bot_get_file
       Session_open the_session session_query session_update session_commit session_close
       state_get_data state_update_data state_set_state state_clear
       set_last_msg_ids retract_last];
    cbn [env db session user_data image_cache fsm clock trace fst snd
         ud_category ud_products last_msg_ids fsm_state fsm_data])).

Ltac events_ok :=
  repeat (apply List.Forall_cons; [cbn; repeat split; reflexivity|]); apply List.Forall_nil.

(** The context of a conversation looked up after updates of the storage. *)
Ltac fsm_look :=
  repeat (progress (unfold fsm_ctx; cbn [fsm fsm_data fsm_state default from_option id];
                    rewrite ?lookup_insert_eq)).

(** Every event of a list satisfies [relist_event]; [tac] closes the parts
    that are retractions. *)
Ltac relist_ok tac :=
  repeat first
    [ assumption
    | apply List.Forall_nil
    | apply List.Forall_cons; [cbn; repeat split; reflexivity|]
    | tac
    | apply Forall_app; split ].

(* ===================================================================== *)
(** * Facts about the text primitives *)
(* ===================================================================== *)

Example py_int_examples :
  Py.int "12" = Some 12 /\ Py.int " -7 " = Some (-7) /\ Py.int "+5" = Some 5 /\
  Py.int "1_000" = Some 1000 /\ Py.int "007" = Some 7 /\
  Py.int "9x" = None /\ Py.int "" = None /\ Py.int "1__0" = None /\
  Py.int "_1" = None /\ Py.int "1_" = None /\ Py.int "- 5" = None /\
  Py.int "12.5" = None /\ Py.int "5 6" = None /\
  Py.int (String (ascii_of_nat 28) "5") = None.
Proof. repeat split; reflexivity. Qed.

Example py_split_examples :
  Py.split "5 9x 7" = ["5"; "9x"; "7"] /\ Py.split "  a  b " = ["a"; "b"] /\
  Py.split "" = [] /\
  Py.split_on "_" "product_12" = ["product"; "12"] /\
  Py.split_on "_" "back_to_list_main" = ["back"; "to"; "list"; "main"] /\
  Py.split_on "_" "abc" = ["abc"].
Proof. repeat split; reflexivity. Qed.

Example py_str_examples :
  Py.str 0 = "0" /\ Py.str 350 = "350" /\ Py.str (-12) = "-12".
Proof. repeat split; reflexivity. Qed.

(** Digits and white space outside ASCII (full-width and Arabic-Indic
    digits, the no-break space U+00A0, the ideographic space U+3000), and
    texts that hold neither. *)
Example py_unicode_examples :
  let nbsp := String (ascii_of_nat 194) (String (ascii_of_nat 160) "") in
  let wide := String (ascii_of_nat 227) (String (ascii_of_nat 128)
                (String (ascii_of_nat 128) "")) in
  Py.int "１２" = Some 12 /\ Py.int "٣" = Some 3 /\
  Py.int (nbsp +:+ "5" +:+ nbsp) = Some 5 /\
  Py.int "сто" = None /\ Py.int "12 руб" = None /\
  Py.split ("5" +:+ nbsp +:+ "7") = ["5"; "7"] /\
  Py.split ("5" +:+ wide +:+ "9x") = ["5"; "9x"] /\
  Py.split "сто рублей" = ["сто"; "рублей"] /\
  Py.chars "aя€😀" = ["a"; "я"; "€"; "😀"] /\
  Py.ord <$> Py.chars "aя€😀" = [0x61; 0x44f; 0x20ac; 0x1f600] /\
  Py.ord nbsp = 0xa0 /\ Py.ord wide = 0x3000.
Proof. repeat split; reflexivity. Qed.

Module PyFacts.

Lemma chars_go_singles (s cur : string) :
  (forall c, In c (list_ascii_of_string s) -> Py.is_continuation c = false) ->
  Py.chars_go s cur = cur :: singles s.
Proof.
  revert cur. induction s as [|c s IH]; intros cur H; [reflexivity|].
  cbn [Py.chars_go]. rewrite (H c) by (left; reflexivity).
  rewrite IH by (intros d Hd; apply H; right; exact Hd). reflexivity.
Qed.

Lemma chars_singles (s : string) :
  (forall c, In c (list_ascii_of_string s) -> Py.is_continuation c = false) ->
  Py.chars s = singles s.
Proof.
  destruct s as [|c s]; intros H; [reflexivity|]. unfold Py.chars.
  rewrite chars_go_singles by (intros d Hd; apply H; right; exact Hd). reflexivity.
Qed.

Lemma low_byte (c : ascii) :
  (nat_of_ascii c < 128)%nat -> Py.is_continuation c = false.
Proof.
  intros H. unfold Py.is_continuation, Py.byte_of.
  apply andb_false_iff. left. apply Z.leb_gt. lia.
Qed.

Lemma ascii_of_low_char (c : ascii) :
  (nat_of_ascii c < 127)%nat -> Py.ascii_of_char (String c "") = c.
Proof.
  intros H. unfold Py.ascii_of_char, Py.ord. cbn [list_ascii_of_string fmap list_fmap].
  unfold Py.byte_of.
  replace (Z.of_nat (nat_of_ascii c) <? 128) with true by (symmetry; apply Z.ltb_lt; lia).
  replace ((0 <=? Z.of_nat (nat_of_ascii c)) && (Z.of_nat (nat_of_ascii c) <? 127)) with true.
  - rewrite Nat2Z.id. apply ascii_nat_embedding.
  - symmetry. apply andb_true_iff. split; [apply Z.leb_le | apply Z.ltb_lt]; lia.
Qed.

(** A text of characters below 127 is read by [int] as it is. *)
Lemma to_ascii_low (s : string) :
  (forall c, In c (list_ascii_of_string s) -> (nat_of_ascii c < 127)%nat) ->
  Py.to_ascii s = s.
Proof.
  intros H. unfold Py.to_ascii.
  rewrite chars_singles by (intros c Hc; apply low_byte; specialize (H c Hc); lia).
  unfold singles. induction s as [|c s IH]; [reflexivity|].
  cbn [list_ascii_of_string fmap list_fmap string_of_list_ascii].
  rewrite ascii_of_low_char by (apply H; left; reflexivity).
  f_equal. apply IH. intros d Hd. apply H. right. exact Hd.
Qed.

Lemma uint_low (d : uint) (c : ascii) :
  In c (list_ascii_of_string (NilEmpty.string_of_uint d)) -> (nat_of_ascii c < 127)%nat.
Proof.
  induction d; cbn; intros H; try contradiction;
    destruct H as [<-|H]; try (apply Nat.ltb_lt; reflexivity); apply IHd; exact H.
Qed.

Lemma scan_digits_of_uint (d : uint) :
  Py.scan_digits (NilEmpty.string_of_uint d) true = Some (d, "").
Proof.
  induction d; simpl; try reflexivity; rewrite IHd; reflexivity.
Qed.

Lemma scan_digits_nonnil (d : uint) :
  d <> Nil -> Py.scan_digits (NilEmpty.string_of_uint d) false = Some (d, "").
Proof.
  destruct d; intros H; try congruence; simpl;
    rewrite scan_digits_of_uint; reflexivity.
Qed.

Lemma int_of_uint_string (d : uint) :
  d <> Nil -> Py.int (NilEmpty.string_of_uint d) = Some (Z.of_uint d).
Proof.
  intros H. unfold Py.int. rewrite to_ascii_low by apply uint_low.
  unfold Py.long_of_ascii.
  assert (Hs : Py.skip_spaces (NilEmpty.string_of_uint d) = NilEmpty.string_of_uint d)
    by (destruct d; try congruence; reflexivity).
  rewrite Hs.
  assert (Hg : (match NilEmpty.string_of_uint d with
                | String "-"%char r => (true, r)
                | String "+"%char r => (false, r)
                | _ => (false, NilEmpty.string_of_uint d)
                end) = (false, NilEmpty.string_of_uint d))
    by (destruct d; try congruence; reflexivity).
  rewrite Hg. rewrite scan_digits_nonnil by assumption. reflexivity.
Qed.

Lemma int_of_neg_uint_string (d : uint) :
  d <> Nil -> Py.int (String "-" (NilEmpty.string_of_uint d)) = Some (- Z.of_uint d).
Proof.
  intros H. unfold Py.int.
  rewrite to_ascii_low
    by (intros c [<-|Hc]; [apply Nat.ltb_lt; reflexivity | apply (uint_low d); exact Hc]).
  unfold Py.long_of_ascii.
  change (Py.skip_spaces (String "-" (NilEmpty.string_of_uint d)))
    with (String "-" (NilEmpty.string_of_uint d)).
  cbv iota beta. rewrite scan_digits_nonnil by assumption. reflexivity.
Qed.

Lemma string_of_uint_nonnil (d : uint) :
  d <> Nil -> NilZero.string_of_uint d = NilEmpty.string_of_uint d.
Proof. destruct d; intros H; try congruence; reflexivity. Qed.

(** [int(str(n)) == n] *)
Lemma int_str (n : Z) : Py.int (Py.str n) = Some n.
Proof.
  unfold Py.str. destruct n as [|p|p]; simpl.
  - reflexivity.
  - pose proof (DecimalPos.Unsigned.to_uint_nonnil p) as Hn.
    rewrite string_of_uint_nonnil, int_of_uint_string by assumption.
    f_equal. apply (DecimalZ.of_to (Z.pos p)).
  - pose proof (DecimalPos.Unsigned.to_uint_nonnil p) as Hn.
    rewrite string_of_uint_nonnil, int_of_neg_uint_string by assumption.
    f_equal. apply (DecimalZ.of_to (Z.neg p)).
Qed.

(** The decimal text of a number holds no underscore. *)
Lemma split_on_uint (d : uint) :
  Py.split_on "_" (NilEmpty.string_of_uint d) = [NilEmpty.string_of_uint d].
Proof. induction d; simpl; try reflexivity; rewrite IHd; reflexivity. Qed.

Lemma split_on_str (n : Z) : Py.split_on "_" (Py.str n) = [Py.str n].
Proof.
  unfold Py.str. destruct n as [|p|p]; simpl; try reflexivity.
  - rewrite string_of_uint_nonnil by apply DecimalPos.Unsigned.to_uint_nonnil.
    apply split_on_uint.
  - rewrite string_of_uint_nonnil by apply DecimalPos.Unsigned.to_uint_nonnil.
    rewrite split_on_uint. reflexivity.
Qed.

Lemma split_on_product (n : Z) :
  Py.split_on "_" ("product_" +:+ Py.str n) = ["product"; Py.str n].
Proof.
  pose proof (split_on_str n) as H. remember (Py.str n) as s.
  unfold String.append. simpl. fold String.append. rewrite H. reflexivity.
Qed.

End PyFacts.

(* ===================================================================== *)
(** * Facts about lists and texts *)
(* ===================================================================== *)

Lemma append_assoc (a b c : string) : (a +:+ b) +:+ c = a +:+ (b +:+ c).
Proof.
  induction a as [|x a IH]; [reflexivity|].
  change (String x ((a +:+ b) +:+ c) = String x (a +:+ (b +:+ c))). now rewrite IH.
Qed.

Lemma append_empty_r (a : string) : a +:+ "" = a.
Proof.
  induction a as [|x a IH]; [reflexivity|].
  change (String x (a +:+ "") = String x a). now rewrite IH.
Qed.

Lemma enumerate_length {A} (l : list A) (start : Z) :
  length (Py.enumerate l start) = length l.
Proof. revert start. induction l as [|x l IH]; intros start; simpl; [reflexivity|]. now rewrite IH. Qed.

Lemma enumerate_lookup {A} (l : list A) (start : Z) (i : nat) (x : A) :
  l !! i = Some x -> Py.enumerate l start !! i = Some (start + Z.of_nat i, x).
Proof.
  revert start i. induction l as [|y l IH]; intros start i H; [discriminate|].
  destruct i as [|i]; simpl in *.
  - injection H as ->. f_equal. f_equal. lia.
  - rewrite (IH (start + 1) i H). f_equal. f_equal. lia.
Qed.

Lemma lookup_map {A B} (f : A -> B) (l : list A) (i : nat) :
  map f l !! i = f <$> l !! i.
Proof. revert i. induction l as [|x l IH]; intros [|i]; simpl; auto. Qed.

Lemma filter_ext_in {A} (P Q : A -> Prop) `{!∀ x, Decision (P x)} `{!∀ x, Decision (Q x)}
    (l : list A) :
  (forall x, x ∈ l -> P x <-> Q x) -> filter P l = filter Q l.
Proof.
  induction l as [|x l IH]; intros Hpq; [reflexivity|].
  rewrite !filter_cons.
  assert (Hl : filter P l = filter Q l) by (apply IH; intros y Hy; apply Hpq; now right).
  pose proof (Hpq x ltac:(left)) as Hx.
  destruct (decide (P x)), (decide (Q x)); try tauto; now rewrite Hl.
Qed.

Lemma filter_all {A} (P : A -> Prop) `{!∀ x, Decision (P x)} (l : list A) :
  (forall x, x ∈ l -> P x) -> filter P l = l.
Proof.
  induction l as [|x l IH]; intros Hp; [reflexivity|].
  rewrite filter_cons_True by (apply Hp; left). f_equal. apply IH.
  intros y Hy. apply Hp. now right.
Qed.

Lemma seqZ_succ (m : Z) (k : nat) :
  seqZ m (Z.of_nat (S k)) = m :: seqZ (m + 1) (Z.of_nat k).
Proof.
  rewrite seqZ_cons by lia. f_equal. f_equal; lia.
Qed.

Lemma index_app_middle {A} (pre : list A) (x : A) (post : list A) :
  Py.index (pre ++ x :: post) (Z.of_nat (length pre)) = Some x.
Proof.
  unfold Py.index. destruct (Z.ltb_spec (Z.of_nat (length pre)) 0) as [H|_]; [lia|].
  rewrite Nat2Z.id. apply list_lookup_middle. reflexivity.
Qed.

Lemma callback_of_button (n : Z) :
  callback_product_id ("product_" +:+ Py.str n) = Ok n.
Proof.
  unfold callback_product_id. rewrite PyFacts.split_on_product.
  change (Py.index ["product"; Py.str n] 1) with (Some (Py.str n)).
  cbv beta iota. rewrite PyFacts.int_str. reflexivity.
Qed.

(* ===================================================================== *)
(** * Facts about the store *)
(* ===================================================================== *)

Lemma product_by_id_Some (n : Z) (s : Store.t) (p : Product.t) :
  Store.product_by_id n s = Some p -> Product.id p = n /\ p ∈ Store.products s.
Proof.
  unfold Store.product_by_id. intros H. apply head_Some in H as [l Hl].
  assert (Hin : p ∈ filter (λ q : Product.t, Product.id q = n) (Store.products s))
    by (rewrite Hl; left).
  apply list_elem_of_filter in Hin. exact Hin.
Qed.

Lemma product_by_id_None (n : Z) (s : Store.t) :
  Store.product_by_id n s = None <-> forall p, p ∈ Store.products s -> Product.id p ≠ n.
Proof.
  unfold Store.product_by_id. rewrite head_None. split.
  - intros H p Hp Hid.
    assert (Hin : p ∈ filter (λ q : Product.t, Product.id q = n) (Store.products s))
      by (apply list_elem_of_filter; auto).
    rewrite H in Hin. inversion Hin.
  - intros H. induction (Store.products s) as [|q l IH]; [reflexivity|].
    rewrite filter_cons. destruct (decide (Product.id q = n)) as [He|Hne].
    + exfalso. apply (H q); [left | exact He].
    + apply IH. intros p Hp. apply H. right. exact Hp.
Qed.

Lemma product_by_id_delete_ne (n : Z) (p : Product.t) (s : Store.t) :
  n ≠ Product.id p ->
  Store.product_by_id n (Store.delete_product p s) = Store.product_by_id n s.
Proof.
  intros Hne. unfold Store.product_by_id, Store.delete_product. cbn. f_equal.
  rewrite list_filter_filter. apply list_filter_iff. intros q. split.
  - tauto.
  - intros Hq. split; [exact Hq | congruence].
Qed.

Lemma product_by_id_delete_eq (p : Product.t) (s : Store.t) :
  Store.product_by_id (Product.id p) (Store.delete_product p s) = None.
Proof.
  apply product_by_id_None. intros q Hq. unfold Store.delete_product in Hq. cbn in Hq.
  apply list_elem_of_filter in Hq. tauto.
Qed.

Lemma product_by_id_delete_None (n : Z) (p : Product.t) (s : Store.t) :
  Store.product_by_id n s = None ->
  Store.product_by_id n (Store.delete_product p s) = None.
Proof.
  rewrite !product_by_id_None. intros H q Hq. apply H.
  unfold Store.delete_product in Hq. cbn in Hq. apply list_elem_of_filter in Hq. tauto.
Qed.

Lemma product_by_id_delete_Some (n : Z) (p q : Product.t) (s : Store.t) :
  Store.product_by_id n (Store.delete_product p s) = Some q ->
  Store.product_by_id n s = Some q.
Proof.
  intros H. destruct (decide (n = Product.id p)) as [->|Hne].
  - rewrite product_by_id_delete_eq in H. discriminate.
  - rewrite product_by_id_delete_ne in H by assumption. exact H.
Qed.

Lemma carts_of_user_cleared (user_id : Z) (s : Store.t) :
  Store.carts_of_user user_id (Store.delete_carts_of_user user_id s) = [].
Proof.
  unfold Store.carts_of_user, Store.delete_carts_of_user. cbn.
  induction (Store.carts s) as [|c l IH]; [reflexivity|].
  rewrite filter_cons. destruct (decide (Cart.user_id c ≠ user_id)) as [Hne|He].
  - rewrite filter_cons. destruct (decide (Cart.user_id c = user_id)); [contradiction|exact IH].
  - exact IH.
Qed.

(* ===================================================================== *)
(** * Image fetch and cache: properties *)
(* ===================================================================== *)

(** What [fetch_image] does, by the answer of the network. *)
Lemma fetch_image_run (url : string) (w : World) :
  fetch_image url w =
    let r := http_get (env w) (clock w) url in
    let w1 := emit (HttpGet url r) w in
    match r with
    | HttpStatus status body =>
        if status =? 200 then
          match Image_open (env w) body with
          | Some image0 =>
              match thumbnail (env w) image0 (400, 400) with
              | Some image => (Ok (Some image), set_image_cache <[url := image]> w1)
              | None => (Ok None, w1)
              end
          | None => (Ok None, w1)
          end
        else (Ok None, w1)
    | HttpFailure => (Ok None, w1)
    end.
Proof.
  unfold fetch_image. run.
  destruct (http_get (env w) (clock w) url) as [|status body]; [reflexivity|].
  destruct (status =? 200); [|reflexivity].
  run. destruct (Image_open (env w) body) as [image0|]; [|reflexivity].
  run. destruct (thumbnail (env w) image0 (400, 400)); reflexivity.
Qed.

Lemma download_image_hit (url : string) (w : World) (image : Image) :
  image_cache w !! url = Some image -> download_image url w = (Ok (Some image), w).
Proof. intros H. unfold download_image. run. rewrite H. reflexivity. Qed.

Lemma download_image_miss (url : string) (w : World) :
  image_cache w !! url = None -> download_image url w = fetch_image url w.
Proof. intros H. unfold download_image. run. rewrite H. reflexivity. Qed.

Lemma retrievals_app (t1 t2 : list Event) :
  retrievals (t1 ++ t2) = (retrievals t1 + retrievals t2)%nat.
Proof. unfold retrievals. rewrite List.filter_app, length_app. reflexivity. Qed.

(** C4: when a fetch of a URL succeeds, the bitmap is in the cache under that
    URL, and the next fetch of the URL returns that bitmap and leaves the
    world as it is: no network access. The two fetches together make at
    most one network retrieval. *)
Theorem second_fetch_served_from_cache (url : string) (w w1 : World) (image : Image) :
  download_image url w = (Ok (Some image), w1) ->
  image_cache w1 !! url = Some image /\
  download_image url w1 = (Ok (Some image), w1) /\
  (retrievals (trace (download_image url w1).2) <= retrievals (trace w) + 1)%nat.
Proof.
  intros H.
  enough (Hgoal : image_cache w1 !! url = Some image /\
                  download_image url w1 = (Ok (Some image), w1) /\
                  (retrievals (trace w1) <= retrievals (trace w) + 1)%nat).
  { destruct Hgoal as (Ha & Hb & Hc). rewrite Hb. auto. }
  assert (Hc : image_cache w1 !! url = Some image /\
               (retrievals (trace w1) <= retrievals (trace w) + 1)%nat).
  { destruct (image_cache w !! url) as [cached|] eqn:E.
    - rewrite (download_image_hit _ _ _ E) in H. injection H as -> ->.
      split; [assumption | lia].
    - rewrite (download_image_miss _ _ E), fetch_image_run in H. cbv zeta in H.
      destruct (http_get (env w) (clock w) url) as [|status body]; [discriminate|].
      destruct (status =? 200); [|discriminate].
      destruct (Image_open (env w) body) as [image0|]; [|discriminate].
      destruct (thumbnail (env w) image0 (400, 400)) as [image1|]; [|discriminate].
      injection H as -> <-. run. split.
      + apply lookup_insert_eq.
      + rewrite retrievals_app.
        change (retrievals [HttpGet url (HttpStatus status body)]) with 1%nat. lia. }
  destruct Hc as [Hc Hn]. repeat split; try assumption.
  apply download_image_hit, Hc.
Qed.

Lemma second_fetch_example :
  let url := Demo.url_of "photo-B" in
  let w1 := (download_image url Demo.world).2 in
  download_image url w1 = (Ok (Some (Demo.thumb url)), w1) /\
  retrievals (trace w1) = 1%nat.
Proof.
  intros url w1. split; [|vm_compute; reflexivity].
  apply (second_fetch_served_from_cache url Demo.world w1 (Demo.thumb url)).
  vm_compute. reflexivity.
Defined.

(** C9: a fetch changes the cache only by storing, under the URL fetched, the
    bitmap it decoded and resized from a response of status 200; a fetch
    that returns no bitmap leaves the cache as it was, with no entry for
    the URL, and a later fetch of the URL goes to the network again. *)
Theorem failed_fetch_not_memoized (url : string) (w w1 : World) (r : result (option Image)) :
  download_image url w = (r, w1) ->
  (image_cache w1 = image_cache w \/
   exists body image0 image,
     http_get (env w) (clock w) url = HttpStatus 200 body /\
     Image_open (env w) body = Some image0 /\
     thumbnail (env w) image0 (400, 400) = Some image /\
     r = Ok (Some image) /\
     image_cache w1 = <[url := image]> (image_cache w)) /\
  (r = Ok None ->
   image_cache w1 = image_cache w /\
   image_cache w1 !! url = None /\
   forall w2 : World, image_cache w2 !! url = None ->
     trace (download_image url w2).2 =
       trace w2 ++ [HttpGet url (http_get (env w2) (clock w2) url)]).
Proof.
  intros H.
  assert (Hlater : forall w2 : World, image_cache w2 !! url = None ->
     trace (download_image url w2).2 =
       trace w2 ++ [HttpGet url (http_get (env w2) (clock w2) url)]).
  { intros w2 E2. rewrite (download_image_miss _ _ E2), fetch_image_run. cbv zeta.
    destruct (http_get (env w2) (clock w2) url) as [|status body]; [reflexivity|].
    destruct (status =? 200); [|reflexivity].
    destruct (Image_open (env w2) body) as [image0|]; [|reflexivity].
    destruct (thumbnail (env w2) image0 (400, 400)); reflexivity. }
  destruct (image_cache w !! url) as [cached|] eqn:E.
  - rewrite (download_image_hit _ _ _ E) in H. injection H as <- <-.
    split; [left; reflexivity | discriminate].
  - rewrite (download_image_miss _ _ E), fetch_image_run in H. cbv zeta in H.
    destruct (http_get (env w) (clock w) url) as [|status body] eqn:Eh.
    { injection H as <- <-. run. split; [left; reflexivity|]. intros _. auto. }
    destruct (Z.eqb_spec status 200) as [->|Hne].
    2:{ injection H as <- <-. run. split; [left; reflexivity|]. intros _. auto. }
    destruct (Image_open (env w) body) as [image0|] eqn:Eo.
    2:{ injection H as <- <-. run. split; [left; reflexivity|]. intros _. auto. }
    destruct (thumbnail (env w) image0 (400, 400)) as [image1|] eqn:Et.
    2:{ injection H as <- <-. run. split; [left; reflexivity|]. intros _. auto. }
    injection H as <- <-. run. split; [|discriminate].
    right. exists body, image0, image1. auto.
Qed.

Lemma failed_fetch_example :
  image_cache (download_image (Demo.url_of "photo-A") Demo.world).2 = image_cache Demo.world /\
  retrievals (trace (download_image (Demo.url_of "photo-A")
                       (download_image (Demo.url_of "photo-A") Demo.world).2).2) = 2%nat.
Proof.
  split.
  - eapply (failed_fetch_not_memoized (Demo.url_of "photo-A") Demo.world _ (Ok None)).
    + vm_compute. reflexivity.
    + reflexivity.
  - vm_compute. reflexivity.
Defined.

(* ===================================================================== *)
(** * Collage composer: properties *)
(* ===================================================================== *)

Lemma paste_all (f : Z -> Z * Z) (l : list (Z * Image)) (c : Canvas) :
  fold_left (fun collage '(i, img) => paste collage img (f i)) l c =
  mkCanvas (canvas_size c) (pasted c ++ map (fun '(i, img) => (img, f i)) l).
Proof.
  revert c. induction l as [|[i img] l IH]; intros c; simpl.
  - rewrite app_nil_r. destruct c; reflexivity.
  - rewrite IH. unfold paste; simpl. rewrite <- app_assoc. reflexivity.
Qed.

(** C5: for bitmaps of one size [width] x [height]: an empty list makes the
    composer fail (division by zero, caught: no collage); a list of [n > 0]
    bitmaps gives a canvas of [cols * width] by [rows * height] with
    [cols = min 3 n] and [rows] the least number of rows of [cols] cells
    that hold [n] bitmaps, the bitmap [i] pasted at column [i mod cols] and
    row [i / cols]. *)
Theorem collage_grid (e : Env) (images : list Image) (width height : Z) :
  Forall (fun img => size img = (width, height)) images ->
  (images = [] ->
     compose_collage images = Raise ZeroDivisionError /\
     create_collage_sync e images = None) /\
  (images <> [] ->
     exists cols rows canvas,
       cols = Z.min 3 (Z.of_nat (length images)) /\
       (rows - 1) * cols < Z.of_nat (length images) <= rows * cols /\
       compose_collage images = Ok canvas /\
       create_collage_sync e images = jpeg_save e canvas /\
       canvas_size canvas = (cols * width, rows * height) /\
       length (pasted canvas) = length images /\
       forall (i : nat) (img : Image), images !! i = Some img ->
         pasted canvas !! i =
           Some (img, (Z.of_nat i mod cols * width, Z.of_nat i / cols * height))).
Proof.
  intros Hsize. split.
  - intros ->. split; reflexivity.
  - intros Hne. destruct images as [|first rest]; [congruence|].
    set (images := first :: rest) in *.
    set (n := Z.of_nat (length images)).
    assert (Hn : 1 <= n) by (unfold n, images; simpl; lia).
    set (cols := Z.min 3 n). set (rows := (n + cols - 1) / cols).
    assert (Hcols : 1 <= cols) by (unfold cols; lia).
    assert (Hfirst : size first = (width, height)) by (inversion Hsize; assumption).
    assert (Hc : compose_collage images =
                 Ok (mkCanvas (cols * width, rows * height)
                       (map (fun '(i, img) => (img, (i mod cols * width, i / cols * height)))
                          (Py.enumerate images 0)))).
    { unfold compose_collage. fold n. fold cols. fold rows.
      destruct (Z.eqb_spec cols 0) as [H0|_]; [lia|].
      unfold images at 1. rewrite Hfirst.
      rewrite (paste_all (fun i => (i mod cols * width, i / cols * height))).
      reflexivity. }
    exists cols, rows, (mkCanvas (cols * width, rows * height)
                          (map (fun '(i, img) => (img, (i mod cols * width, i / cols * height)))
                             (Py.enumerate images 0))).
    split; [reflexivity|]. split.
    { pose proof (Z.mul_div_le (n + cols - 1) cols ltac:(lia)).
      pose proof (Z.mul_succ_div_gt (n + cols - 1) cols ltac:(lia)).
      fold rows in H, H0. lia. }
    split; [exact Hc|]. split.
    { unfold create_collage_sync. rewrite Hc. reflexivity. }
    split; [reflexivity|]. split.
    { cbn [pasted]. rewrite length_map. apply enumerate_length. }
    intros i img Hi. cbn [pasted]. rewrite lookup_map.
    rewrite (enumerate_lookup _ 0 _ _ Hi). reflexivity.
Qed.

Lemma collage_examples :
  let four := [Demo.thumb "a"; Demo.thumb "b"; Demo.thumb "c"; Demo.thumb "d"] in
  Forall (fun img => size img = (400, 300)) four /\
  (exists canvas,
     compose_collage four = Ok canvas /\
     canvas_size canvas = (3 * 400, 2 * 300) /\
     pasted canvas !! 3%nat = Some (Demo.thumb "d", (0 * 400, 1 * 300))) /\
  (exists canvas,
     compose_collage [Demo.thumb "a"] = Ok canvas /\
     canvas_size canvas = (1 * 400, 1 * 300)) /\
  create_collage_sync Demo.outside [] = None.
Proof.
  intros four.
  assert (H4 : Forall (fun img => size img = (400, 300)) four)
    by (repeat apply List.Forall_cons; try reflexivity; apply List.Forall_nil).
  assert (H1 : Forall (fun img => size img = (400, 300)) [Demo.thumb "a"])
    by (repeat apply List.Forall_cons; try reflexivity; apply List.Forall_nil).
  split; [exact H4|]. split; [|split].
  - destruct (collage_grid Demo.outside four 400 300 H4) as [_ Hgrid].
    destruct (Hgrid ltac:(discriminate))
      as (cols & rows & canvas & Hcols & Hrows & Hc & _ & Hsize & _ & Hpaste).
    change (Z.min 3 (Z.of_nat (length four))) with 3 in Hcols. subst cols.
    change (Z.of_nat (length four)) with 4 in Hrows.
    assert (rows = 2) as -> by lia.
    exists canvas. split; [exact Hc|]. split; [exact Hsize|].
    apply (Hpaste 3%nat (Demo.thumb "d")). reflexivity.
  - destruct (collage_grid Demo.outside [Demo.thumb "a"] 400 300 H1) as [_ Hgrid].
    destruct (Hgrid ltac:(discriminate))
      as (cols & rows & canvas & Hcols & Hrows & Hc & _ & Hsize & _).
    change (Z.min 3 (Z.of_nat (length [Demo.thumb "a"]))) with 1 in Hcols. subst cols.
    change (Z.of_nat (length [Demo.thumb "a"])) with 1 in Hrows.
    assert (rows = 1) as -> by lia.
    exists canvas. split; [exact Hc | exact Hsize].
  - destruct (collage_grid Demo.outside [] 400 300 (List.Forall_nil _)) as [Hempty _].
    apply Hempty. reflexivity.
Defined.

(* ===================================================================== *)
(** * Message lifecycle and item selection: properties *)
(* ===================================================================== *)

Lemma delete_previous_messages_run (chat_id : Z) (message_ids : list Z) (w : World) :
  delete_previous_messages chat_id message_ids w =
    (Ok tt,
     mkWorld (env w) (db w) (session w) (user_data w) (image_cache w) (fsm w)
       (clock w + length message_ids)
       (trace w ++ retraction_events (env w) (clock w) chat_id message_ids)).
Proof.
  unfold delete_previous_messages. revert w.
  induction message_ids as [|msg_id ids IH]; intros w.
  - destruct w. simpl. run. rewrite Nat.add_0_r, app_nil_r. reflexivity.
  - cbn [for_each]. run.
    destruct (api_ok (env w) (clock w)) eqn:E; run; rewrite IH; run;
      cbn [length retraction_events]; rewrite E, <- app_assoc, Nat.add_succ_r;
      reflexivity.
Qed.

(** C6: for a button press that names a product: when the user has no
    session, or the session's mapping has no such product, the handler only
    answers "Товар не найден" and changes nothing else; when the mapping has
    the product, the photo and the caption sent are those of the mapping's
    entry; and the handler never reads the catalog: with another database
    it does the same. *)
Theorem stale_selection_not_found (callback : CallbackQuery) (w : World) (product_id : Z) :
  callback_product_id (cb_data callback) = Ok product_id ->
  let user_id := cb_from_id callback in
  let chat_id := msg_chat_id (cb_message callback) in
  ((user_data w !! user_id = None \/
    exists u, user_data w !! user_id = Some u /\ dict_get product_id (ud_products u) = None) ->
   show_product callback w =
     (if api_ok (env w) (clock w) then Ok tt else Raise TelegramError,
      emit (AnswerCallback (Some "Товар не найден") (api_ok (env w) (clock w))) w)) /\
  (forall u product,
     user_data w !! user_id = Some u ->
     dict_get product_id (ud_products u) = Some product ->
     exists rest,
       trace (show_product callback w).2 =
         trace w ++ retraction_events (env w) (clock w) chat_id (last_msg_ids u) ++
         SendPhoto (ChatInt chat_id) (FileId (Product.photo_id product))
           (product_caption product)
           (get_product_keyboard (Product.id product) (ud_category u))
           (api_send (env w) (clock w + length (last_msg_ids u))) :: rest) /\
  (forall store : Store.t,
     show_product callback (set_db (fun _ => store) w) =
       ((show_product callback w).1, set_db (fun _ => store) (show_product callback w).2)).
Proof.
  intros Hid user_id chat_id. split; [|split].
  - intros Hnone. unfold show_product. rewrite Hid. run. fold user_id.
    destruct Hnone as [Hu|(u & Hu & Hp)]; rewrite Hu; [|rewrite Hp];
      destruct (api_ok (env w) (clock w)); reflexivity.
  - intros u product Hu Hp. unfold show_product, retract_last. rewrite Hid.
    fold user_id chat_id. repeat (progress (run; rewrite ?Hu, ?Hp)).
    destruct (last_msg_ids u) as [|m ms] eqn:El.
    + run. rewrite Nat.add_0_r. cbn [retraction_events app].
      destruct (api_send (env w) (clock w)); repeat (progress (run; rewrite ?Hu, ?Hp)).
      * destruct (api_ok (env w) (S (clock w))); run; eexists;
          rewrite <- ?app_assoc; reflexivity.
      * destruct (api_send (env w) (S (clock w))); run;
          [destruct (api_ok (env w) (S (S (clock w)))); run|]; eexists;
          rewrite <- ?app_assoc; reflexivity.
    + rewrite delete_previous_messages_run. run.
      destruct (api_send (env w) (clock w + length (m :: ms))) eqn:Es;
        repeat (progress (run; rewrite ?Hu, ?Hp)).
      * destruct (api_ok (env w) (S (clock w + length (m :: ms)))); run; eexists;
          rewrite <- ?app_assoc; reflexivity.
      * destruct (api_send (env w) (S (clock w + length (m :: ms)))); run;
          [destruct (api_ok (env w) (S (S (clock w + length (m :: ms))))); run|]; eexists;
          rewrite <- ?app_assoc; reflexivity.
  - intros store. unfold show_product, retract_last. rewrite Hid.
    fold user_id chat_id. run.
    destruct (user_data w !! user_id) as [u|] eqn:Hu; run.
    2:{ destruct (api_ok (env w) (clock w)); reflexivity. }
    destruct (dict_get product_id (ud_products u)) as [product|] eqn:Hp; run.
    2:{ destruct (api_ok (env w) (clock w)); reflexivity. }
    rewrite ?Hu; run.
    destruct (last_msg_ids u) as [|m ms] eqn:El; run.
    + destruct (api_send (env w) (clock w)); repeat (progress (run; rewrite ?Hu, ?Hp)).
      * destruct (api_ok (env w) (S (clock w))); reflexivity.
      * destruct (api_send (env w) (S (clock w))); run;
          [destruct (api_ok (env w) (S (S (clock w))))|]; reflexivity.
    + rewrite !delete_previous_messages_run. run.
      destruct (api_send (env w) (clock w + length (m :: ms))) eqn:Es;
        repeat (progress (run; rewrite ?Hu, ?Hp)).
      * destruct (api_ok (env w) (S (clock w + length (m :: ms)))); reflexivity.
      * destruct (api_send (env w) (S (clock w + length (m :: ms)))); run;
          [destruct (api_ok (env w) (S (S (clock w + length (m :: ms)))))|]; reflexivity.
Qed.

(** After a render of the main models: a press on a button of another
    category, a press by a user who never opened a category, and a press on
    a product that has left the catalog since the render. *)
Lemma stale_selection_example :
  let w1 := (show_category (Demo.says "🏎 Мейн модели") Demo.world).2 in
  let w2 := set_db (Store.delete_product Demo.twin_mill) w1 in
  callback_product_id "product_9" = Ok 9 /\
  (show_product (Demo.presses "product_9") w1).1 = Ok tt /\
  trace (show_product (Demo.presses "product_9") w1).2 =
    trace w1 ++ [AnswerCallback (Some "Товар не найден") true] /\
  trace (show_product (Demo.presses "product_5") Demo.world).2 =
    [AnswerCallback (Some "Товар не найден") true] /\
  Store.product_by_id 7 (db w2) = None /\
  exists rest,
    trace (show_product (Demo.presses "product_7") w2).2 =
      trace w2 ++
      [DeleteMessage 42 1004 true;
       SendPhoto (ChatInt 42) (FileId "photo-B") (product_caption Demo.twin_mill)
         (get_product_keyboard 7 "main") (Some 1006)] ++ rest.
Proof.
  intros w1 w2.
  assert (H9 : callback_product_id (cb_data (Demo.presses "product_9")) = Ok 9)
    by (vm_compute; reflexivity).
  assert (H5 : callback_product_id (cb_data (Demo.presses "product_5")) = Ok 5)
    by (vm_compute; reflexivity).
  assert (H7 : callback_product_id (cb_data (Demo.presses "product_7")) = Ok 7)
    by (vm_compute; reflexivity).
  split; [exact H9|].
  destruct (stale_selection_not_found (Demo.presses "product_9") w1 9 H9) as [Hstale _].
  destruct (stale_selection_not_found (Demo.presses "product_5") Demo.world 5 H5)
    as [Hnone _].
  destruct (stale_selection_not_found (Demo.presses "product_7") w2 7 H7)
    as (_ & Hfound & _).
  rewrite Hstale, Hnone.
  - split; [vm_compute; reflexivity|]. split; [vm_compute; reflexivity|].
    split; [vm_compute; reflexivity|]. split; [vm_compute; reflexivity|].
    destruct (Hfound (mkUserData "main" (products_dict [Demo.bone_shaker; Demo.twin_mill])
                        [1004]) Demo.twin_mill) as [rest Hrest].
    + vm_compute. reflexivity.
    + vm_compute. reflexivity.
    + exists rest. exact Hrest.
  - left. vm_compute. reflexivity.
  - right. exists (mkUserData "main" (products_dict [Demo.bone_shaker; Demo.twin_mill]) [1004]).
    split; vm_compute; reflexivity.
Defined.

(* ===================================================================== *)
(** * Checkout completion: properties *)
(* ===================================================================== *)

Lemma order_lines_run (s : Store.t) (w : World) (cart_items : list Cart.t) :
  session w = Some s ->
  forall order_text admin_order_text total,
    order_lines cart_items (order_text, admin_order_text, total) w =
      match cart_products s cart_items with
      | Some products =>
          (Ok (order_text +:+ order_items_text products,
               admin_order_text +:+ order_items_text products,
               total + sum_prices products), w)
      | None => (Raise AttributeError, w)
      end.
Proof.
  intros Hs. induction cart_items as [|item items IH]; intros a b t.
  - cbn. rewrite !append_empty_r, Z.add_0_r. reflexivity.
  - cbn [order_lines]. run. rewrite Hs. run.
    unfold cart_products. cbn [mapM]. fold (cart_products s items).
    destruct (Store.product_by_id (Cart.product_id item) s) as [product|]; cbn; [|reflexivity].
    run. rewrite IH. destruct (cart_products s items) as [products|]; cbn; [|reflexivity].
    unfold sum_prices. cbn. fold (sum_prices products). fold (order_line product).
    rewrite !append_assoc, Z.add_assoc. reflexivity.
Qed.

(** The two texts of an order, spelled out. *)
Lemma order_items_text_lines (products : list Product.t) :
  order_items_text products =
    foldr String.append ""
      ((fun p => "• " +:+ Product.name p +:+ " - " +:+ Py.str (Product.price p) +:+
                 " руб." +:+ Py.nl) <$> products).
Proof.
  induction products as [|p products IH]; [reflexivity|].
  cbn [order_items_text foldr fmap list_fmap]. f_equal. exact IH.
Qed.

Lemma order_text_spelled (contact payment_info : string) (products : list Product.t) :
  order_header contact payment_info +:+ order_items_text products +:+
    order_footer (sum_prices products) =
  "✅ Ваш заказ оформлен!" +:+ Py.nl +:+ Py.nl +:+
  "📞 Ваши контакты: " +:+ contact +:+ Py.nl +:+
  "💳 Способ оплаты: " +:+ payment_info +:+ Py.nl +:+ Py.nl +:+
  "🛒 Состав заказа:" +:+ Py.nl +:+
  foldr String.append ""
    ((fun p => "• " +:+ Product.name p +:+ " - " +:+ Py.str (Product.price p) +:+
               " руб." +:+ Py.nl) <$> products) +:+
  Py.nl +:+ "💸 Итого к оплате: <b>" +:+ Py.str (sum_prices products) +:+ " руб.</b>" +:+
  Py.nl +:+ Py.nl +:+
  "Спасибо за заказ! Мы свяжемся с вами в ближайшее время.".
Proof.
  unfold order_header, order_footer. rewrite order_items_text_lines.
  rewrite !append_assoc. reflexivity.
Qed.

Lemma admin_text_spelled (user_tag contact payment_info : string) (products : list Product.t) :
  admin_header user_tag contact payment_info +:+ order_items_text products +:+
    admin_footer (sum_prices products) =
  "🆕 НОВЫЙ ЗАКАЗ!" +:+ Py.nl +:+ Py.nl +:+
  "👤 Пользователь: " +:+ user_tag +:+ Py.nl +:+
  "📞 Контакты: " +:+ contact +:+ Py.nl +:+
  "💳 Способ оплаты: " +:+ payment_info +:+ Py.nl +:+ Py.nl +:+
  "📦 Заказанные товары:" +:+ Py.nl +:+
  foldr String.append ""
    ((fun p => "• " +:+ Product.name p +:+ " - " +:+ Py.str (Product.price p) +:+
               " руб." +:+ Py.nl) <$> products) +:+
  Py.nl +:+ "💰 Общая сумма: <b>" +:+ Py.str (sum_prices products) +:+ " руб.</b>" +:+
  Py.nl +:+ Py.nl +:+
  "✉️ Пользователь ожидает вашего ответа!".
Proof.
  unfold admin_header, admin_footer. rewrite order_items_text_lines.
  rewrite !append_assoc. reflexivity.
Qed.

(** C2: the handler of the payment method reads the cart from the database
    as it is when the message arrives. With an empty cart it sends the
    notice "Ваша корзина пуста!" and the conversation is idle, the database
    untouched. With rows in the cart, each with its product, and both sends
    accepted: the user gets the confirmation, with the contact, the payment
    method, a line "• name - price руб." for each row and, after
    "💸 Итого к оплате:", the sum of the prices; the operator gets a
    notification of his own with the same lines and sum; the rows of the
    user are gone from the database and the conversation is idle. With a
    row whose product is no longer in the catalog, nothing of this happens:
    the user gets "Произошла ошибка при оформлении заказа 😢", nothing is
    sent to the operator, the cart keeps its rows and the conversation is
    idle. *)
Theorem checkout_completion (message : Message) (w : World) :
  let user_id := msg_from_id message in
  let chat := ChatInt (msg_chat_id message) in
  let cart_items := Store.carts_of_user user_id (db w) in
  let contact := order_contact message w in
  let payment_info := fmt_opt (msg_text message) in
  let user_tag := order_user_tag message in
  let w' := (process_payment_info message w).2 in
  (cart_items = [] ->
     db w' = db w /\
     fsm_ctx (fsm_key message) w' = fsm_idle /\
     exists rest,
       trace w' = trace w ++
         SendMessage chat "Ваша корзина пуста!" MainKeyboard (api_send (env w) (clock w))
         :: rest /\
       (is_Some (api_send (env w) (clock w)) ->
          rest = [] /\ (process_payment_info message w).1 = Ok tt)) /\
  (forall products m1 m2,
     cart_items <> [] ->
     cart_products (db w) cart_items = Some products ->
     api_send (env w) (clock w) = Some m1 ->
     api_send (env w) (S (clock w)) = Some m2 ->
     let total := sum_prices products in
     let lines :=
       (fun p => "• " +:+ Product.name p +:+ " - " +:+ Py.str (Product.price p) +:+
                 " руб." +:+ Py.nl) <$> products in
     (process_payment_info message w).1 = Ok tt /\
     trace w' = trace w ++
       [Commit;
        SendMessage chat
          ("✅ Ваш заказ оформлен!" +:+ Py.nl +:+ Py.nl +:+
           "📞 Ваши контакты: " +:+ contact +:+ Py.nl +:+
           "💳 Способ оплаты: " +:+ payment_info +:+ Py.nl +:+ Py.nl +:+
           "🛒 Состав заказа:" +:+ Py.nl +:+
           foldr String.append "" lines +:+
           Py.nl +:+ "💸 Итого к оплате: <b>" +:+ Py.str total +:+ " руб.</b>" +:+
           Py.nl +:+ Py.nl +:+
           "Спасибо за заказ! Мы свяжемся с вами в ближайшее время.")
          MainKeyboard (Some m1);
        SendMessage (ChatStr (ADMIN_ID (env w)))
          ("🆕 НОВЫЙ ЗАКАЗ!" +:+ Py.nl +:+ Py.nl +:+
           "👤 Пользователь: " +:+ user_tag +:+ Py.nl +:+
           "📞 Контакты: " +:+ contact +:+ Py.nl +:+
           "💳 Способ оплаты: " +:+ payment_info +:+ Py.nl +:+ Py.nl +:+
           "📦 Заказанные товары:" +:+ Py.nl +:+
           foldr String.append "" lines +:+
           Py.nl +:+ "💰 Общая сумма: <b>" +:+ Py.str total +:+ " руб.</b>" +:+
           Py.nl +:+ Py.nl +:+
           "✉️ Пользователь ожидает вашего ответа!")
          NoMarkup (Some m2)] /\
     db w' = Store.delete_carts_of_user user_id (db w) /\
     Store.carts_of_user user_id (db w') = [] /\
     fsm_ctx (fsm_key message) w' = fsm_idle) /\
  (cart_products (db w) cart_items = None ->
     trace w' = trace w ++
       [SendMessage chat "Произошла ошибка при оформлении заказа 😢" NoMarkup
          (api_send (env w) (clock w))] /\
     db w' = db w /\
     Store.carts_of_user user_id (db w') = cart_items /\
     cart_items <> [] /\
     fsm_ctx (fsm_key message) w' = fsm_idle).
Proof.
  intros user_id chat cart_items contact payment_info user_tag w'. split; [|split].
  - intros Hempty. subst w'. unfold process_payment_info, process_payment_info_body.
    run. fold user_id cart_items. rewrite Hempty. run.
    destruct (api_send (env w) (clock w)) as [m|] eqn:Es; run.
    + split; [reflexivity|]. split.
      { unfold fsm_ctx. cbn [fsm]. now rewrite lookup_insert_eq. }
      exists []. split; [reflexivity|]. intros _. split; reflexivity.
    + destruct (api_send (env w) (S (clock w))); run;
        (split; [reflexivity|]; split;
         [ unfold fsm_ctx; cbn [fsm]; now rewrite lookup_insert_eq
         | eexists; split; [rewrite <- app_assoc; reflexivity | intros [? ?]; discriminate]]).
  - intros products m1 m2 Hne Hprod Hs1 Hs2 total lines. subst w' total lines.
    rewrite <- (order_text_spelled contact payment_info products).
    rewrite <- (admin_text_spelled user_tag contact payment_info products).
    unfold process_payment_info, process_payment_info_body.
    run. fold user_id cart_items.
    destruct cart_items as [|item items] eqn:Ec; [congruence|].
    rewrite (order_lines_run (db w)) by reflexivity.
    rewrite Hprod. run. rewrite Hs1. run. rewrite Hs2. run.
    split; [reflexivity|]. split.
    { rewrite <- !app_assoc, !append_assoc, Z.add_0_l. reflexivity. }
    split; [reflexivity|]. split; [apply carts_of_user_cleared|].
    unfold fsm_ctx. cbn [fsm]. now rewrite lookup_insert_eq.
  - intros Hprod.
    assert (Hne : cart_items <> []) by (intros E; rewrite E in Hprod; discriminate).
    subst w'. unfold process_payment_info, process_payment_info_body.
    run. fold user_id cart_items.
    destruct cart_items as [|item items] eqn:Ec; [congruence|].
    rewrite (order_lines_run (db w)) by reflexivity. rewrite Hprod. run.
    destruct (api_send (env w) (clock w)); run;
      (split; [reflexivity|]; split; [reflexivity|]; split; [exact Ec|];
       split; [discriminate|]; unfold fsm_ctx; cbn [fsm]; now rewrite lookup_insert_eq).
Qed.

(** The buyer of the small shop pays by card; a second attempt finds the
    cart empty. When the operator has deleted the first main model while
    the buyer was asked for the payment method, the buyer is told of an
    error and keeps both rows. *)
Lemma checkout_example :
  let w := Demo.paying Demo.outside in
  let message := Demo.says "card" in
  let w' := (process_payment_info message w).2 in
  let w1 := (process_delete_id (Scenes.operator_says "5") Scenes.crossing).2 in
  Store.carts_of_user 42 (db w) = [Cart.mk 1 42 5; Cart.mk 2 42 7] /\
  cart_products (db w) (Store.carts_of_user 42 (db w)) =
    Some [Demo.bone_shaker; Demo.twin_mill] /\
  trace w' =
    [Commit;
     SendMessage (ChatInt 42)
       ("✅ Ваш заказ оформлен!" +:+ Py.nl +:+ Py.nl +:+
        "📞 Ваши контакты: +100200300" +:+ Py.nl +:+
        "💳 Способ оплаты: card" +:+ Py.nl +:+ Py.nl +:+
        "🛒 Состав заказа:" +:+ Py.nl +:+
        "• Bone Shaker - 100 руб." +:+ Py.nl +:+
        "• Twin Mill - 250 руб." +:+ Py.nl +:+
        Py.nl +:+ "💸 Итого к оплате: <b>350 руб.</b>" +:+ Py.nl +:+ Py.nl +:+
        "Спасибо за заказ! Мы свяжемся с вами в ближайшее время.")
       MainKeyboard (Some 1000);
     SendMessage (ChatStr "1")
       ("🆕 НОВЫЙ ЗАКАЗ!" +:+ Py.nl +:+ Py.nl +:+
        "👤 Пользователь: @racer" +:+ Py.nl +:+
        "📞 Контакты: +100200300" +:+ Py.nl +:+
        "💳 Способ оплаты: card" +:+ Py.nl +:+ Py.nl +:+
        "📦 Заказанные товары:" +:+ Py.nl +:+
        "• Bone Shaker - 100 руб." +:+ Py.nl +:+
        "• Twin Mill - 250 руб." +:+ Py.nl +:+
        Py.nl +:+ "💰 Общая сумма: <b>350 руб.</b>" +:+ Py.nl +:+ Py.nl +:+
        "✉️ Пользователь ожидает вашего ответа!")
       NoMarkup (Some 1001)] /\
  Store.carts_of_user 42 (db w') = [] /\
  fsm_ctx (42, 42) w' = fsm_idle /\
  (* a second attempt, the cart being empty now *)
  (exists rest,
     trace (process_payment_info message w').2 =
       trace w' ++ SendMessage (ChatInt 42) "Ваша корзина пуста!" MainKeyboard (Some 1002)
       :: rest) /\
  (* the first main model was deleted in between *)
  fsm_state (fsm_ctx (42, 42) w1) = Some OrderStates_waiting_payment_info /\
  Store.products (db w1) = [Demo.twin_mill; Demo.deora] /\
  Store.carts_of_user 42 (db w1) = [Cart.mk 1 42 5; Cart.mk 2 42 7] /\
  cart_products (db w1) (Store.carts_of_user 42 (db w1)) = None /\
  (process_payment_info message w1).1 = Ok tt /\
  trace (process_payment_info message w1).2 =
    trace w1 ++
    [SendMessage (ChatInt 42) "Произошла ошибка при оформлении заказа 😢" NoMarkup
       (Some 1001)] /\
  Store.carts_of_user 42 (db (process_payment_info message w1).2) =
    [Cart.mk 1 42 5; Cart.mk 2 42 7] /\
  fsm_ctx (42, 42) (process_payment_info message w1).2 = fsm_idle.
Proof.
  intros w message w' w1.
  assert (Hne : Store.carts_of_user 42 (db w) <> []) by (vm_compute; discriminate).
  assert (Hps : cart_products (db w) (Store.carts_of_user 42 (db w)) =
                Some [Demo.bone_shaker; Demo.twin_mill]) by (vm_compute; reflexivity).
  split; [vm_compute; reflexivity|]. split; [exact Hps|].
  destruct (checkout_completion message w) as (_ & Hfull & _).
  destruct (Hfull [Demo.bone_shaker; Demo.twin_mill] 1000 1001 Hne Hps eq_refl eq_refl)
    as (_ & Htrace & _ & Hcart & Hidle).
  split; [exact Htrace|]. split; [exact Hcart|]. split; [exact Hidle|].
  destruct (checkout_completion message w') as (Hempty & _ & _).
  destruct (Hempty Hcart) as (_ & _ & rest & Hrest & _).
  split; [exists rest; exact Hrest|].
  assert (Hnone : cart_products (db w1) (Store.carts_of_user 42 (db w1)) = None)
    by (vm_compute; reflexivity).
  destruct (checkout_completion message w1) as (_ & _ & Hgone).
  destruct (Hgone Hnone) as (Hapology & _ & Hkept & _ & Hidle1).
  split; [vm_compute; reflexivity|]. split; [vm_compute; reflexivity|].
  split; [vm_compute; reflexivity|]. split; [exact Hnone|].
  split; [vm_compute; reflexivity|].
  split; [rewrite Hapology; vm_compute; reflexivity|].
  split; [|exact Hidle1].
  transitivity (Store.carts_of_user 42 (db w1)); [exact Hkept | vm_compute; reflexivity].
Defined.

(** C10: the conversation is idle after the handler of the payment method,
    whatever happened. When the order is complete (rows in the cart, each
    with its product), the commit that clears the cart comes before every
    send, and the cart is cleared in the database whatever the sends
    answer; otherwise the database is untouched. *)
Theorem cart_cleared_before_notifications (message : Message) (w : World) :
  let user_id := msg_from_id message in
  let chat := ChatInt (msg_chat_id message) in
  let cart_items := Store.carts_of_user user_id (db w) in
  let w' := (process_payment_info message w).2 in
  fsm_ctx (fsm_key message) w' = fsm_idle /\
  (forall products,
     cart_items <> [] ->
     cart_products (db w) cart_items = Some products ->
     db w' = Store.delete_carts_of_user user_id (db w) /\
     Store.carts_of_user user_id (db w') = [] /\
     exists rest,
       trace w' = trace w ++ Commit ::
         SendMessage chat
           (order_header (order_contact message w) (fmt_opt (msg_text message)) +:+
            order_items_text products +:+ order_footer (sum_prices products))
           MainKeyboard (api_send (env w) (clock w)) :: rest /\
       Forall (fun e => is_send e = true) rest) /\
  ((cart_items = [] \/ cart_products (db w) cart_items = None) ->
     db w' = db w /\
     exists sends, trace w' = trace w ++ sends /\ Forall (fun e => is_send e = true) sends).
Proof.
  intros user_id chat cart_items w'.
  assert (Hidle : forall (f : gmap (Z * Z) FsmCtx),
             default fsm_idle (<[fsm_key message := fsm_idle]> f !! fsm_key message) = fsm_idle)
    by (intros f; now rewrite lookup_insert_eq).
  destruct (cart_products (db w) cart_items) as [products|] eqn:Hprod;
    [destruct cart_items as [|item items] eqn:Ec|].
  - (* the cart is empty *)
    assert (Hrun : exists r w1 sends,
               process_payment_info message w = (r, w1) /\
               fsm_ctx (fsm_key message) w1 = fsm_idle /\ db w1 = db w /\
               trace w1 = trace w ++ sends /\ Forall (fun e => is_send e = true) sends).
    { unfold process_payment_info, process_payment_info_body.
      run. fold user_id cart_items. rewrite Ec. run.
      destruct (api_send (env w) (clock w)) as [m|] eqn:Es; run;
        [|destruct (api_send (env w) (S (clock w))); run];
        (eexists _, _, _; split; [reflexivity|]; unfold fsm_ctx; run;
         split; [apply Hidle|]; split; [reflexivity|];
         split; [rewrite <- ?app_assoc; reflexivity | repeat constructor]). }
    destruct Hrun as (r & w1 & sends & Hrun & Hf & Hd & Ht & Hs).
    subst w'. rewrite Hrun. cbn [snd]. split; [exact Hf|]. split; [congruence|].
    intros _. split; [exact Hd|]. exists sends. split; assumption.
  - (* the cart has rows and every row has its product *)
    assert (Hrun : exists r w1 rest,
               process_payment_info message w = (r, w1) /\
               fsm_ctx (fsm_key message) w1 = fsm_idle /\
               db w1 = Store.delete_carts_of_user user_id (db w) /\
               trace w1 = trace w ++ Commit ::
                 SendMessage chat
                   (order_header (order_contact message w) (fmt_opt (msg_text message)) +:+
                    order_items_text products +:+ order_footer (sum_prices products))
                   MainKeyboard (api_send (env w) (clock w)) :: rest /\
               Forall (fun e => is_send e = true) rest).
    { unfold process_payment_info, process_payment_info_body.
      run. fold user_id cart_items. rewrite Ec.
      rewrite (order_lines_run (db w)) by reflexivity.
      rewrite Hprod. run.
      destruct (api_send (env w) (clock w)) as [m1|] eqn:Es1; run;
        destruct (api_send (env w) (S (clock w))) as [m2|] eqn:Es2; run;
        destruct (api_send (env w) (S (S (clock w)))) as [m3|] eqn:Es3; run;
        (eexists _, _, _; split; [reflexivity|]; unfold fsm_ctx; run;
         split; [apply Hidle|]; split; [reflexivity|];
         split; [rewrite <- !app_assoc, !append_assoc, Z.add_0_l; reflexivity
                | repeat constructor]). }
    destruct Hrun as (r & w1 & rest & Hrun & Hf & Hd & Ht & Hs).
    subst w'. rewrite Hrun. cbn [snd]. split; [exact Hf|]. split.
    + intros ps _ [= <-]. split; [exact Hd|]. split.
      * rewrite Hd. apply carts_of_user_cleared.
      * exists rest. split; assumption.
    + intros [?|?]; congruence.
  - (* a row of the cart has no product *)
    assert (Hrun : exists r w1 sends,
               process_payment_info message w = (r, w1) /\
               fsm_ctx (fsm_key message) w1 = fsm_idle /\ db w1 = db w /\
               trace w1 = trace w ++ sends /\ Forall (fun e => is_send e = true) sends).
    { unfold process_payment_info, process_payment_info_body.
      run. fold user_id cart_items.
      destruct cart_items as [|item items] eqn:Ec; [discriminate|].
      rewrite (order_lines_run (db w)) by reflexivity.
      rewrite Hprod. run.
      destruct (api_send (env w) (clock w)) as [m|] eqn:Es; run;
        (eexists _, _, _; split; [reflexivity|]; unfold fsm_ctx; run;
         split; [apply Hidle|]; split; [reflexivity|];
         split; [rewrite <- ?app_assoc; reflexivity | repeat constructor]). }
    destruct Hrun as (r & w1 & sends & Hrun & Hf & Hd & Ht & Hs).
    subst w'. rewrite Hrun. cbn [snd]. split; [exact Hf|]. split; [congruence|].
    intros _. split; [exact Hd|]. exists sends. split; assumption.
Qed.

Lemma failed_notification_example :
  let w := Demo.paying Demo.flaky in
  let message := Demo.says "card" in
  let w' := (process_payment_info message w).2 in
  api_send (env w) 1%nat = None /\
  (process_payment_info message w).1 = Ok tt /\
  Store.carts_of_user 42 (db w') = [] /\
  fsm_ctx (42, 42) w' = fsm_idle /\
  exists rest, trace w' =
    Commit ::
    SendMessage (ChatInt 42)
      (order_header "+100200300" "card" +:+
       order_items_text [Demo.bone_shaker; Demo.twin_mill] +:+ order_footer 350)
      MainKeyboard (Some 1000) :: rest.
Proof.
  intros w message w'.
  split; [reflexivity|]. split; [vm_compute; reflexivity|].
  destruct (cart_cleared_before_notifications message w) as (Hidle & Hfull & _).
  destruct (Hfull [Demo.bone_shaker; Demo.twin_mill]) as (_ & Hcart & rest & Htrace & _).
  - vm_compute. discriminate.
  - vm_compute. reflexivity.
  - split; [exact Hcart|]. split; [exact Hidle|]. exists rest. exact Htrace.
Defined.

(* ===================================================================== *)
(** * Catalog administration: properties *)
(* ===================================================================== *)

(** C8: in the state that waits for the price, a text that [int] refuses
    is answered by the prompt to try again, and in the state that waits for
    the category, a message whose text is none of the five labels (or that
    has no text) is answered by the prompt to choose one; in both, the
    states and the data of all conversations, the database and the sessions
    stay as they were. A message without a text in the state that waits for
    the price is not answered: [int(None)] raises [TypeError], which
    [except ValueError] lets through, so the handler ends with that
    exception and has sent nothing; the world is as it was. *)
Theorem validation_failure_keeps_context (message : Message) (w : World) :
  (forall txt,
     msg_text message = Some txt -> Py.int txt = None ->
     let w' := (process_price message w).2 in
     trace w' = trace w ++
       [SendMessage (ChatInt (msg_chat_id message))
          "❌ Цена должна быть числом! Попробуйте еще раз" NoMarkup
          (api_send (env w) (clock w))] /\
     fsm w' = fsm w /\ db w' = db w /\ user_data w' = user_data w) /\
  (msg_text message ≫= admin_category_map = None ->
     let w' := (process_category message w).2 in
     trace w' = trace w ++
       [SendMessage (ChatInt (msg_chat_id message))
          "❌ Выберите категорию из предложенных" NoMarkup
          (api_send (env w) (clock w))] /\
     fsm w' = fsm w /\ db w' = db w /\ user_data w' = user_data w) /\
  (msg_text message = None ->
     process_price message w = (Raise TypeError, w)).
Proof.
  split; [|split].
  - intros txt Ht Hi. unfold process_price. rewrite Ht. run. rewrite Hi. run.
    destruct (api_send (env w) (clock w)); run; auto.
  - intros H. unfold process_category. rewrite H. run.
    destruct (api_send (env w) (clock w)); run; auto.
  - intros Ht. unfold process_price. rewrite Ht. run. reflexivity.
Qed.

Lemma validation_failure_example :
  Py.int "12.5" = None /\ Py.int "сто" = None /\
  Some "trucks" ≫= admin_category_map = None /\
  fsm (process_price (Demo.says "12.5") Demo.pricing).2 = fsm Demo.pricing /\
  fsm (process_price (Demo.says "сто") Demo.pricing).2 = fsm Demo.pricing /\
  trace (process_price (Demo.says "сто") Demo.pricing).2 =
    [SendMessage (ChatInt 42) "❌ Цена должна быть числом! Попробуйте еще раз" NoMarkup
       (Some 1000)] /\
  fsm (process_category (Demo.says "trucks") Demo.pricing).2 = fsm Demo.pricing /\
  (* a photo where the price is awaited *)
  fsm_state (fsm_ctx (42, 42) Demo.pricing) = Some AddProduct_waiting_price /\
  msg_text Scenes.sends_photo = None /\
  process_price Scenes.sends_photo Demo.pricing = (Raise TypeError, Demo.pricing) /\
  trace (process_price Scenes.sends_photo Demo.pricing).2 = [] /\
  trace (process_category Scenes.sends_photo Demo.pricing).2 =
    [SendMessage (ChatInt 42) "❌ Выберите категорию из предложенных" NoMarkup (Some 1000)].
Proof.
  destruct (validation_failure_keeps_context (Demo.says "12.5") Demo.pricing) as [Hprice _].
  destruct (validation_failure_keeps_context (Demo.says "сто") Demo.pricing) as [Hsto _].
  destruct (validation_failure_keeps_context (Demo.says "trucks") Demo.pricing)
    as (_ & Hcat & _).
  destruct (validation_failure_keeps_context Scenes.sends_photo Demo.pricing)
    as (_ & Hphoto & Hraise).
  split; [reflexivity|]. split; [reflexivity|]. split; [reflexivity|].
  split; [apply (Hprice "12.5"); reflexivity|].
  split; [apply (Hsto "сто"); reflexivity|].
  split; [apply (Hsto "сто"); reflexivity|].
  split; [apply Hcat; reflexivity|].
  split; [reflexivity|]. split; [reflexivity|].
  split; [apply Hraise; reflexivity|].
  split; [rewrite (Hraise eq_refl); reflexivity|].
  apply (Hphoto eq_refl).
Defined.

Lemma delete_loop_run (ids : list string) :
  forall (s : Store.t) (w : World) (deleted not_found : list string),
    session w = Some s ->
    delete_loop ids (deleted, not_found) w =
      (Ok (deleted ++ (sweep s ids).1.2, not_found ++ (sweep s ids).2),
       set_session (fun _ => Some (sweep s ids).1.1) w).
Proof.
  induction ids as [|id_str ids IH]; intros s w dl nf Hs.
  - cbn. rewrite !app_nil_r. destruct w; cbn in *. subst. reflexivity.
  - cbn [delete_loop sweep]. unfold delete_one. run.
    destruct (Py.int id_str) as [n|]; repeat (progress (run; rewrite ?Hs)).
    + destruct (Store.product_by_id n s) as [p|]; repeat (progress (run; rewrite ?Hs)).
      * rewrite (IH (Store.delete_product p s)) by reflexivity.
        destruct (sweep (Store.delete_product p s) ids) as [[s' dl'] nf']. run.
        rewrite <- app_assoc. reflexivity.
      * rewrite (IH s) by assumption.
        destruct (sweep s ids) as [[s' dl'] nf']. run.
        rewrite <- app_assoc. reflexivity.
    + rewrite (IH s) by assumption.
      destruct (sweep s ids) as [[s' dl'] nf']. run.
      rewrite <- app_assoc. reflexivity.
Qed.

Lemma sweep_carts (ids : list string) :
  forall s, Store.carts (sweep s ids).1.1 = Store.carts s.
Proof.
  induction ids as [|t ids IH]; intros s; [reflexivity|]. cbn [sweep].
  destruct (Py.int t) as [n|].
  - destruct (Store.product_by_id n s) as [p|].
    + specialize (IH (Store.delete_product p s)).
      destruct (sweep (Store.delete_product p s) ids) as [[s' dl] nf]. exact IH.
    + specialize (IH s). destruct (sweep s ids) as [[s' dl] nf]. exact IH.
  - specialize (IH s). destruct (sweep s ids) as [[s' dl] nf]. exact IH.
Qed.

Lemma sweep_products (ids : list string) :
  forall s,
    Store.products (sweep s ids).1.1 =
      filter (fun p => Product.id p ∉ omap Py.int ids) (Store.products s).
Proof.
  induction ids as [|t ids IH]; intros s.
  - cbn. symmetry. apply filter_all. intros p _ Hp. inversion Hp.
  - cbn [sweep].
    change (omap Py.int (t :: ids))
      with (match Py.int t with
            | Some y => y :: omap Py.int ids
            | None => omap Py.int ids
            end).
    destruct (Py.int t) as [n|] eqn:Et.
    + destruct (Store.product_by_id n s) as [p|] eqn:Ep.
      * specialize (IH (Store.delete_product p s)).
        destruct (sweep (Store.delete_product p s) ids) as [[s' dl] nf].
        cbn in *. rewrite IH. apply product_by_id_Some in Ep as [Hid _].
        rewrite list_filter_filter. apply list_filter_iff. intros q.
        rewrite not_elem_of_cons. rewrite Hid. tauto.
      * specialize (IH s). destruct (sweep s ids) as [[s' dl] nf].
        cbn in *. rewrite IH. apply filter_ext_in. intros q Hq.
        rewrite not_elem_of_cons. rewrite product_by_id_None in Ep.
        specialize (Ep q Hq). tauto.
    + specialize (IH s). destruct (sweep s ids) as [[s' dl] nf]. exact IH.
Qed.

(** What [sweep] reports for each token. *)
Lemma sweep_reports (ids : list string) :
  forall s t,
    t ∈ ids ->
    (Py.int t = None -> t ∈ (sweep s ids).2) /\
    (forall n, Py.int t = Some n -> Store.product_by_id n s = None ->
               Py.str n ∈ (sweep s ids).2) /\
    (forall n p, Py.int t = Some n -> Store.product_by_id n s = Some p ->
                 Product.name p ∈ (sweep s ids).1.2).
Proof.
  induction ids as [|t0 ids IH]; intros s t Ht; [inversion Ht|].
  cbn [sweep]. apply elem_of_cons in Ht.
  destruct (Py.int t0) as [n0|] eqn:E0.
  - destruct (Store.product_by_id n0 s) as [p0|] eqn:Ep0.
    + pose proof (IH (Store.delete_product p0 s)) as IH'.
      destruct (sweep (Store.delete_product p0 s) ids) as [[s' dl] nf]. cbn in *.
      pose proof (product_by_id_Some _ _ _ Ep0) as [Hid0 _].
      destruct Ht as [->|Ht].
      * split; [congruence|]. split; [congruence|].
        intros n p Hn Hp. replace p with p0 by congruence. left.
      * specialize (IH' t Ht) as (Ha & Hb & Hc). split; [exact Ha|]. split.
        -- intros n Hn Hp. apply (Hb n Hn). now apply product_by_id_delete_None.
        -- intros n p Hn Hp. destruct (decide (n = n0)) as [->|Hne].
           ++ replace p with p0 by congruence. left.
           ++ right. apply (Hc n p Hn).
              rewrite product_by_id_delete_ne by congruence. exact Hp.
    + pose proof (IH s) as IH'. destruct (sweep s ids) as [[s' dl] nf]. cbn in *.
      destruct Ht as [->|Ht].
      * split; [congruence|]. split.
        -- intros n Hn _. replace n with n0 by congruence. left.
        -- intros n p Hn Hp. congruence.
      * specialize (IH' t Ht) as (Ha & Hb & Hc). split; [|split].
        -- intros H. right. auto.
        -- intros n Hn Hp. right. eauto.
        -- exact Hc.
  - pose proof (IH s) as IH'. destruct (sweep s ids) as [[s' dl] nf]. cbn in *.
    destruct Ht as [->|Ht].
    + split; [intros _; left|split; congruence].
    + specialize (IH' t Ht) as (Ha & Hb & Hc). split; [|split].
      * intros H. right. auto.
      * intros n Hn Hp. right. eauto.
      * exact Hc.
Qed.

(** Every name reported deleted is the name of a product a token named. *)
Lemma sweep_deleted_sound (ids : list string) :
  forall s name,
    name ∈ (sweep s ids).1.2 ->
    exists t n p, t ∈ ids /\ Py.int t = Some n /\
                  Store.product_by_id n s = Some p /\ name = Product.name p.
Proof.
  induction ids as [|t0 ids IH]; intros s name Hn; [inversion Hn|].
  cbn [sweep] in Hn.
  destruct (Py.int t0) as [n0|] eqn:E0.
  - destruct (Store.product_by_id n0 s) as [p0|] eqn:Ep0.
    + pose proof (IH (Store.delete_product p0 s) name) as IH'.
      destruct (sweep (Store.delete_product p0 s) ids) as [[s' dl] nf]. cbn in *.
      apply elem_of_cons in Hn as [->|Hn].
      * exists t0, n0, p0. repeat split; [left|assumption..].
      * destruct (IH' Hn) as (t & n & p & Ht & Hi & Hp & ->).
        exists t, n, p. repeat split; [now right|assumption|].
        eapply product_by_id_delete_Some; eassumption.
    + pose proof (IH s name) as IH'. destruct (sweep s ids) as [[s' dl] nf]. cbn in *.
      destruct (IH' Hn) as (t & n & p & Ht & Hi & Hp & ->).
      exists t, n, p. repeat split; [now right|assumption..].
  - pose proof (IH s name) as IH'. destruct (sweep s ids) as [[s' dl] nf]. cbn in *.
    destruct (IH' Hn) as (t & n & p & Ht & Hi & Hp & ->).
    exists t, n, p. repeat split; [now right|assumption..].
Qed.

(** C7: bulk deletion handles every token of the text on its own. A token
    that is no integer is reported not found, as written; a token that
    names no product is reported not found, by its number; a token that
    names a product has the name of the product reported, and the product
    is gone from the database. The answer lists the names after
    "✅ Удалены товары:", one to a line, and the identifiers not found after
    "❌ Не найдены товары с ID: ", separated by commas; with neither it is
    "Ничего не удалено". The products left are those no token names: no
    token stops the deletion asked by another. The conversation is idle
    afterwards. *)
Theorem bulk_delete_per_token (message : Message) (w : World) (txt : string) :
  msg_text message = Some txt ->
  let ids := Py.split txt in
  let w' := (process_delete_id message w).2 in
  exists (deleted_products not_found_ids : list string) (rest : list Event),
    let deleted_text :=
      match deleted_products with
      | [] => ""
      | _ :: _ =>
          "✅ Удалены товары:" +:+ Py.nl +:+
          Py.join Py.nl ((fun name => "• " +:+ name) <$> deleted_products) +:+
          Py.nl +:+ Py.nl
      end in
    let not_found_text :=
      match not_found_ids with
      | [] => ""
      | _ :: _ => "❌ Не найдены товары с ID: " +:+ Py.join ", " not_found_ids
      end in
    trace w' = trace w ++ Commit ::
      SendMessage (ChatInt (msg_chat_id message))
        (match deleted_products, not_found_ids with
         | [], [] => "Ничего не удалено"
         | _, _ => deleted_text +:+ not_found_text
         end) MainKeyboard
        (api_send (env w) (clock w)) :: rest /\
    (is_Some (api_send (env w) (clock w)) ->
       rest = [] /\ (process_delete_id message w).1 = Ok tt) /\
    fsm_ctx (fsm_key message) w' = fsm_idle /\
    Store.carts (db w') = Store.carts (db w) /\
    Store.products (db w') =
      filter (fun p => Product.id p ∉ omap Py.int ids) (Store.products (db w)) /\
    (forall t, t ∈ ids ->
       (Py.int t = None -> t ∈ not_found_ids) /\
       (forall n, Py.int t = Some n ->
          Store.product_by_id n (db w') = None /\
          match Store.product_by_id n (db w) with
          | Some p => Product.name p ∈ deleted_products
          | None => Py.str n ∈ not_found_ids
          end)) /\
    (forall name, name ∈ deleted_products ->
       exists t n p, t ∈ ids /\ Py.int t = Some n /\
                     Store.product_by_id n (db w) = Some p /\ name = Product.name p).
Proof.
  intros Htxt ids w'.
  exists (sweep (db w) ids).1.2, (sweep (db w) ids).2.
  assert (Hrun : exists r w1 rest,
             process_delete_id message w = (r, w1) /\
             trace w1 = trace w ++ Commit ::
               SendMessage (ChatInt (msg_chat_id message))
                 (delete_response (sweep (db w) ids).1.2 (sweep (db w) ids).2) MainKeyboard
                 (api_send (env w) (clock w)) :: rest /\
             (is_Some (api_send (env w) (clock w)) -> rest = [] /\ r = Ok tt) /\
             fsm_ctx (fsm_key message) w1 = fsm_idle /\
             db w1 = (sweep (db w) ids).1.1).
  { unfold process_delete_id. rewrite Htxt. run. fold ids.
    rewrite (delete_loop_run ids (db w)) by reflexivity. run.
    destruct (api_send (env w) (clock w)) as [m|] eqn:Es; run;
      [|destruct (api_send (env w) (S (clock w))); run];
      (eexists _, _, _; split; [reflexivity|]; unfold fsm_ctx; run;
       split; [rewrite <- ?app_assoc; reflexivity|];
       split; [first [intros [? ?]; discriminate | intros _; split; reflexivity]|];
       split; [now rewrite lookup_insert_eq | reflexivity]). }
  destruct Hrun as (r & w1 & rest & Hrun & Ht & Hok & Hf & Hd).
  exists rest. cbv zeta. subst w'. rewrite Hrun. cbn [fst snd]. rewrite Hd.
  split.
  { rewrite Ht. do 3 f_equal. unfold delete_response.
    destruct (sweep (db w) ids).1.2 as [|name names];
      destruct (sweep (db w) ids).2 as [|t ts]; rewrite ?append_empty_r; reflexivity. }
  split; [exact Hok|]. split; [exact Hf|].
  split; [apply sweep_carts|]. split; [apply sweep_products|]. split.
  - intros t Hin. destruct (sweep_reports ids (db w) t Hin) as (Ha & Hb & Hc).
    split; [exact Ha|]. intros n Hn. split.
    + apply product_by_id_None. intros p Hp. rewrite sweep_products in Hp.
      apply list_elem_of_filter in Hp as [Hnot _]. intros Heq. apply Hnot.
      apply list_elem_of_omap. exists t. split; [exact Hin | congruence].
    + destruct (Store.product_by_id n (db w)) as [p|] eqn:Ep; eauto.
  - apply sweep_deleted_sound.
Qed.

Lemma bulk_delete_example :
  let w := Demo.deleting in
  let message := Demo.says "5 9x 7" in
  let w' := (process_delete_id message w).2 in
  Py.split "5 9x 7" = ["5"; "9x"; "7"] /\
  Store.products (db w') = [Demo.deora] /\
  fsm_ctx (42, 42) w' = fsm_idle /\
  trace w' =
    [Commit;
     SendMessage (ChatInt 42)
       ("✅ Удалены товары:" +:+ Py.nl +:+ "• Bone Shaker" +:+ Py.nl +:+ "• Twin Mill" +:+
        Py.nl +:+ Py.nl +:+ "❌ Не найдены товары с ID: 9x")
       MainKeyboard (Some 1000)] /\
  exists deleted_products not_found_ids,
    "Bone Shaker" ∈ deleted_products /\ "Twin Mill" ∈ deleted_products /\
    "9x" ∈ not_found_ids /\
    trace w' =
      [Commit;
       SendMessage (ChatInt 42)
         (("✅ Удалены товары:" +:+ Py.nl +:+
           Py.join Py.nl ((fun name => "• " +:+ name) <$> deleted_products) +:+
           Py.nl +:+ Py.nl) +:+
          ("❌ Не найдены товары с ID: " +:+ Py.join ", " not_found_ids))
         MainKeyboard (Some 1000)].
Proof.
  intros w message w'. split; [reflexivity|].
  destruct (bulk_delete_per_token message w "5 9x 7" eq_refl)
    as (dl & nf & rest & Htrace & Hrest & Hidle & _ & Hprods & Htok & _).
  destruct (Hrest ltac:(eexists; reflexivity)) as [-> _]. unfold w'.
  split; [rewrite Hprods; vm_compute; reflexivity|]. split; [exact Hidle|].
  assert (H5 : "5" ∈ Py.split "5 9x 7") by (apply elem_of_cons; left; reflexivity).
  assert (H9 : "9x" ∈ Py.split "5 9x 7")
    by (apply elem_of_cons; right; apply elem_of_cons; left; reflexivity).
  assert (H7 : "7" ∈ Py.split "5 9x 7")
    by (do 2 (apply elem_of_cons; right); apply elem_of_cons; left; reflexivity).
  destruct (Htok "5" H5) as [_ Hfive]. destruct (Hfive 5 eq_refl) as [_ Hname5].
  destruct (Htok "7" H7) as [_ Hseven]. destruct (Hseven 7 eq_refl) as [_ Hname7].
  destruct (Htok "9x" H9) as [Hnine _]. specialize (Hnine eq_refl).
  assert (Hlit : trace (process_delete_id message w).2 =
            [Commit;
             SendMessage (ChatInt 42)
               ("✅ Удалены товары:" +:+ Py.nl +:+ "• Bone Shaker" +:+ Py.nl +:+ "• Twin Mill" +:+
                Py.nl +:+ Py.nl +:+ "❌ Не найдены товары с ID: 9x")
               MainKeyboard (Some 1000)]) by (vm_compute; reflexivity).
  split; [exact Hlit|].
  exists dl, nf. split; [exact Hname5|]. split; [exact Hname7|]. split; [exact Hnine|].
  destruct dl as [|name names]; [inversion Hname5|].
  destruct nf as [|t ts]; [inversion Hnine|]. exact Htrace.
Defined.

(* ===================================================================== *)
(** * Category render pipeline: properties *)
(* ===================================================================== *)

Lemma fetches_only_refl (w : World) : fetches_only w w.
Proof.
  repeat split. exists []. split; [now rewrite app_nil_r | constructor].
Qed.

Lemma fetches_only_trans (w1 w2 w3 : World) :
  fetches_only w1 w2 -> fetches_only w2 w3 -> fetches_only w1 w3.
Proof.
  intros (He & Hd & Hs & Hu & Hf & evs & Ht & Hall)
         (He' & Hd' & Hs' & Hu' & Hf' & evs' & Ht' & Hall').
  repeat split; try congruence.
  exists (evs ++ evs'). split.
  - rewrite Ht', Ht, app_assoc. reflexivity.
  - apply Forall_app. split; assumption.
Qed.

Lemma fetches_only_emit (e : Event) (w : World) :
  is_fetch e = true -> fetches_only w (emit e w).
Proof.
  intros He. repeat split. exists [e]. split; [reflexivity | repeat constructor; exact He].
Qed.

Lemma fetches_only_cache (f : gmap string Image -> gmap string Image) (w : World) :
  fetches_only w (set_image_cache f w).
Proof. repeat split. exists []. split; [cbn; now rewrite app_nil_r | constructor]. Qed.

Lemma fetch_image_frame (url : string) (w : World) :
  fetches_only w (fetch_image url w).2.
Proof.
  rewrite fetch_image_run. cbv zeta.
  destruct (http_get (env w) (clock w) url) as [|status body];
    [apply fetches_only_emit; reflexivity|].
  destruct (status =? 200); [|apply fetches_only_emit; reflexivity].
  destruct (Image_open (env w) body) as [image0|]; [|apply fetches_only_emit; reflexivity].
  destruct (thumbnail (env w) image0 (400, 400)); [|apply fetches_only_emit; reflexivity].
  cbn [snd]. eapply fetches_only_trans; [|apply fetches_only_cache].
  apply fetches_only_emit. reflexivity.
Qed.

Lemma map_M_frame {A B} (f : A -> M B) (l : list A) :
  (forall x w, fetches_only w (f x w).2) ->
  forall w, fetches_only w (map_M f l w).2.
Proof.
  intros Hf. induction l as [|x l IH]; intros w.
  - apply fetches_only_refl.
  - cbn [map_M]. unfold bind. pose proof (Hf x w) as Hx.
    destruct (f x w) as [[y|e] w1]; cbn [snd] in *; [|exact Hx].
    pose proof (IH w1) as Hl.
    destruct (map_M f l w1) as [[ys|e] w2]; cbn [snd] in *;
      eapply fetches_only_trans; eassumption.
Qed.

Lemma gather_get_file_frame (file_ids : list string) (w : World) :
  fetches_only w (gather_get_file file_ids w).2.
Proof.
  unfold gather_get_file, bind.
  assert (H : fetches_only w (map_M bot_get_file file_ids w).2).
  { apply map_M_frame. intros x w0. unfold bot_get_file. cbn [snd].
    apply fetches_only_emit. reflexivity. }
  destruct (map_M bot_get_file file_ids w) as [[files|e] w1]; cbn [snd] in *; [|exact H].
  destruct (forallb _ files); exact H.
Qed.

Lemma gather_download_image_frame (urls : list string) (w : World) :
  fetches_only w (gather_download_image urls w).2.
Proof.
  unfold gather_download_image. run.
  apply map_M_frame. intros url w1.
  destruct (image_cache w !! url); [apply fetches_only_refl | apply fetch_image_frame].
Qed.

Lemma create_combined_message_spec (photo_urls : list string) (products : list Product.t)
    (category_name : string) (w : World) :
  fetches_only w (create_combined_message photo_urls products category_name w).2 /\
  forall collage_buffer products_text num_products,
    (create_combined_message photo_urls products category_name w).1 =
      Ok (Some (collage_buffer, products_text, num_products)) ->
    products_text = list_text category_name products /\
    num_products = Z.of_nat (length products).
Proof.
  unfold create_combined_message.
  pose proof (gather_download_image_frame photo_urls w) as H.
  run. destruct (gather_download_image photo_urls w) as [[images|e] w1]; run.
  2:{ split; [exact H | intros; discriminate]. }
  destruct (omap (fun img => img) images) as [|image images']; run.
  { split; [exact H | intros; discriminate]. }
  destruct (create_collage_sync (env w1) (image :: images')) as [buf|]; run.
  - split; [exact H|]. intros ? ? ? [= <- <- <-]. split; reflexivity.
  - split; [exact H | intros; discriminate].
Qed.

Lemma index_buttons_enum (post : list Product.t) :
  forall (pre : list Product.t) st,
    index_buttons (pre ++ post)
      (seqZ (1 + Z.of_nat (length pre)) (Z.of_nat (length post))) st =
    Ok (fold_left (fun st '(idx, product) => add_button st idx (product_button idx product))
          (Py.enumerate post (1 + Z.of_nat (length pre))) st).
Proof.
  induction post as [|p post IH]; intros pre st; [reflexivity|].
  cbn [length]. rewrite seqZ_succ. cbn [index_buttons Py.enumerate fold_left].
  replace (1 + Z.of_nat (length pre) - 1) with (Z.of_nat (length pre)) by lia.
  rewrite index_app_middle.
  specialize (IH (pre ++ [p])). rewrite <- app_assoc in IH. cbn [app] in IH.
  rewrite length_app in IH. cbn [length] in IH.
  replace (1 + Z.of_nat (length pre + 1)) with (1 + Z.of_nat (length pre) + 1) in IH by lia.
  apply IH.
Qed.

(** The two button loops build the same keyboard. *)
Lemma category_buttons_enum (products : list Product.t) :
  category_buttons products (Z.of_nat (length products)) = Ok (list_buttons products).
Proof.
  unfold category_buttons, list_buttons, Py.range.
  replace (Z.of_nat (length products) + 1 - 1) with (Z.of_nat (length products)) by lia.
  pose proof (index_buttons_enum products [] ([], [])) as H.
  cbn [app length] in H. change (1 + Z.of_nat 0) with 1 in H. rewrite H. reflexivity.
Qed.

Lemma render_event_fetch chat_id caption markup (evs : list Event) :
  Forall (fun e => is_fetch e = true) evs ->
  Forall (render_event chat_id caption markup) evs.
Proof.
  intros Hall. eapply Forall_impl; [exact Hall|].
  intros [] H; cbn in *; try discriminate; exact I.
Qed.

Lemma show_category_body_spec (message : Message) (category category_name : string)
    (w : World) (s : Store.t) :
  session w = Some s ->
  let user_id := msg_from_id message in
  let products := Store.products_of_category category s in
  exists r w' evs,
    show_category_body message category category_name w = (r, w') /\
    trace w' = trace w ++ evs /\
    Forall (render_event (msg_chat_id message) (list_text category_name products)
              (InlineKeyboardMarkup (list_buttons products))) evs /\
    session w' = session w /\ db w' = db w /\ env w' = env w /\ fsm w' = fsm w /\
    (products = [] -> user_data w' = user_data w) /\
    (products <> [] ->
       exists ids, user_data w' =
         <[user_id := mkUserData category (products_dict products) ids]> (user_data w)).
Proof.
  intros Hs user_id products. unfold show_category_body. fold user_id.
  run. rewrite Hs. run. fold products. clearbody products.
  destruct products as [|p ps] eqn:Eps.
  { (* no product in the category *)
    run. destruct (api_send (env w) (clock w)); run;
      (eexists _, _, _; split; [reflexivity|]; run;
       split; [reflexivity|]; split; [events_ok|];
       repeat (split; [first [reflexivity | assumption]|]); congruence). }
  assert (Hne : products <> []) by congruence.
  rewrite <- Eps. clear Eps p ps.
  assert (Hfin : forall um : gmap Z UserData,
             (exists ids, um = <[user_id := mkUserData category (products_dict products) ids]>
                                 (user_data w)) ->
             (products = [] -> um = user_data w) /\
             (products <> [] ->
                exists ids, um = <[user_id := mkUserData category (products_dict products) ids]>
                                   (user_data w)))
    by (intros um Hum; split; [congruence | intros _; exact Hum]).
  set (w1 := {| env := env w; db := db w; session := session w;
                user_data := <[user_id := mkUserData category (products_dict products) []]>
                               (user_data w);
                image_cache := image_cache w; fsm := fsm w; clock := clock w;
                trace := trace w |}).
  pose proof (gather_get_file_frame (map Product.photo_id products) w1) as Hg.
  destruct (gather_get_file (map Product.photo_id products) w1) as [[files|e] w2];
    cbn [snd] in Hg; destruct Hg as (He2 & Hd2 & Hs2 & Hu2 & Hf2 & evs2 & Ht2 & Hall2).
  2:{ (* a file lookup failed *)
    run. eexists _, _, evs2. split; [reflexivity|].
    split; [exact Ht2|]. split; [now apply render_event_fetch|].
    rewrite Hs2, Hd2, He2, Hf2, Hu2. repeat (split; [first [reflexivity | assumption]|]). apply Hfin. eauto. }
  run.
  pose proof (create_combined_message_spec (map (file_url (env w2)) files) products
                category_name w2) as [Hc Htext].
  destruct (create_combined_message (map (file_url (env w2)) files) products
              category_name w2) as [[combined|e] w3];
    cbn [fst snd] in Hc, Htext;
    destruct Hc as (He3 & Hd3 & Hs3 & Hu3 & Hf3 & evs3 & Ht3 & Hall3).
  2:{ run. eexists _, _, (evs2 ++ evs3). split; [reflexivity|].
    split; [rewrite Ht3, Ht2, app_assoc; reflexivity|].
    split; [apply Forall_app; split; now apply render_event_fetch|].
    rewrite Hs3, Hs2, Hd3, Hd2, He3, He2, Hf3, Hf2, Hu3, Hu2.
      repeat (split; [first [reflexivity | assumption]|]). apply Hfin. eauto. }
  run.
  assert (Hlook : user_data w3 !! user_id =
                    Some (mkUserData category (products_dict products) [])).
  { rewrite Hu3, Hu2. apply lookup_insert_eq. }
  assert (Hfetch : Forall (render_event (msg_chat_id message)
                             (list_text category_name products)
                             (InlineKeyboardMarkup (list_buttons products))) (evs2 ++ evs3))
    by (apply Forall_app; split; now apply render_event_fetch).
  assert (Htr : trace w3 = trace w ++ evs2 ++ evs3)
    by (rewrite Ht3, Ht2, app_assoc; reflexivity).
  assert (Hins : forall ids,
             <[user_id := mkUserData category (products_dict products) ids]> (user_data w3) =
             <[user_id := mkUserData category (products_dict products) ids]> (user_data w)).
  { intros ids. rewrite Hu3, Hu2. apply insert_insert_eq. }
  destruct combined as [[[collage_buffer products_text] num_products]|].
  - (* the collage *)
    destruct (Htext _ _ _ eq_refl) as [-> ->]. rewrite category_buttons_enum. run.
    rewrite Hlook. run.
    destruct (api_send (env w3) (clock w3)) as [m|] eqn:Es; run.
    + rewrite Hlook. run.
      eexists _, _, (evs2 ++ evs3 ++ [_]). split; [reflexivity|]. run.
      split; [rewrite Htr, <- !app_assoc; reflexivity|].
      split. { rewrite app_assoc. apply Forall_app. split; [exact Hfetch|].
               events_ok. }
      rewrite Hs3, Hs2, Hd3, Hd2, He3, He2, Hf3, Hf2, Hins.
      repeat (split; [first [reflexivity | assumption]|]). apply Hfin. eauto.
    + eexists _, _, (evs2 ++ evs3 ++ [_]). split; [reflexivity|]. run.
      split; [rewrite Htr, <- !app_assoc; reflexivity|].
      split. { rewrite app_assoc. apply Forall_app. split; [exact Hfetch|].
               events_ok. }
      rewrite Hs3, Hs2, Hd3, Hd2, He3, He2, Hf3, Hf2, Hu3, Hu2.
      repeat (split; [first [reflexivity | assumption]|]). apply Hfin. eauto.
  - (* no image: the list as text *)
    destruct (api_send (env w3) (clock w3)) as [m|] eqn:Es; run.
    2:{ eexists _, _, (evs2 ++ evs3 ++ [_]). split; [reflexivity|]. run.
        split; [rewrite Htr, <- !app_assoc; reflexivity|].
        split. { rewrite app_assoc. apply Forall_app. split; [exact Hfetch|].
                 events_ok. }
        rewrite Hs3, Hs2, Hd3, Hd2, He3, He2, Hf3, Hf2, Hu3, Hu2.
      repeat (split; [first [reflexivity | assumption]|]). apply Hfin. eauto. }
    unfold show_products_list. run. rewrite Hlook. run. rewrite Hlook. run.
    destruct (api_send (env w3) (S (clock w3))) as [m'|] eqn:Es'; run.
    + rewrite Hlook. run.
      eexists _, _, (evs2 ++ evs3 ++ [_; _]). split; [reflexivity|]. run.
      split; [rewrite Htr, <- !app_assoc; reflexivity|].
      split. { rewrite app_assoc. apply Forall_app. split; [exact Hfetch|].
               events_ok. }
      rewrite Hs3, Hs2, Hd3, Hd2, He3, He2, Hf3, Hf2, Hins.
      repeat (split; [first [reflexivity | assumption]|]). apply Hfin. eauto.
    + destruct (api_send (env w3) (S (S (clock w3)))) as [m''|] eqn:Es''; run;
        (eexists _, _, (evs2 ++ evs3 ++ [_; _; _]); split; [reflexivity|]; run;
         split; [rewrite Htr, <- !app_assoc; reflexivity|];
         split; [rewrite app_assoc; apply Forall_app; split; [exact Hfetch|];
                 events_ok|];
         rewrite Hs3, Hs2, Hd3, Hd2, He3, He2, Hf3, Hf2, Hu3, Hu2;
         repeat (split; [first [reflexivity | assumption]|]); apply Hfin; eauto).
Qed.

Lemma list_text_fold (l : list (Z * Product.t)) (init : string) :
  fold_left (fun products_text '(idx, product) => products_text +:+ product_line idx product)
    l init =
  init +:+ foldr String.append "" (map (fun '(idx, product) => product_line idx product) l).
Proof.
  revert init. induction l as [|[idx p] l IH]; intros init; cbn [fold_left map foldr].
  - now rewrite append_empty_r.
  - rewrite IH, append_assoc. reflexivity.
Qed.

Lemma list_text_lines (category_name : string) (products : list Product.t) :
  list_text category_name products =
    ("📋 " +:+ category_name +:+ " - список моделей:" +:+ Py.nl +:+ Py.nl) +:+
    foldr String.append "" (caption_lines products) /\
  length (caption_lines products) = length products /\
  forall (i : nat) (p : Product.t),
    products !! i = Some p ->
    caption_lines products !! i =
      Some (Py.str (Z.of_nat i + 1) +:+ ". " +:+ Product.name p +:+ " - " +:+
            Py.str (Product.price p) +:+ " руб." +:+ Py.nl).
Proof.
  split; [apply list_text_fold|]. split.
  - unfold caption_lines. rewrite length_map. apply enumerate_length.
  - intros i p Hp. unfold caption_lines. rewrite lookup_map.
    rewrite (enumerate_lookup _ 1 _ _ Hp). cbn. unfold product_line.
    replace (1 + Z.of_nat i) with (Z.of_nat i + 1) by lia. reflexivity.
Qed.

Lemma add_buttons_concat (l : list (Z * Product.t)) :
  forall st,
    let st' := fold_left (fun st '(idx, product) =>
                            add_button st idx (product_button idx product)) l st in
    concat st'.1 ++ st'.2 =
    concat st.1 ++ st.2 ++ map (fun '(idx, product) => product_button idx product) l.
Proof.
  induction l as [|[idx p] l IH]; intros [bs row]; cbn [fold_left map fst snd].
  - now rewrite app_nil_r.
  - cbv zeta in IH. rewrite IH. unfold add_button.
    destruct (idx mod 3 =? 0); cbn [fst snd].
    + rewrite concat_app. cbn [concat]. rewrite app_nil_r, <- !app_assoc. reflexivity.
    + rewrite <- !app_assoc. reflexivity.
Qed.

(** The keyboard of a list: the numbered buttons in the order of the
    products, then the row that leads back to the menu. *)
Lemma list_buttons_numbered (products : list Product.t) :
  exists rows,
    list_buttons products = rows ++ [back_to_menu_row] /\
    concat rows =
      map (fun '(idx, product) => product_button idx product) (Py.enumerate products 1).
Proof.
  unfold list_buttons.
  pose proof (add_buttons_concat (Py.enumerate products 1) ([], [])) as H.
  cbv zeta in H. cbn [fst snd concat app] in H.
  destruct (fold_left _ (Py.enumerate products 1) ([], [])) as [bs row].
  cbn [fst snd] in H. unfold finish_buttons. destruct row as [|b row].
  - exists bs. split; [reflexivity|]. now rewrite app_nil_r in H.
  - exists (bs ++ [b :: row]). split; [reflexivity|].
    rewrite concat_app. cbn [concat]. rewrite app_nil_r. exact H.
Qed.

Lemma dict_get_set {V} (k k' : Z) (v : V) (d : list (Z * V)) :
  dict_get k (dict_set k' v d) = if k' =? k then Some v else dict_get k d.
Proof.
  induction d as [|[k0 v0] d IH]; cbn [dict_set dict_get].
  - destruct (k' =? k); reflexivity.
  - destruct (Z.eqb_spec k0 k') as [->|Hne]; cbn [dict_get].
    + destruct (k' =? k); reflexivity.
    + destruct (Z.eqb_spec k0 k) as [->|Hne'].
      * destruct (Z.eqb_spec k' k); [congruence | reflexivity].
      * exact IH.
Qed.

Lemma dict_fold_keep (l : list Product.t) :
  forall d k, k ∉ (Product.id <$> l) -> dict_get k (fold_left dict_add l d) = dict_get k d.
Proof.
  induction l as [|b l IH]; intros d k Hk; [reflexivity|]. cbn [fold_left].
  rewrite fmap_cons in Hk. apply not_elem_of_cons in Hk as [Hk1 Hk2].
  rewrite IH by assumption. unfold dict_add. rewrite dict_get_set.
  destruct (Z.eqb_spec (Product.id b) k); [congruence | reflexivity].
Qed.

Lemma dict_fold_keys (l : list Product.t) :
  forall d,
    (forall k q, dict_get k d = Some q -> Product.id q = k) ->
    forall k q, dict_get k (fold_left dict_add l d) = Some q -> Product.id q = k.
Proof.
  induction l as [|b l IH]; intros d Hd; [exact Hd|]. cbn [fold_left].
  apply IH. intros k q. unfold dict_add. rewrite dict_get_set.
  destruct (Z.eqb_spec (Product.id b) k); [|apply Hd]. intros [= <-]. assumption.
Qed.

Lemma dict_fold_some (l : list Product.t) :
  forall d k, is_Some (dict_get k d) -> is_Some (dict_get k (fold_left dict_add l d)).
Proof.
  induction l as [|b l IH]; intros d k Hk; [exact Hk|]. cbn [fold_left].
  apply IH. unfold dict_add. rewrite dict_get_set.
  destruct (Product.id b =? k); [eauto | exact Hk].
Qed.

Lemma dict_fold_has (l : list Product.t) :
  forall d p, p ∈ l -> is_Some (dict_get (Product.id p) (fold_left dict_add l d)).
Proof.
  induction l as [|b l IH]; intros d p Hp; [inversion Hp|]. cbn [fold_left].
  apply elem_of_cons in Hp as [->|Hp]; [|now apply IH].
  apply dict_fold_some. unfold dict_add. rewrite dict_get_set, Z.eqb_refl. eauto.
Qed.

Lemma dict_fold_unique (l : list Product.t) :
  forall d p, NoDup (Product.id <$> l) -> p ∈ l ->
              dict_get (Product.id p) (fold_left dict_add l d) = Some p.
Proof.
  induction l as [|b l IH]; intros d p Hnd Hp; [inversion Hp|]. cbn [fold_left].
  rewrite fmap_cons in Hnd. apply NoDup_cons in Hnd as [Hnot Hnd].
  apply elem_of_cons in Hp as [->|Hp]; [|now apply IH].
  rewrite dict_fold_keep by assumption. unfold dict_add.
  rewrite dict_get_set, Z.eqb_refl. reflexivity.
Qed.

(** The mapping of a session leads from the identifier of every product
    of the render to a product with that identifier: to the product
    itself when identifiers are not repeated. *)
Lemma products_dict_lookup (products : list Product.t) (p : Product.t) :
  p ∈ products ->
  exists q, dict_get (Product.id p) (products_dict products) = Some q /\
            Product.id q = Product.id p /\
            (NoDup (Product.id <$> products) -> q = p).
Proof.
  intros Hp. unfold products_dict.
  destruct (dict_fold_has products [] p Hp) as [q Hq].
  exists q. split; [exact Hq|]. split.
  - eapply dict_fold_keys; [|exact Hq]. intros k q' H. discriminate.
  - intros Hnd. rewrite (dict_fold_unique products [] p Hnd Hp) in Hq. congruence.
Qed.


Lemma show_category_spec (message : Message) (w : World) (category_name category : string) :
  msg_text message = Some category_name ->
  category_map category_name = Some category ->
  let user_id := msg_from_id message in
  let products := Store.products_of_category category (db w) in
  exists r w' evs,
    show_category message w = (r, w') /\
    trace w' = trace w ++ evs /\
    Forall (render_event (msg_chat_id message) (list_text category_name products)
              (InlineKeyboardMarkup (list_buttons products))) evs /\
    db w' = db w /\ fsm w' = fsm w /\
    (products = [] -> user_data w' = user_data w) /\
    (products <> [] ->
       exists ids, user_data w' =
         <[user_id := mkUserData category (products_dict products) ids]> (user_data w)).
Proof.
  intros Htxt Hcat user_id products. unfold show_category. rewrite Htxt. run.
  rewrite Hcat. run.
  set (w0 := {| env := env w; db := db w; session := Some (db w);
                user_data := user_data w; image_cache := image_cache w; fsm := fsm w;
                clock := clock w; trace := trace w |}).
  destruct (show_category_body_spec message category category_name w0 (db w) eq_refl)
    as (r & w1 & evs & Hrun & Ht & Hall & Hs & Hd & He & Hf & Hu0 & Hu1).
  fold user_id products in Hall, Hu0, Hu1.
  rewrite Hrun. cbn [session db env fsm trace user_data w0] in *.
  destruct r as [[]|e]; run.
  - rewrite Hs. run. eexists _, _, evs. split; [reflexivity|]. run. auto 10.
  - destruct (api_send (env w1) (clock w1)) as [m|]; run; rewrite Hs; run;
      (eexists _, _, (evs ++ [_]); split; [reflexivity|]; run;
       split; [rewrite Ht, <- app_assoc; reflexivity|];
       split; [apply Forall_app; split; [exact Hall | events_ok]|]; auto).
Qed.

(** C3: whenever a category render sends its collage, the caption lists all
    the products of the category in the order of the catalog query, the
    line [i] being "[i+1]. name - price руб."; the numbered buttons come in
    the same order, the button [i] carries the number [i+1] and the
    callback data that [show_product] reads as the identifier of the
    product [i], which the session's mapping holds. No image is needed for
    a product to be listed. *)
Theorem category_caption_and_controls (message : Message) (w : World)
    (category_name category : string) :
  msg_text message = Some category_name ->
  category_map category_name = Some category ->
  let user_id := msg_from_id message in
  let products := Store.products_of_category category (db w) in
  let w' := (show_category message w).2 in
  exists evs,
    trace w' = trace w ++ evs /\
    forall chat photo caption markup res,
      SendPhoto chat photo caption markup res ∈ evs ->
      chat = ChatInt (msg_chat_id message) /\
      (exists lines,
         caption = ("📋 " +:+ category_name +:+ " - список моделей:" +:+ Py.nl +:+ Py.nl) +:+
                   foldr String.append "" lines /\
         length lines = length products /\
         forall (i : nat) (p : Product.t),
           products !! i = Some p ->
           lines !! i =
             Some (Py.str (Z.of_nat i + 1) +:+ ". " +:+ Product.name p +:+ " - " +:+
                   Py.str (Product.price p) +:+ " руб." +:+ Py.nl)) /\
      (exists rows,
         markup = InlineKeyboardMarkup (rows ++ [back_to_menu_row]) /\
         length (concat rows) = length products /\
         forall (i : nat) (p : Product.t),
           products !! i = Some p ->
           exists b u q,
             concat rows !! i = Some b /\
             text b = Py.str (Z.of_nat i + 1) /\
             callback_product_id (callback_data b) = Ok (Product.id p) /\
             user_data w' !! user_id = Some u /\
             dict_get (Product.id p) (ud_products u) = Some q /\
             Product.id q = Product.id p /\
             (NoDup (Product.id <$> products) -> q = p)).
Proof.
  intros Htxt Hcat user_id products w'.
  destruct (show_category_spec message w category_name category Htxt Hcat)
    as (r & w1 & evs & Hrun & Ht & Hall & Hd & Hf & Hu0 & Hu1).
  fold user_id products in Hall, Hu0, Hu1.
  subst w'. rewrite Hrun. cbn [snd]. exists evs. split; [exact Ht|].
  intros chat photo caption markup res Hin.
  rewrite Forall_forall in Hall. specialize (Hall _ Hin). cbn in Hall.
  destruct photo as [data filename|fid]; [|contradiction].
  destruct Hall as (-> & _ & -> & ->). split; [reflexivity|].
  destruct (list_text_lines category_name products) as (Htext & Hlen & Hline).
  split.
  { exists (caption_lines products). auto. }
  destruct (list_buttons_numbered products) as (rows & Hrows & Hconcat).
  exists rows. split; [now rewrite Hrows|]. split.
  { rewrite Hconcat, length_map. apply enumerate_length. }
  intros i p Hp.
  assert (Hne : products <> []) by (intros E; rewrite E in Hp; discriminate).
  destruct (Hu1 Hne) as [ids Hud].
  assert (Hin' : p ∈ products) by (eapply list_elem_of_lookup_2; exact Hp).
  destruct (products_dict_lookup products p Hin') as (q & Hq & Hid & Huniq).
  exists (product_button (Z.of_nat i + 1) p), (mkUserData category (products_dict products) ids), q.
  split.
  { rewrite Hconcat, lookup_map, (enumerate_lookup _ 1 _ _ Hp). cbn.
    replace (1 + Z.of_nat i) with (Z.of_nat i + 1) by lia. reflexivity. }
  split; [reflexivity|]. split; [apply callback_of_button|].
  split; [rewrite Hud; apply lookup_insert_eq|].
  auto.
Qed.

Lemma category_render_example :
  let message := Demo.says "🏎 Мейн модели" in
  let w' := (show_category message Demo.world).2 in
  let caption := list_text "🏎 Мейн модели" [Demo.bone_shaker; Demo.twin_mill] in
  let markup := InlineKeyboardMarkup (list_buttons [Demo.bone_shaker; Demo.twin_mill]) in
  msg_text message = Some "🏎 Мейн модели" /\
  category_map "🏎 Мейн модели" = Some "main" /\
  (* the picture of the first product is not served *)
  HttpGet (Demo.url_of "photo-A") (HttpStatus 404 "") ∈ trace w' /\
  SendPhoto (ChatInt 42) (BufferedInputFile "JPEG" "collage.jpg") caption markup (Some 1004)
    ∈ trace w' /\
  (* and the first product is listed and can be selected *)
  exists lines rows b,
    caption = ("📋 " +:+ "🏎 Мейн модели" +:+ " - список моделей:" +:+ Py.nl +:+ Py.nl) +:+
              foldr String.append "" lines /\
    lines !! 0%nat = Some ("1. Bone Shaker - 100 руб." +:+ Py.nl) /\
    markup = InlineKeyboardMarkup (rows ++ [back_to_menu_row]) /\
    concat rows !! 0%nat = Some b /\
    text b = "1" /\
    callback_product_id (callback_data b) = Ok 5 /\
    (user_data w' !! 42) ≫= (fun u => dict_get 5 (ud_products u)) = Some Demo.bone_shaker.
Proof.
  intros message w' caption markup.
  assert (Htxt : msg_text message = Some "🏎 Мейн модели") by reflexivity.
  assert (Hcat : category_map "🏎 Мейн модели" = Some "main") by (vm_compute; reflexivity).
  split; [exact Htxt|]. split; [exact Hcat|].
  assert (Hget : HttpGet (Demo.url_of "photo-A") (HttpStatus 404 "") ∈ trace w').
  { vm_compute. do 2 (apply elem_of_cons; right). apply elem_of_cons. left. reflexivity. }
  assert (Hphoto : SendPhoto (ChatInt 42) (BufferedInputFile "JPEG" "collage.jpg") caption
                     markup (Some 1004) ∈ trace w').
  { vm_compute. do 4 (apply elem_of_cons; right). apply elem_of_cons. left. reflexivity. }
  split; [exact Hget|]. split; [exact Hphoto|].
  destruct (category_caption_and_controls message Demo.world "🏎 Мейн модели" "main" Htxt Hcat)
    as (evs & Htrace & Hsent).
  change (trace Demo.world ++ evs) with evs in Htrace. fold w' in Htrace.
  rewrite Htrace in Hphoto.
  destruct (Hsent _ _ _ _ _ Hphoto) as (_ & (lines & Hcap & _ & Hline) & (rows & Hrows & _ & Hbtn)).
  destruct (Hbtn 0%nat Demo.bone_shaker eq_refl)
    as (b & u & q & Hb & Htext & Hcb & Hu & Hq & _ & Huniq).
  exists lines, rows, b.
  split; [exact Hcap|]. split; [exact (Hline 0%nat Demo.bone_shaker eq_refl)|].
  split; [exact Hrows|]. split; [exact Hb|]. split; [exact Htext|]. split; [exact Hcb|].
  fold w' in Hu. change (msg_from_id message) with 42 in Hu. rewrite Hu. cbn. change (Product.id Demo.bone_shaker) with 5 in Hq.
  rewrite Hq. f_equal. apply Huniq.
  change (NoDup [5; 7]). apply NoDup_cons_2; [|apply NoDup_singleton].
  intros H. apply list_elem_of_singleton in H. discriminate.
Defined.

Lemma render_event_no_retraction chat_id caption markup (evs : list Event) :
  Forall (render_event chat_id caption markup) evs -> retracted_ids evs = [].
Proof.
  induction 1 as [|e evs He _ IH]; [reflexivity|].
  destruct e; cbn in He; try contradiction; exact IH.
Qed.

(** [show_category] never retracts a message. *)
Lemma show_category_never_retracts (message : Message) (w : World) :
  exists evs,
    trace (show_category message w).2 = trace w ++ evs /\ retracted_ids evs = [].
Proof.
  destruct (msg_text message) as [category_name|] eqn:Htxt.
  2:{ exists []. unfold show_category. rewrite Htxt. run.
      split; [now rewrite app_nil_r | reflexivity]. }
  destruct (category_map category_name) as [category|] eqn:Hcat.
  2:{ exists []. unfold show_category. rewrite Htxt. run. rewrite Hcat. run.
      split; [now rewrite app_nil_r | reflexivity]. }
  destruct (show_category_spec message w category_name category Htxt Hcat)
    as (r & w1 & evs & Hrun & Ht & Hall & _).
  exists evs. rewrite Hrun. split; [exact Ht|].
  eapply render_event_no_retraction. exact Hall.
Qed.

(** C1: no run of [show_category] tries to delete a message. So, when the
    user 42 opens the main models twice: the first render sends the collage
    as the message 1004 and records it as active; the second render sends
    the collage 1008 and records it as active, and the message 1004 stays
    on the screen, remembered by no session. *)
Theorem second_render_leaves_first_collage :
  (forall (message : Message) (w : World),
     retracted_ids (drop (length (trace w)) (trace (show_category message w).2)) = []) /\
  let message := Demo.says "🏎 Мейн модели" in
  let w1 := (show_category message Demo.world).2 in
  let w2 := (show_category message w1).2 in
  sent_ids (trace w1) = [1004] /\
  last_msg_ids <$> user_data w1 !! 42 = Some [1004] /\
  sent_ids (trace w2) = [1004; 1008] /\
  retracted_ids (trace w2) = [] /\
  last_msg_ids <$> user_data w2 !! 42 = Some [1008].
Proof.
  split.
  - intros message w.
    destruct (show_category_never_retracts message w) as (evs & -> & Hnone).
    rewrite drop_app_length. exact Hnone.
  - vm_compute. repeat split; reflexivity.
Qed.

(** The same two renders when the product is shown in between: that handler
    retracts the collage before it sends the photo. *)
Example show_product_retracts :
  let message := Demo.says "🏎 Мейн модели" in
  let w1 := (show_category message Demo.world).2 in
  let w2 := (show_product (Demo.presses "product_7") w1).2 in
  retracted_ids (trace w2) = [1004] /\
  sent_ids (trace w2) = [1004; 1006].
Proof. vm_compute. repeat split; reflexivity. Qed.

(* ===================================================================== *)
(** * Retraction, collage cells and keyboards: further properties *)
(* ===================================================================== *)

Lemma retracted_ids_retraction_events (e : Env) (c : nat) (chat_id : Z) (ids : list Z) :
  retracted_ids (retraction_events e c chat_id ids) = ids.
Proof.
  revert c. induction ids as [|i ids IH]; intros c; [reflexivity|].
  cbn [retraction_events]. unfold retracted_ids. cbn. f_equal. apply IH.
Qed.

(** X1: [delete_previous_messages] is best effort. In every world and
    whatever the deletions answer, it returns normally; it calls
    [deleteMessage] once for each identifier of the list, in the order of
    the list and in the given chat, and makes no other call; the sessions,
    the database, the conversations and the image cache are as before. *)
Theorem retraction_is_best_effort (chat_id : Z) (message_ids : list Z) (w : World) :
  let w' := (delete_previous_messages chat_id message_ids w).2 in
  (delete_previous_messages chat_id message_ids w).1 = Ok tt /\
  (exists evs,
     trace w' = trace w ++ evs /\
     retracted_ids evs = message_ids /\
     Forall (fun e => exists msg_id ok, e = DeleteMessage chat_id msg_id ok) evs) /\
  user_data w' = user_data w /\ db w' = db w /\ fsm w' = fsm w /\
  image_cache w' = image_cache w /\ session w' = session w.
Proof.
  rewrite delete_previous_messages_run. cbn [fst snd trace user_data db fsm image_cache session].
  split; [reflexivity|]. split; [|repeat split].
  exists (retraction_events (env w) (clock w) chat_id message_ids).
  split; [reflexivity|]. split; [apply retracted_ids_retraction_events|].
  generalize (clock w). induction message_ids as [|i ids IH]; intros c; cbn [retraction_events].
  - apply List.Forall_nil.
  - apply List.Forall_cons; [eauto | apply IH].
Qed.

(** X2: the cells of a collage are those of the first bitmap, whatever the
    sizes of the others. For a list whose first bitmap is [width] x
    [height] (both positive) the composer succeeds; every bitmap is pasted
    once, in the order of the list, at the corner of a cell of [width] x
    [height] that lies inside the canvas; two bitmaps are never pasted at
    the same corner. *)
Theorem collage_cells_inside_and_apart (images : list Image) (first : Image)
    (width height : Z) :
  images !! 0%nat = Some first -> size first = (width, height) ->
  0 < width -> 0 < height ->
  exists canvas W H,
    compose_collage images = Ok canvas /\ canvas_size canvas = (W, H) /\
    length (pasted canvas) = length images /\
    (forall (i : nat) img x y,
       pasted canvas !! i = Some (img, (x, y)) ->
       images !! i = Some img /\
       0 <= x /\ x + width <= W /\ 0 <= y /\ y + height <= H) /\
    (forall (i j : nat) img1 img2 box,
       pasted canvas !! i = Some (img1, box) ->
       pasted canvas !! j = Some (img2, box) -> i = j).
Proof.
  intros Hfirst Hsize Hw Hh.
  destruct images as [|first' rest]; [discriminate|].
  injection Hfirst as ->.
  set (images := first :: rest) in *.
  set (n := Z.of_nat (length images)).
  assert (Hn : 1 <= n) by (unfold n, images; simpl; lia).
  set (cols := Z.min 3 n). set (rows := (n + cols - 1) / cols).
  assert (Hcols : 1 <= cols) by (unfold cols; lia).
  set (cell := fun i : Z => (i mod cols * width, i / cols * height)).
  assert (Hc : compose_collage images =
               Ok (mkCanvas (cols * width, rows * height)
                     (map (fun '(i, img) => (img, cell i)) (Py.enumerate images 0)))).
  { unfold compose_collage. fold n. fold cols. fold rows.
    destruct (Z.eqb_spec cols 0) as [H0|_]; [lia|].
    unfold images at 1. rewrite Hsize. rewrite (paste_all cell). reflexivity. }
  assert (Hrows : n <= rows * cols).
  { pose proof (Z.mul_succ_div_gt (n + cols - 1) cols ltac:(lia)) as H. fold rows in H. lia. }
  assert (Hlook : forall (i : nat) img box,
             map (fun '(i, img) => (img, cell i)) (Py.enumerate images 0) !! i = Some (img, box) ->
             images !! i = Some img /\ box = cell (Z.of_nat i)).
  { intros i img box Hi. rewrite lookup_map in Hi.
    destruct (images !! i) as [img'|] eqn:Ei.
    - rewrite (enumerate_lookup _ 0 _ _ Ei) in Hi. cbn in Hi. injection Hi as <- <-.
      split; reflexivity.
    - assert (Hlen : (length (Py.enumerate images 0) <= i)%nat)
        by (rewrite enumerate_length; apply lookup_ge_None; exact Ei).
      apply lookup_ge_None in Hlen. rewrite Hlen in Hi. discriminate. }
  eexists _, _, _. split; [exact Hc|]. cbn [canvas_size pasted].
  split; [reflexivity|]. split; [rewrite length_map; apply enumerate_length|]. split.
  - intros i img x y Hi. apply Hlook in Hi as [Himg Hbox]. split; [exact Himg|].
    unfold cell in Hbox. injection Hbox as -> ->.
    assert (Hi : 0 <= Z.of_nat i < n).
    { apply lookup_lt_Some in Himg. unfold n. lia. }
    pose proof (Z.mod_pos_bound (Z.of_nat i) cols ltac:(lia)) as Hm.
    pose proof (Z.div_pos (Z.of_nat i) cols ltac:(lia) ltac:(lia)) as Hd.
    assert (Hdr : Z.of_nat i / cols < rows).
    { apply Z.div_lt_upper_bound; [lia|]. lia. }
    repeat split; nia.
  - intros i j img1 img2 box Hi Hj.
    apply Hlook in Hi as [_ Hbi]. apply Hlook in Hj as [_ Hbj].
    rewrite Hbi in Hbj. unfold cell in Hbj. injection Hbj as Hx Hy.
    assert (Hm : Z.of_nat i mod cols = Z.of_nat j mod cols) by nia.
    assert (Hd : Z.of_nat i / cols = Z.of_nat j / cols) by nia.
    pose proof (Z.div_mod (Z.of_nat i) cols ltac:(lia)) as Ei.
    pose proof (Z.div_mod (Z.of_nat j) cols ltac:(lia)) as Ej.
    rewrite Hm, Hd in Ei. lia.
Qed.

(** Four bitmaps of three sizes: the grid is that of the first one. *)
Lemma collage_cells_example :
  let images := [mkImage (400, 300) "a"; mkImage (200, 100) "b"; mkImage (400, 400) "c";
                 mkImage (400, 300) "d"] in
  images !! 0%nat = Some (mkImage (400, 300) "a") /\
  exists canvas,
    compose_collage images = Ok canvas /\ canvas_size canvas = (1200, 600) /\
    pasted canvas !! 3%nat = Some (mkImage (400, 300) "d", (0, 300)).
Proof.
  intros images. split; [reflexivity|].
  destruct (collage_cells_inside_and_apart images (mkImage (400, 300) "a") 400 300)
    as (canvas & W & H & Hc & _); [reflexivity | reflexivity | lia | lia |].
  exists canvas. split; [exact Hc|].
  assert (E : Ok canvas = compose_collage images) by (symmetry; exact Hc).
  vm_compute in E. injection E as ->. split; reflexivity.
Defined.

(** The rows under construction while the buttons [start], [start + 1], ...
    are added: the finished rows hold three buttons each, the open row
    fewer than three. *)
Lemma add_button_rows (l : list (Z * Product.t)) :
  forall (start : Z) (products : list Product.t) st,
    l = Py.enumerate products start ->
    0 <= start ->
    Forall (fun row => length row = 3%nat) st.1 ->
    Z.of_nat (length st.2) = (start - 1) mod 3 ->
    let st' := fold_left (fun st '(idx, product) =>
                            add_button st idx (product_button idx product)) l st in
    Forall (fun row => length row = 3%nat) st'.1 /\ (length st'.2 < 3)%nat.
Proof.
  induction l as [|[idx p] l IH]; intros start products [bs row] Hl Hstart Hbs Hrow;
    cbn [fst snd] in *.
  - cbn [fold_left fst snd]. split; [exact Hbs|].
    pose proof (Z.mod_pos_bound (start - 1) 3 ltac:(lia)). lia.
  - destruct products as [|q products]; [discriminate|].
    cbn [Py.enumerate] in Hl. injection Hl as -> -> Hl.
    cbn [fold_left].
    change (add_button (bs, row) start (product_button start q))
      with (if start mod 3 =? 0
            then (bs ++ [row ++ [product_button start q]], [])
            else (bs, row ++ [product_button start q])).
    assert (Hlen : Z.of_nat (length (row ++ [product_button start q])) = (start - 1) mod 3 + 1)
      by (rewrite length_app; cbn [length]; lia).
    destruct (Z.eqb_spec (start mod 3) 0) as [H0|H0].
    + apply (IH (start + 1) products); [exact Hl | lia | |].
      * cbn [fst]. apply Forall_app. split; [exact Hbs|]. apply List.Forall_cons; [|constructor].
        assert ((start - 1) mod 3 = 2); [|lia].
        pose proof (Z.div_mod start 3 ltac:(lia)). pose proof (Z.div_mod (start - 1) 3 ltac:(lia)).
        pose proof (Z.mod_pos_bound (start - 1) 3 ltac:(lia)). lia.
      * cbn [snd length]. replace (start + 1 - 1) with start by lia. lia.
    + apply (IH (start + 1) products); [exact Hl | lia | exact Hbs |].
      cbn [snd]. rewrite Hlen. replace (start + 1 - 1) with start by lia.
      pose proof (Z.div_mod start 3 ltac:(lia)). pose proof (Z.div_mod (start - 1) 3 ltac:(lia)).
      pose proof (Z.mod_pos_bound (start - 1) 3 ltac:(lia)).
      pose proof (Z.mod_pos_bound start 3 ltac:(lia)). lia.
Qed.

(** X3: the numbered buttons come three to a row. The keyboard of a list of
    products, the same under the collage and under the text list, is: rows
    of exactly three buttons, then at most one shorter row of one or two
    buttons, then the row that leads back to the menu; the numbered rows
    hold one button for each product. *)
Theorem buttons_three_to_a_row (products : list Product.t) :
  exists rows short,
    list_buttons products = rows ++ short ++ [back_to_menu_row] /\
    category_buttons products (Z.of_nat (length products)) = Ok (list_buttons products) /\
    Forall (fun row => length row = 3%nat) rows /\
    (short = [] \/ exists row, short = [row] /\ (1 <= length row < 3)%nat) /\
    length (concat (rows ++ short)) = length products.
Proof.
  pose proof (add_button_rows (Py.enumerate products 1) 1 products ([], []) eq_refl
                ltac:(lia) ltac:(constructor) eq_refl) as Hrows.
  pose proof (add_buttons_concat (Py.enumerate products 1) ([], [])) as Hcat.
  cbv zeta in Hrows, Hcat. cbn [fst snd concat app] in Hcat.
  unfold list_buttons.
  destruct (fold_left _ (Py.enumerate products 1) ([], [])) as [bs row] eqn:E.
  cbn [fst snd] in *. destruct Hrows as [Hbs Hrow].
  assert (Hlen : length (concat bs ++ row) = length products).
  { rewrite Hcat, length_map. apply enumerate_length. }
  unfold finish_buttons. destruct row as [|b row].
  - exists bs, []. split; [reflexivity|].
    split; [rewrite category_buttons_enum; unfold list_buttons; rewrite E; reflexivity|].
    split; [exact Hbs|]. split; [left; reflexivity|].
    rewrite !app_nil_r in *. exact Hlen.
  - exists bs, [b :: row]. split; [rewrite <- app_assoc; reflexivity|].
    split; [rewrite category_buttons_enum; unfold list_buttons; rewrite E; reflexivity|].
    split; [exact Hbs|]. split.
    { right. exists (b :: row). split; [reflexivity|]. cbn [length] in *. lia. }
    rewrite concat_app. cbn [concat]. rewrite app_nil_r. exact Hlen.
Qed.

(* ===================================================================== *)
(** * Category render: empty category, failed file lookup, text list *)
(* ===================================================================== *)

(** X4: a category without products. [show_category] sends the notice that
    the category is empty and leaves every session as it is: the user keeps
    the session of the category opened before; the database and the
    conversations are unchanged; nothing else is sent when the notice is
    accepted. *)
Theorem empty_category_keeps_session (message : Message) (w : World)
    (category_name category : string) :
  msg_text message = Some category_name ->
  category_map category_name = Some category ->
  Store.products_of_category category (db w) = [] ->
  let w' := (show_category message w).2 in
  user_data w' = user_data w /\ db w' = db w /\ fsm w' = fsm w /\
  exists rest,
    trace w' = trace w ++
      SendMessage (ChatInt (msg_chat_id message)) "В этой категории пока нет товаров 😢"
        NoMarkup (api_send (env w) (clock w)) :: rest /\
    Forall (fun e => is_send e = true) rest /\
    (is_Some (api_send (env w) (clock w)) -> rest = []).
Proof.
  intros Htxt Hcat Hempty. unfold show_category, show_category_body.
  rewrite Htxt. run. rewrite Hcat. run. rewrite Hempty. run.
  destruct (api_send (env w) (clock w)) as [m|]; run.
  - repeat (split; [reflexivity|]). exists []. split; [reflexivity|]. split; [constructor|auto].
  - destruct (api_send (env w) (S (clock w))); run;
      (repeat (split; [reflexivity|]); eexists; split; [rewrite <- app_assoc; reflexivity|];
       split; [events_ok | intros [? [=]]]).
Qed.

(** After the main models, the buyer opens the category of the zamak
    models, which has no product: the session of the main models stays. *)
Lemma empty_category_example :
  let w1 := (show_category (Demo.says "🏎 Мейн модели") Demo.world).2 in
  let w2 := (show_category (Demo.says "🔮 Замак модели") w1).2 in
  category_map "🔮 Замак модели" = Some "zamak" /\
  Store.products_of_category "zamak" (db w1) = [] /\
  user_data w2 = user_data w1 /\
  ud_category <$> user_data w2 !! 42 = Some "main".
Proof.
  intros w1 w2.
  assert (Hcat : category_map "🔮 Замак модели" = Some "zamak") by (vm_compute; reflexivity).
  assert (Hempty : Store.products_of_category "zamak" (db w1) = [])
    by (vm_compute; reflexivity).
  split; [exact Hcat|]. split; [exact Hempty|].
  destruct (empty_category_keeps_session (Demo.says "🔮 Замак модели") w1
              "🔮 Замак модели" "zamak" eq_refl Hcat Hempty) as (Hu & _).
  split; [exact Hu|]. fold w2 in Hu. rewrite Hu. vm_compute. reflexivity.
Defined.

Lemma map_M_get_file_run (file_ids : list string) (w : World) :
  map_M bot_get_file file_ids w =
    (Ok (map get_file_answer (get_file_events (env w) (clock w) file_ids)),
     mkWorld (env w) (db w) (session w) (user_data w) (image_cache w) (fsm w)
       (clock w + length file_ids)
       (trace w ++ get_file_events (env w) (clock w) file_ids)).
Proof.
  revert w. induction file_ids as [|f fs IH]; intros w.
  - cbn. unfold ret. rewrite Nat.add_0_r, app_nil_r. destruct w; reflexivity.
  - cbn [map_M]. unfold bot_get_file at 1. run. rewrite IH. run.
    cbn [get_file_events map get_file_answer length].
    rewrite <- app_assoc, Nat.add_succ_r. reflexivity.
Qed.

(** X5: one failed file lookup aborts the whole render. When [getFile]
    fails for the picture of any product of the category, [show_category]
    makes the lookups of all the products and then only sends the apology:
    no collage and no list, although the session of the user has already
    been replaced by the one of the new category, with no active message. *)
Theorem get_file_failure_aborts_render (message : Message) (w : World)
    (category_name category : string) :
  msg_text message = Some category_name ->
  category_map category_name = Some category ->
  let user_id := msg_from_id message in
  let products := Store.products_of_category category (db w) in
  let requests := get_file_events (env w) (clock w) (map Product.photo_id products) in
  Exists (fun e => get_file_answer e = None) requests ->
  let w' := (show_category message w).2 in
  trace w' = trace w ++ requests ++
    [SendMessage (ChatInt (msg_chat_id message)) "Произошла ошибка 😢 Попробуйте позже."
       NoMarkup (api_send (env w) (clock w + length products))] /\
  user_data w' =
    <[user_id := mkUserData category (products_dict products) []]> (user_data w) /\
  db w' = db w.
Proof.
  intros Htxt Hcat user_id products requests Hfail w'. subst w' requests.
  unfold show_category, show_category_body. rewrite Htxt. run. rewrite Hcat. run.
  fold products user_id. clearbody products.
  destruct products as [|p ps]; [inversion Hfail|].
  set (products := p :: ps) in *.
  set (requests := get_file_events (env w) (clock w) (map Product.photo_id products)) in *.
  run. unfold gather_get_file. run.
  rewrite map_M_get_file_run. run. fold requests.
  assert (Hall : forallb (fun f : option string => match f with Some _ => true | None => false end)
                   (map get_file_answer requests) = false).
  { apply not_true_is_false. intros Hall. rewrite forallb_forall in Hall.
    apply Exists_exists in Hfail as (e & Hin & He).
    specialize (Hall (get_file_answer e) (in_map _ _ _ (proj1 (list_elem_of_In _ _) Hin))).
    rewrite He in Hall. discriminate. }
  rewrite Hall. run. rewrite length_map.
  destruct (api_send (env w) (clock w + length products)); run;
    (split; [rewrite <- app_assoc; reflexivity|]; split; reflexivity).
Qed.

(** The file of the second main model cannot be looked up. *)
Lemma get_file_failure_example :
  let w := mkWorld Scenes.no_file Demo.shop None ∅ ∅ ∅ 0 [] in
  let w' := (show_category (Demo.says "🏎 Мейн модели") w).2 in
  category_map "🏎 Мейн модели" = Some "main" /\
  trace w' =
    [GetFile "photo-A" (Some "photos/photo-A"); GetFile "photo-B" None;
     SendMessage (ChatInt 42) "Произошла ошибка 😢 Попробуйте позже." NoMarkup (Some 1002)] /\
  (user_data w' !! 42) ≫= (fun u => Some (ud_category u, last_msg_ids u)) = Some ("main", []).
Proof.
  intros w w'.
  assert (Hcat : category_map "🏎 Мейн модели" = Some "main") by (vm_compute; reflexivity).
  split; [exact Hcat|].
  destruct (get_file_failure_aborts_render (Demo.says "🏎 Мейн модели") w
              "🏎 Мейн модели" "main" eq_refl Hcat) as (Htr & Hu & _).
  { apply List.Exists_cons_tl, List.Exists_cons_hd. reflexivity. }
  fold w' in Htr, Hu. split.
  - rewrite Htr. reflexivity.
  - rewrite Hu. cbn [msg_from_id Demo.says]. rewrite lookup_insert_eq. reflexivity.
Defined.

Lemma dict_set_fresh {V} (k : Z) (v : V) (d : list (Z * V)) :
  k ∉ d.*1 -> dict_set k v d = d ++ [(k, v)].
Proof.
  induction d as [|[k' v'] d IH]; intros Hk; [reflexivity|].
  rewrite fmap_cons in Hk. apply not_elem_of_cons in Hk as [Hne Hk]. cbn [fst] in Hne.
  cbn [dict_set]. destruct (Z.eqb_spec k' k) as [->|_]; [congruence|].
  rewrite IH by assumption. reflexivity.
Qed.

Lemma products_dict_fold (products : list Product.t) :
  forall d,
    NoDup (d.*1 ++ (Product.id <$> products)) ->
    fold_left dict_add products d = d ++ map (fun p => (Product.id p, p)) products.
Proof.
  induction products as [|p ps IH]; intros d Hnd; cbn [fold_left map].
  - now rewrite app_nil_r.
  - rewrite fmap_cons in Hnd. unfold dict_add at 2.
    rewrite dict_set_fresh.
    2:{ apply NoDup_app in Hnd as (_ & Hdis & _). intros Hin. apply (Hdis _ Hin). left. }
    rewrite IH.
    + rewrite <- app_assoc. reflexivity.
    + rewrite fmap_app. cbn [fmap list_fmap]. rewrite <- app_assoc. exact Hnd.
Qed.

(** Without repeated identifiers, the mapping of a session holds the
    products of the render, in their order. *)
Lemma products_dict_values (products : list Product.t) :
  NoDup (Product.id <$> products) -> map snd (products_dict products) = products.
Proof.
  intros Hnd. unfold products_dict. rewrite products_dict_fold by exact Hnd.
  cbn [app]. rewrite map_map. cbn [snd]. apply map_id.
Qed.

(** The two dictionaries of category names are inverse to each other. *)
Lemma category_label_of_map (label category : string) :
  category_map label = Some category -> category_label category = label.
Proof.
  unfold category_map. intros H.
  repeat match type of H with
         | (if decide (label = ?l) then _ else _) = _ =>
             destruct (decide (label = l)) as [->|_];
               [injection H as <-; vm_compute; reflexivity|]
         end.
  discriminate.
Qed.

(** X6: the text list is the caption without the picture. For a session
    that a render of the category [label] left (products without repeated
    identifiers), [show_products_list] first retracts the recorded
    messages, then sends one message whose text is the caption of the
    collage and whose keyboard is the keyboard of the collage; when the
    message is accepted it becomes the only active message of the
    session. *)
Theorem text_list_matches_render (message : Message) (user_id : Z) (w : World)
    (label category : string) (products : list Product.t) (ids : list Z) :
  category_map label = Some category ->
  NoDup (Product.id <$> products) ->
  user_data w !! user_id = Some (mkUserData category (products_dict products) ids) ->
  let chat_id := msg_chat_id message in
  let w' := (show_products_list message user_id w).2 in
  category_buttons products (Z.of_nat (length products)) = Ok (list_buttons products) /\
  exists rest,
    trace w' =
      trace w ++ retraction_events (env w) (clock w) chat_id ids ++
      SendMessage (ChatInt chat_id) (list_text label products)
        (InlineKeyboardMarkup (list_buttons products))
        (api_send (env w) (clock w + length ids)) :: rest /\
    forall m,
      api_send (env w) (clock w + length ids) = Some m ->
      rest = [] /\
      user_data w' =
        <[user_id := mkUserData category (products_dict products) [m]]> (user_data w).
Proof.
  intros Hcat Hnd Hu chat_id w'. split; [apply category_buttons_enum|].
  subst w'. unfold show_products_list. run. rewrite Hu. run. rewrite Hu. run.
  rewrite (products_dict_values products Hnd), (category_label_of_map _ _ Hcat).
  fold chat_id. destruct ids as [|i ids].
  - run. cbn [retraction_events length app]. rewrite Nat.add_0_r.
    destruct (api_send (env w) (clock w)) as [m|] eqn:Es; run.
    + rewrite Hu. run. exists []. split; [reflexivity|]. intros m' [= <-]. split; reflexivity.
    + destruct (api_send (env w) (S (clock w))); run;
        (eexists; split; [rewrite <- ?app_assoc; reflexivity | intros m' [=]]).
  - rewrite delete_previous_messages_run. run.
    destruct (api_send (env w) (clock w + length (i :: ids))) as [m|] eqn:Es; run.
    + rewrite Hu. run. exists []. split; [rewrite <- ?app_assoc; reflexivity|].
      intros m' [= <-]. split; reflexivity.
    + destruct (api_send (env w) (S (clock w + length (i :: ids)))); run;
        (eexists; split; [rewrite <- ?app_assoc; reflexivity | intros m' [=]]).
Qed.

(** The main models were rendered as the collage 1004; the text list
    retracts it and shows the same caption and buttons. *)
Lemma text_list_example :
  let products := [Demo.bone_shaker; Demo.twin_mill] in
  let w1 := (show_category (Demo.says "🏎 Мейн модели") Demo.world).2 in
  let w2 := (show_products_list (Demo.says "list") 42 w1).2 in
  user_data w1 !! 42 = Some (mkUserData "main" (products_dict products) [1004]) /\
  trace w2 =
    trace w1 ++
    [DeleteMessage 42 1004 true;
     SendMessage (ChatInt 42) (list_text "🏎 Мейн модели" products)
       (InlineKeyboardMarkup (list_buttons products)) (Some 1006)] /\
  last_msg_ids <$> user_data w2 !! 42 = Some [1006].
Proof.
  intros products w1 w2.
  assert (Hu : user_data w1 !! 42 = Some (mkUserData "main" (products_dict products) [1004]))
    by (vm_compute; reflexivity).
  split; [exact Hu|].
  destruct (text_list_matches_render (Demo.says "list") 42 w1 "🏎 Мейн модели" "main"
              products [1004]) as (_ & rest & Htr & Hok).
  - vm_compute. reflexivity.
  - change (NoDup [5; 7]). apply NoDup_cons_2; [|apply NoDup_singleton].
    intros H. apply list_elem_of_singleton in H. discriminate.
  - exact Hu.
  - fold w2 in Htr, Hok.
    assert (Hs : api_send (env w1) (clock w1 + length [1004]) = Some 1006)
      by (vm_compute; reflexivity).
    destruct (Hok 1006 Hs) as [-> Hud]. split.
    + rewrite Htr, Hs. reflexivity.
    + rewrite Hud, lookup_insert_eq. reflexivity.
Defined.

(* ===================================================================== *)
(** * The keyboard of a product card and the way back to the list *)
(* ===================================================================== *)

Lemma no_underscore_dec (s : string) : {no_underscore s} + {~ no_underscore s}.
Proof.
  unfold no_underscore. induction (list_ascii_of_string s) as [|c l IH].
  - left. intros c [].
  - destruct (Ascii.eqb_spec c "_") as [->|Hne].
    + right. intros H. apply (H "_"%char); [left; reflexivity | reflexivity].
    + destruct IH as [Hy|Hn].
      * left. intros d [<-|Hd]; [exact Hne | apply Hy; exact Hd].
      * right. intros H. apply Hn. intros d Hd. apply H. right. exact Hd.
Qed.

Lemma split_on_nonnil (sep : ascii) (s : string) : Py.split_on sep s <> [].
Proof.
  induction s as [|c s IH]; cbn; [discriminate|].
  destruct (Ascii.eqb c sep); [discriminate|].
  destruct (Py.split_on sep s); [congruence | discriminate].
Qed.

Lemma split_on_whole (s : string) :
  no_underscore s -> Py.split_on "_" s = [s].
Proof.
  induction s as [|c s IH]; intros H; [reflexivity|].
  cbn [Py.split_on]. destruct (Ascii.eqb_spec c "_") as [->|Hne].
  - exfalso. apply (H "_"%char); [left; reflexivity | reflexivity].
  - rewrite IH; [reflexivity|]. intros d Hd. apply H. right. exact Hd.
Qed.

(** The fields of a text and the separators between them make up the text. *)
Lemma split_on_lengths (sep : ascii) (s : string) :
  (list_sum (map String.length (Py.split_on sep s)) + length (Py.split_on sep s)
   = String.length s + 1)%nat.
Proof.
  induction s as [|c s IH]; [reflexivity|].
  cbn [Py.split_on]. destruct (Ascii.eqb c sep).
  - unfold list_sum in *. cbn in *. lia.
  - pose proof (split_on_nonnil sep s) as Hne.
    destruct (Py.split_on sep s) as [|f fs]; [congruence|]. unfold list_sum in *. cbn in *. lia.
Qed.

Lemma split_on_two (s : string) :
  ~ no_underscore s -> (2 <= length (Py.split_on "_" s))%nat.
Proof.
  induction s as [|c s IH]; intros H.
  - exfalso. apply H. intros c [].
  - cbn [Py.split_on]. destruct (Ascii.eqb_spec c "_") as [->|Hne].
    + pose proof (split_on_nonnil "_" s) as Hn.
      destruct (Py.split_on "_" s); [congruence|]. cbn. lia.
    + assert (Hs : ~ no_underscore s).
      { intros Hs. apply H. intros d [<-|Hd]; [exact Hne | apply Hs; exact Hd]. }
      specialize (IH Hs). destruct (Py.split_on "_" s) as [|f fs]; cbn in *; lia.
Qed.

Lemma index_last {A} (l : list A) : Py.index l (-1) = last l.
Proof.
  unfold Py.index. change (-1 <? 0) with true. cbv iota.
  destruct l as [|x l]; [reflexivity|].
  destruct (Z.ltb_spec (-1 + Z.of_nat (length (x :: l))) 0) as [H|H]; [cbn in H; lia|].
  replace (Z.to_nat (-1 + Z.of_nat (length (x :: l)))) with (length l) by (cbn; lia).
  rewrite last_lookup. reflexivity.
Qed.

Lemma elem_length_le (l : list string) (f : string) :
  f ∈ l -> (String.length f <= list_sum (map String.length l))%nat.
Proof.
  induction 1; unfold list_sum in *; cbn in *; lia.
Qed.

Lemma callback_category_back (category : string) :
  callback_category ("back_to_list_" +:+ category) = Ok category <-> no_underscore category.
Proof.
  unfold callback_category. rewrite index_last.
  assert (Hs : Py.split_on "_" ("back_to_list_" +:+ category) =
               "back" :: "to" :: "list" :: Py.split_on "_" category).
  { unfold String.append. cbn. fold String.append. reflexivity. }
  rewrite Hs.
  assert (Hl : last ("back" :: "to" :: "list" :: Py.split_on "_" category) =
               last (Py.split_on "_" category)).
  { pose proof (split_on_nonnil "_" category) as Hn.
    destruct (Py.split_on "_" category) as [|f fs]; [congruence | reflexivity]. }
  rewrite Hl. split.
  - intros H. destruct (last (Py.split_on "_" category)) as [f|] eqn:El; [|discriminate].
    injection H as ->.
    destruct (no_underscore_dec category) as [Hy|Hn]; [exact Hy|]. exfalso.
    pose proof (split_on_two category Hn) as H2.
    pose proof (split_on_lengths "_" category) as Hsum.
    assert (Hin : category ∈ Py.split_on "_" category).
    { apply last_Some in El as [l' ->]. apply elem_of_app. right. left. }
    apply elem_length_le in Hin. lia.
  - intros H. rewrite split_on_whole by exact H. reflexivity.
Qed.

Lemma callback_of_add_button (n : Z) :
  callback_product_id ("add_" +:+ Py.str n) = Ok n.
Proof.
  unfold callback_product_id.
  assert (Hs : Py.split_on "_" ("add_" +:+ Py.str n) = ["add"; Py.str n]).
  { pose proof (PyFacts.split_on_str n) as H. remember (Py.str n) as s.
    unfold String.append. simpl. fold String.append. rewrite H. reflexivity. }
  rewrite Hs. change (Py.index ["add"; Py.str n] 1) with (Some (Py.str n)).
  cbv beta iota. rewrite PyFacts.int_str. reflexivity.
Qed.

(** X7: what the buttons of a product card carry and what the handlers read
    from it. The data of the button "➕ В корзину" is read by [add_to_cart]
    as the identifier of the product, for every identifier. The data of the
    button "⬅️ Назад к списку" is read by [back_to_list] as the category
    exactly when the name of the category holds no underscore: the handler
    keeps what follows the last underscore. *)
Theorem product_keyboard_round_trip (product_id : Z) (category : string) :
  exists back add,
    get_product_keyboard product_id category = InlineKeyboardMarkup [[back; add]] /\
    callback_product_id (callback_data add) = Ok product_id /\
    (callback_category (callback_data back) = Ok category <-> no_underscore category).
Proof.
  eexists _, _. split; [reflexivity|]. cbn [callback_data]. split.
  - apply callback_of_add_button.
  - apply callback_category_back.
Qed.

Lemma back_to_list_refused (callback : CallbackQuery) (w : World) (category : string) :
  callback_category (cb_data callback) = Ok category ->
  (user_data w !! cb_from_id callback = None \/
   exists u, user_data w !! cb_from_id callback = Some u /\ ud_category u <> category) ->
  back_to_list callback w =
    (if api_ok (env w) (clock w) then Ok tt else Raise TelegramError,
     emit (AnswerCallback (Some "Ошибка навигации") (api_ok (env w) (clock w))) w).
Proof.
  intros Hc Hguard. unfold back_to_list. rewrite Hc. run.
  destruct Hguard as [Hu|(u & Hu & Hne)]; rewrite Hu.
  - destruct (api_ok (env w) (clock w)); reflexivity.
  - destruct (String.eqb_spec (ud_category u) category) as [He|_]; [contradiction|].
    cbn [negb]. run. destruct (api_ok (env w) (clock w)); reflexivity.
Qed.

(** X8: the guard of [back_to_list]. When the user has no session, or the
    session is of another category than the one read from the callback
    data, the handler answers the callback with "Ошибка навигации" and does
    nothing else. This is what happens on every press of the back button
    of a product card whose category has an underscore in its name
    ([team_transport]): the category read from the button is not the
    category of the session. *)
Theorem back_to_list_guard (callback : CallbackQuery) (w : World) :
  let refused :=
    back_to_list callback w =
      (if api_ok (env w) (clock w) then Ok tt else Raise TelegramError,
       emit (AnswerCallback (Some "Ошибка навигации") (api_ok (env w) (clock w))) w) in
  (forall category,
     callback_category (cb_data callback) = Ok category ->
     (user_data w !! cb_from_id callback = None \/
      exists u, user_data w !! cb_from_id callback = Some u /\ ud_category u <> category) ->
     refused) /\
  (forall u product_id back add,
     user_data w !! cb_from_id callback = Some u ->
     get_product_keyboard product_id (ud_category u) = InlineKeyboardMarkup [[back; add]] ->
     cb_data callback = callback_data back ->
     ~ no_underscore (ud_category u) ->
     refused).
Proof.
  intros refused. subst refused. split.
  - apply back_to_list_refused.
  - intros u product_id back add Hu Hk Hdata Hn. injection Hk as <- _.
    cbn [callback_data] in Hdata.
    destruct (callback_category (cb_data callback)) as [category|e] eqn:Hc.
    + apply (back_to_list_refused callback w category Hc). right. exists u.
      split; [exact Hu|]. intros He. apply Hn. apply callback_category_back.
      rewrite <- Hdata, Hc, He. reflexivity.
    + exfalso. unfold callback_category in Hc. rewrite index_last in Hc.
      pose proof (split_on_nonnil "_" (cb_data callback)) as Hne.
      destruct (Py.split_on "_" (cb_data callback)) as [|f fs] eqn:E; [congruence|].
      destruct (last_is_Some (f :: fs)) as [_ Hl].
      destruct Hl as [x Hx]; [discriminate|]. rewrite Hx in Hc. discriminate.
Qed.

(** The buyer opens the transport category and the card of its truck, then
    presses the back button of the card. *)
Lemma back_to_list_guard_example :
  let w1 := (show_category (Demo.says "🚚 Тим транспорт") Scenes.depot).2 in
  let w2 := (show_product (Scenes.taps "product_11") w1).2 in
  exists markup u back add,
    SendPhoto (ChatInt 42) (FileId "photo-E") (product_caption Scenes.hauler) markup
      (Some 1004) ∈ trace w2 /\
    markup = InlineKeyboardMarkup [[back; add]] /\
    user_data w2 !! 42 = Some u /\ ud_category u = "team_transport" /\
    callback_category (callback_data back) = Ok "transport" /\
    trace (back_to_list (Scenes.taps (callback_data back)) w2).2 =
      trace w2 ++ [AnswerCallback (Some "Ошибка навигации") true].
Proof.
  intros w1 w2.
  set (u := mkUserData "team_transport" (products_dict [Scenes.hauler]) [1004]).
  assert (Hu : user_data w2 !! 42 = Some u) by (vm_compute; reflexivity).
  exists (get_product_keyboard 11 "team_transport"), u,
    (mkButton "⬅️ Назад к списку" "back_to_list_team_transport"),
    (mkButton "➕ В корзину" "add_11").
  split.
  { vm_compute. do 4 (apply elem_of_cons; right). apply elem_of_cons. left. reflexivity. }
  split; [reflexivity|]. split; [exact Hu|]. split; [reflexivity|].
  split; [vm_compute; reflexivity|].
  destruct (back_to_list_guard (Scenes.taps "back_to_list_team_transport") w2)
    as [_ Hdead].
  cbn [callback_data].
  rewrite (Hdead u 11 (mkButton "⬅️ Назад к списку" "back_to_list_team_transport")
             (mkButton "➕ В корзину" "add_11") Hu eq_refl eq_refl).
  - vm_compute. reflexivity.
  - intros Hno. apply (Hno "_"%char); [|reflexivity].
    cbn. do 4 right. left. reflexivity.
Defined.

Lemma relist_event_fetch chat_id caption markup (evs : list Event) :
  Forall (fun e => is_fetch e = true) evs ->
  Forall (relist_event chat_id caption markup) evs.
Proof.
  intros Hall. eapply Forall_impl; [exact Hall|].
  intros [] H; cbn in *; try discriminate; exact I.
Qed.

Lemma relist_event_retraction chat_id caption markup (e : Env) (c : nat) (ids : list Z) :
  Forall (relist_event chat_id caption markup) (retraction_events e c chat_id ids).
Proof.
  revert c. induction ids as [|i ids IH]; intros c; cbn [retraction_events].
  - apply List.Forall_nil.
  - apply List.Forall_cons; [reflexivity | apply IH].
Qed.

Lemma back_to_list_body_spec (callback : CallbackQuery) (category_name : string)
    (w : World) (s : Store.t) (u : UserData) :
  session w = Some s ->
  user_data w !! cb_from_id callback = Some u ->
  let user_id := cb_from_id callback in
  let chat_id := msg_chat_id (cb_message callback) in
  let products := Store.products_of_category (ud_category u) s in
  exists r w' evs,
    back_to_list_body callback (ud_category u) category_name w = (r, w') /\
    trace w' = trace w ++ evs /\
    Forall (relist_event chat_id (list_text category_name products)
              (InlineKeyboardMarkup (list_buttons products))) evs /\
    session w' = session w /\ db w' = db w /\ env w' = env w /\ fsm w' = fsm w /\
    (products = [] -> user_data w' = user_data w) /\
    (products <> [] ->
       exists ids, user_data w' =
         <[user_id := mkUserData (ud_category u) (products_dict products) ids]> (user_data w)) /\
    (products = [] ->
       forall m, api_send (env w) (clock w) = Some m ->
       r = Ok true /\
       evs = [SendMessage (ChatInt chat_id) "В этой категории пока нет товаров 😢" NoMarkup
                (Some m)]).
Proof.
  intros Hs Hu user_id chat_id products. unfold back_to_list_body. fold user_id chat_id.
  run. rewrite Hs. run. fold products. clearbody products.
  destruct products as [|p ps] eqn:Eps.
  { run. destruct (api_send (env w) (clock w)) as [m|] eqn:Es; run;
      (eexists _, _, _; split; [reflexivity|]; run;
       split; [reflexivity|]; split; [relist_ok ltac:(apply relist_event_retraction)|];
       repeat (split; [first [reflexivity | assumption]|]);
       split; [congruence|]; intros _ m' [= <-]; split; reflexivity). }
  assert (Hne : products <> []) by congruence.
  rewrite <- Eps. clear Eps p ps.
  set (category := ud_category u) in *.
  assert (Hfin : forall (um : gmap Z UserData) (P : Prop),
             (exists ids, um = <[user_id := mkUserData category (products_dict products) ids]>
                                 (user_data w)) ->
             (products = [] -> um = user_data w) /\
             (products <> [] ->
                exists ids, um = <[user_id := mkUserData category (products_dict products) ids]>
                                   (user_data w)) /\
             (products = [] -> P))
    by (intros um P Hum; split; [congruence | split; [intros _; exact Hum | congruence]]).
  fold user_id in Hu. rewrite Hu. run. fold category.
  set (w1 := {| env := env w; db := db w; session := session w;
                user_data := <[user_id := mkUserData category (products_dict products)
                                            (last_msg_ids u)]> (user_data w);
                image_cache := image_cache w; fsm := fsm w; clock := clock w;
                trace := trace w |}).
  pose proof (gather_get_file_frame (map Product.photo_id products) w1) as Hg.
  destruct (gather_get_file (map Product.photo_id products) w1) as [[files|e] w2];
    cbn [snd] in Hg; destruct Hg as (He2 & Hd2 & Hs2 & Hu2 & Hf2 & evs2 & Ht2 & Hall2).
  2:{ run. eexists _, _, evs2. split; [reflexivity|].
    split; [exact Ht2|]. split; [now apply relist_event_fetch|].
    rewrite Hs2, Hd2, He2, Hf2, Hu2. repeat (split; [first [reflexivity | assumption]|]). apply Hfin. eauto. }
  run.
  pose proof (create_combined_message_spec (map (file_url (env w2)) files) products
                category_name w2) as [Hc Htext].
  destruct (create_combined_message (map (file_url (env w2)) files) products
              category_name w2) as [[combined|e] w3];
    cbn [fst snd] in Hc, Htext;
    destruct Hc as (He3 & Hd3 & Hs3 & Hu3 & Hf3 & evs3 & Ht3 & Hall3).
  2:{ run. eexists _, _, (evs2 ++ evs3). split; [reflexivity|].
    split; [rewrite Ht3, Ht2, app_assoc; reflexivity|].
    split; [apply Forall_app; split; now apply relist_event_fetch|].
    rewrite Hs3, Hs2, Hd3, Hd2, He3, He2, Hf3, Hf2, Hu3, Hu2.
      repeat (split; [first [reflexivity | assumption]|]). apply Hfin. eauto. }
  run.
  assert (Hlook : user_data w3 !! user_id =
                    Some (mkUserData category (products_dict products) (last_msg_ids u))).
  { rewrite Hu3, Hu2. apply lookup_insert_eq. }
  assert (Hfetch : Forall (relist_event chat_id
                             (list_text category_name products)
                             (InlineKeyboardMarkup (list_buttons products))) (evs2 ++ evs3))
    by (apply Forall_app; split; now apply relist_event_fetch).
  assert (Htr : trace w3 = trace w ++ evs2 ++ evs3)
    by (rewrite Ht3, Ht2, app_assoc; reflexivity).
  assert (Hins : forall ids,
             <[user_id := mkUserData category (products_dict products) ids]> (user_data w3) =
             <[user_id := mkUserData category (products_dict products) ids]> (user_data w)).
  { intros ids. rewrite Hu3, Hu2. apply insert_insert_eq. }
  destruct combined as [[[collage_buffer products_text] num_products]|].
  - (* the collage *)
    destruct (Htext _ _ _ eq_refl) as [-> ->]. rewrite category_buttons_enum. run.
    destruct (api_send (env w3) (clock w3)) as [m|] eqn:Es; run.
    + rewrite Hlook. run.
      eexists _, _, (evs2 ++ evs3 ++ [_]). split; [reflexivity|]. run.
      split; [rewrite Htr, <- !app_assoc; reflexivity|].
      split; [rewrite app_assoc; relist_ok ltac:(apply relist_event_retraction)|].
      rewrite Hs3, Hs2, Hd3, Hd2, He3, He2, Hf3, Hf2, Hins.
      repeat (split; [first [reflexivity | assumption]|]). apply Hfin. eauto.
    + eexists _, _, (evs2 ++ evs3 ++ [_]). split; [reflexivity|]. run.
      split; [rewrite Htr, <- !app_assoc; reflexivity|].
      split; [rewrite app_assoc; relist_ok ltac:(apply relist_event_retraction)|].
      rewrite Hs3, Hs2, Hd3, Hd2, He3, He2, Hf3, Hf2, Hu3, Hu2.
      repeat (split; [first [reflexivity | assumption]|]). apply Hfin. eauto.
  - (* no image: the list as text *)
    destruct (api_send (env w3) (clock w3)) as [m|] eqn:Es; run.
    2:{ eexists _, _, (evs2 ++ evs3 ++ [_]). split; [reflexivity|]. run.
        split; [rewrite Htr, <- !app_assoc; reflexivity|].
        split; [rewrite app_assoc; relist_ok ltac:(apply relist_event_retraction)|].
        rewrite Hs3, Hs2, Hd3, Hd2, He3, He2, Hf3, Hf2, Hu3, Hu2.
      repeat (split; [first [reflexivity | assumption]|]). apply Hfin. eauto. }
    unfold show_products_list. run. rewrite Hlook. run. rewrite Hlook. run.
    destruct (last_msg_ids u) as [|i ids] eqn:El.
    + run.
      destruct (api_send (env w3) (S (clock w3))) as [m'|] eqn:Es'; run.
      * rewrite Hlook. run.
        eexists _, _, (evs2 ++ evs3 ++ [_; _]). split; [reflexivity|]. run.
        split; [rewrite Htr, <- !app_assoc; reflexivity|].
        split; [rewrite app_assoc; relist_ok ltac:(apply relist_event_retraction)|].
        rewrite Hs3, Hs2, Hd3, Hd2, He3, He2, Hf3, Hf2, Hins.
        repeat (split; [first [reflexivity | assumption]|]). apply Hfin. eauto.
      * destruct (api_send (env w3) (S (S (clock w3)))) as [m''|] eqn:Es''; run;
          (eexists _, _, (evs2 ++ evs3 ++ [_; _; _]); split; [reflexivity|]; run;
           split; [rewrite Htr, <- !app_assoc; reflexivity|];
           split; [rewrite app_assoc; relist_ok ltac:(apply relist_event_retraction)|];
           rewrite Hs3, Hs2, Hd3, Hd2, He3, He2, Hf3, Hf2, Hu3, Hu2;
           repeat (split; [first [reflexivity | assumption]|]); apply Hfin; eauto).
    + rewrite delete_previous_messages_run. run.
      set (c := (S (clock w3) + length (i :: ids))%nat).
      destruct (api_send (env w3) c) as [m'|] eqn:Es'; run.
      * rewrite Hlook. run.
        eexists _, _, (evs2 ++ evs3 ++ [_] ++ retraction_events _ _ chat_id (i :: ids) ++ [_]).
        split; [reflexivity|]. run.
        split; [rewrite Htr, <- !app_assoc; reflexivity|].
        split; [rewrite app_assoc; relist_ok ltac:(apply relist_event_retraction)|].
        rewrite Hs3, Hs2, Hd3, Hd2, He3, He2, Hf3, Hf2, Hins.
        repeat (split; [first [reflexivity | assumption]|]). apply Hfin. eauto.
      * destruct (api_send (env w3) (S c)) as [m''|] eqn:Es''; run;
          (eexists _, _, (evs2 ++ evs3 ++ [_] ++ retraction_events _ _ chat_id (i :: ids) ++ [_; _]);
           split; [reflexivity|]; run;
           split; [rewrite Htr, <- !app_assoc; reflexivity|];
           split; [rewrite app_assoc; relist_ok ltac:(apply relist_event_retraction)|];
           rewrite Hs3, Hs2, Hd3, Hd2, He3, He2, Hf3, Hf2, Hu3, Hu2;
           repeat (split; [first [reflexivity | assumption]|]); apply Hfin; eauto).
Qed.

Lemma back_to_list_render_spec (callback : CallbackQuery) (w : World) (u : UserData) :
  user_data w !! cb_from_id callback = Some u ->
  let user_id := cb_from_id callback in
  let chat_id := msg_chat_id (cb_message callback) in
  let category := ud_category u in
  let products := Store.products_of_category category (db w) in
  exists r w' evs,
    back_to_list_render callback category (category_label category) w = (r, w') /\
    trace w' = trace w ++ evs /\
    Forall (relist_event chat_id (list_text (category_label category) products)
              (InlineKeyboardMarkup (list_buttons products))) evs /\
    db w' = db w /\ fsm w' = fsm w /\
    (products <> [] ->
       exists ids, user_data w' =
         <[user_id := mkUserData category (products_dict products) ids]> (user_data w)) /\
    (products = [] ->
       user_data w' = user_data w /\
       forall m,
         api_send (env w) (clock w) = Some m ->
         r = Ok tt /\
         evs = [SendMessage (ChatInt chat_id) "В этой категории пока нет товаров 😢" NoMarkup
                  (Some m)]).
Proof.
  intros Hu user_id chat_id category products.
  unfold back_to_list_render. run.
  set (w0 := {| env := env w; db := db w; session := Some (db w);
                user_data := user_data w; image_cache := image_cache w; fsm := fsm w;
                clock := clock w; trace := trace w |}).
  destruct (back_to_list_body_spec callback (category_label category) w0 (db w) u
              eq_refl Hu)
    as (r & w1 & evs & Hrun & Ht & Hall & Hs & Hd & He & Hf & Hu0 & Hu1 & Hempty).
  fold user_id chat_id category products in Hrun, Hall, Hu0, Hu1, Hempty.
  rewrite Hrun. cbn [session db env fsm trace user_data clock w0] in *.
  destruct r as [[|]|e]; run; rewrite ?Hs; run.
  - (* left by a return *)
    eexists _, _, evs. split; [reflexivity|]. run. split; [exact Ht|].
    split; [exact Hall|]. split; [exact Hd|]. split; [exact Hf|]. split; [exact Hu1|].
    intros Hp. split; [exact (Hu0 Hp)|]. intros m Hm.
    destruct (Hempty Hp m Hm) as [_ ->]. split; reflexivity.
  - (* left by its end: the callback is answered *)
    destruct (api_ok (env w1) (clock w1)); run;
      (eexists _, _, (evs ++ [AnswerCallback None _]); split; [reflexivity|]; run;
       split; [rewrite Ht, <- !app_assoc; reflexivity|];
       split; [relist_ok ltac:(apply relist_event_retraction)|]; split; [exact Hd|]; split; [exact Hf|]; split; [exact Hu1|];
       intros Hp; split; [exact (Hu0 Hp)|]; intros m Hm;
       destruct (Hempty Hp m Hm) as [[=] _]).
  - (* an exception: the apology, then the answer *)
    destruct (api_send (env w1) (clock w1)) as [m1|]; run; rewrite ?Hs; run.
    + destruct (api_ok (env w1) (S (clock w1))); run;
        (eexists _, _, (evs ++ [SendMessage _ _ _ _; AnswerCallback None _]);
         split; [reflexivity|]; run;
         split; [rewrite Ht, <- !app_assoc; reflexivity|];
         split; [relist_ok ltac:(apply relist_event_retraction)|]; split; [exact Hd|]; split; [exact Hf|]; split; [exact Hu1|];
         intros Hp; split; [exact (Hu0 Hp)|]; intros m Hm;
         destruct (Hempty Hp m Hm) as [[=] _]).
    + eexists _, _, (evs ++ [SendMessage _ _ _ _]);
         split; [reflexivity|]; run;
         split; [rewrite Ht, <- !app_assoc; reflexivity|];
         split; [relist_ok ltac:(apply relist_event_retraction)|]; split; [exact Hd|]; split; [exact Hf|]; split; [exact Hu1|];
         intros Hp; split; [exact (Hu0 Hp)|]; intros m Hm;
         destruct (Hempty Hp m Hm) as [[=] _].
Qed.

(** X9: [back_to_list] past its guard. It first retracts the messages the
    session records, then renders the category again from the catalog as
    it is now, not from the products the session held: every collage it
    sends carries the caption and the numbered buttons of the products the
    category has in the database, and the session then maps these
    products; the database and the conversations are unchanged. When the
    category has become empty, it sends the notice and returns without
    answering the callback, and the session still records the retracted
    messages. *)
Theorem back_to_list_retracts_and_rereads (callback : CallbackQuery) (w : World)
    (u : UserData) :
  callback_category (cb_data callback) = Ok (ud_category u) ->
  user_data w !! cb_from_id callback = Some u ->
  let user_id := cb_from_id callback in
  let chat_id := msg_chat_id (cb_message callback) in
  let category := ud_category u in
  let products := Store.products_of_category category (db w) in
  let w' := (back_to_list callback w).2 in
  exists evs,
    trace w' =
      trace w ++ retraction_events (env w) (clock w) chat_id (last_msg_ids u) ++ evs /\
    Forall (relist_event chat_id (list_text (category_label category) products)
              (InlineKeyboardMarkup (list_buttons products))) evs /\
    db w' = db w /\ fsm w' = fsm w /\
    (products <> [] ->
       exists ids, user_data w' =
         <[user_id := mkUserData category (products_dict products) ids]> (user_data w)) /\
    (products = [] ->
       user_data w' = user_data w /\
       forall m,
         api_send (env w) (clock w + length (last_msg_ids u)) = Some m ->
         (back_to_list callback w).1 = Ok tt /\
         evs = [SendMessage (ChatInt chat_id) "В этой категории пока нет товаров 😢" NoMarkup
                  (Some m)]).
Proof.
  intros Hc Hu user_id chat_id category products w'. subst w'.
  unfold back_to_list. rewrite Hc. run. rewrite Hu. fold user_id chat_id category.
  rewrite String.eqb_refl. cbn [negb].
  destruct (last_msg_ids u) as [|i ids] eqn:El.
  - run. cbn [retraction_events length app]. rewrite Nat.add_0_r.
    destruct (back_to_list_render_spec callback w u Hu)
      as (r & w1 & evs & Hrun & Ht & Hall & Hd & Hf & Hu1 & Hu0).
    fold user_id chat_id category in Hrun, Hall, Hu1, Hu0. fold products in Hall, Hu1, Hu0.
    rewrite Hrun. cbn [fst snd]. exists evs. auto 10.
  - rewrite delete_previous_messages_run. run.
    set (w0 := {| env := env w; db := db w; session := session w;
                  user_data := user_data w; image_cache := image_cache w; fsm := fsm w;
                  clock := (clock w + length (i :: ids))%nat;
                  trace := trace w ++ retraction_events (env w) (clock w) chat_id (i :: ids) |}).
    destruct (back_to_list_render_spec callback w0 u Hu)
      as (r & w1 & evs & Hrun & Ht & Hall & Hd & Hf & Hu1 & Hu0).
    fold user_id chat_id category in Hrun, Hall, Hu1, Hu0.
    cbn [session db env fsm trace user_data clock w0] in *. fold products in Hall, Hu1, Hu0.
    rewrite Hrun. cbn [fst snd]. exists evs. rewrite Ht, <- app_assoc. auto 10.
Qed.

(** The buyer looks at the first main model, the operator deletes it, the
    buyer goes back to the list: the card is retracted and the collage
    lists the one product left. *)
Lemma back_to_list_example :
  let w1 := (show_category (Demo.says "🏎 Мейн модели") Demo.world).2 in
  let w2 := (show_product (Scenes.taps "product_5") w1).2 in
  let w3 := set_db (Store.delete_product Demo.bone_shaker) w2 in
  let w4 := (back_to_list (Scenes.taps "back_to_list_main") w3).2 in
  let u := mkUserData "main" (products_dict [Demo.bone_shaker; Demo.twin_mill]) [1006] in
  let caption := list_text "🏎 Мейн модели" [Demo.twin_mill] in
  let markup := InlineKeyboardMarkup (list_buttons [Demo.twin_mill]) in
  callback_category "back_to_list_main" = Ok "main" /\
  user_data w3 !! 42 = Some u /\
  exists evs,
    trace w4 = trace w3 ++ [DeleteMessage 42 1006 true] ++ evs /\
    Forall (relist_event 42 caption markup) evs /\
    evs = [GetFile "photo-B" (Some "photos/photo-B");
           SendPhoto (ChatInt 42) (BufferedInputFile "JPEG" "collage.jpg") caption markup
             (Some 1010);
           AnswerCallback None true] /\
    (user_data w4 !! 42) ≫= (fun u => Some (map fst (ud_products u))) = Some [7].
Proof.
  intros w1 w2 w3 w4 u caption markup.
  assert (Hc : callback_category "back_to_list_main" = Ok "main") by (vm_compute; reflexivity).
  assert (Hu : user_data w3 !! 42 = Some u) by (vm_compute; reflexivity).
  split; [exact Hc|]. split; [exact Hu|].
  destruct (back_to_list_retracts_and_rereads (Scenes.taps "back_to_list_main") w3 u Hc Hu)
    as (evs & Htr & Hall & _ & _ & Hud & _).
  fold w4 in Htr, Hud. exists evs. split; [exact Htr|]. split; [exact Hall|]. split.
  - assert (Hw4 : trace w4 =
                    trace w3 ++ [DeleteMessage 42 1006 true] ++
                    [GetFile "photo-B" (Some "photos/photo-B");
                     SendPhoto (ChatInt 42) (BufferedInputFile "JPEG" "collage.jpg") caption
                       markup (Some 1010);
                     AnswerCallback None true])
      by (vm_compute; reflexivity).
    rewrite Hw4 in Htr. apply app_inv_head in Htr. apply app_inv_head in Htr.
    symmetry. exact Htr.
  - destruct Hud as [ids Hud]; [vm_compute; discriminate|].
    rewrite Hud. cbn [cb_from_id Scenes.taps]. rewrite lookup_insert_eq. reflexivity.
Defined.

(* ===================================================================== *)
(** * Cart: properties *)
(* ===================================================================== *)

Lemma cart_of_user_product_Some (u p : Z) (s : Store.t) (c : Cart.t) :
  cart_of_user_product u p s = Some c ->
  c ∈ Store.carts s /\ Cart.user_id c = u /\ Cart.product_id c = p.
Proof.
  unfold cart_of_user_product. intros H. apply head_Some in H as [l Hl].
  assert (Hin : c ∈ filter (λ c : Cart.t, Cart.user_id c = u ∧ Cart.product_id c = p)
                      (Store.carts s)) by (rewrite Hl; left).
  apply list_elem_of_filter in Hin. tauto.
Qed.

Lemma cart_of_user_product_None (u p : Z) (s : Store.t) :
  cart_of_user_product u p s = None <-> (u, p) ∉ cart_key <$> Store.carts s.
Proof.
  unfold cart_of_user_product. rewrite head_None. split.
  - intros H Hin. apply list_elem_of_fmap in Hin as (c & Hk & Hc).
    assert (Hf : c ∈ filter (λ c : Cart.t, Cart.user_id c = u ∧ Cart.product_id c = p)
                       (Store.carts s)).
    { apply list_elem_of_filter. unfold cart_key in Hk. injection Hk as -> ->. auto. }
    rewrite H in Hf. inversion Hf.
  - intros H. induction (Store.carts s) as [|c l IH]; [reflexivity|].
    rewrite fmap_cons in H. apply not_elem_of_cons in H as [Hc Hl].
    rewrite filter_cons. destruct (decide _) as [[<- <-]|_]; [|exact (IH Hl)].
    exfalso. apply Hc. reflexivity.
Qed.

Lemma cart_of_user_product_added (u p : Z) (s : Store.t) :
  is_Some (cart_of_user_product u p (add_cart u p s)).
Proof.
  destruct (cart_of_user_product u p (add_cart u p s)) as [c|] eqn:E; [eauto|].
  exfalso. apply cart_of_user_product_None in E. apply E.
  unfold add_cart. cbn. rewrite fmap_app. apply elem_of_app. right. left.
Qed.

(** X10: a product is in a cart at most once. After [add_to_cart], whatever
    the answers to the callback, the cart of the user holds the product; if
    no row of the table repeated a (user, product) pair before, none does
    after; the catalog and the carts of the other users are unchanged. When
    the product was already in the cart the database is unchanged and the
    callback is answered "Этот товар уже в корзине"; otherwise exactly one
    row is added and committed before the callback is answered. *)
Theorem add_to_cart_once (callback : CallbackQuery) (w : World) (product_id : Z) :
  callback_product_id (cb_data callback) = Ok product_id ->
  let user_id := cb_from_id callback in
  let w' := (add_to_cart callback w).2 in
  is_Some (cart_of_user_product user_id product_id (db w')) /\
  (NoDup (cart_key <$> Store.carts (db w)) -> NoDup (cart_key <$> Store.carts (db w'))) /\
  Store.products (db w') = Store.products (db w) /\
  (forall v, v <> user_id -> Store.carts_of_user v (db w') = Store.carts_of_user v (db w)) /\
  (is_Some (cart_of_user_product user_id product_id (db w)) ->
     db w' = db w /\
     exists rest,
       trace w' = trace w ++
         AnswerCallback (Some "Этот товар уже в корзине") (api_ok (env w) (clock w)) :: rest) /\
  (cart_of_user_product user_id product_id (db w) = None ->
     db w' = add_cart user_id product_id (db w) /\
     exists rest,
       trace w' = trace w ++
         Commit ::
         AnswerCallback (Some "Товар добавлен в корзину! 🛒") (api_ok (env w) (clock w))
         :: rest).
Proof.
  intros Hid user_id w'.
  assert (Hrun :
    match cart_of_user_product user_id product_id (db w) with
    | Some _ =>
        db w' = db w /\
        exists rest,
          trace w' = trace w ++
            AnswerCallback (Some "Этот товар уже в корзине") (api_ok (env w) (clock w)) :: rest
    | None =>
        db w' = add_cart user_id product_id (db w) /\
        exists rest,
          trace w' = trace w ++
            Commit ::
            AnswerCallback (Some "Товар добавлен в корзину! 🛒") (api_ok (env w) (clock w))
            :: rest
    end).
  { subst w'. unfold add_to_cart. rewrite Hid. run. fold user_id.
    destruct (cart_of_user_product user_id product_id (db w)) as [c|]; run.
    - destruct (api_ok (env w) (clock w)); run;
        [|destruct (api_ok (env w) (S (clock w))); run];
        (split; [reflexivity|]; eexists; rewrite <- ?app_assoc; reflexivity).
    - destruct (api_ok (env w) (clock w)); run;
        [|destruct (api_ok (env w) (S (clock w))); run];
        (split; [reflexivity|]; eexists; rewrite <- ?app_assoc; reflexivity). }
  destruct (cart_of_user_product user_id product_id (db w)) as [c|] eqn:Ec.
  - destruct Hrun as [Hdb Htr]. rewrite Hdb, Ec.
    split; [eauto|]. split; [auto|]. split; [reflexivity|]. split; [reflexivity|].
    split; [auto | intros [=]].
  - destruct Hrun as [Hdb Htr]. rewrite Hdb.
    split; [apply cart_of_user_product_added|]. split.
    { intros Hnd. unfold add_cart. cbn. rewrite fmap_app. apply NoDup_app.
      split; [exact Hnd|]. split; [|apply NoDup_singleton].
      intros k Hk Hk'. apply list_elem_of_singleton in Hk'. subst k.
      apply cart_of_user_product_None in Ec. apply Ec. exact Hk. }
    split; [reflexivity|]. split.
    { intros v Hv. unfold Store.carts_of_user, add_cart. cbn.
      rewrite filter_app, filter_cons_False, filter_nil, app_nil_r; [reflexivity|].
      cbn. congruence. }
    split; [intros [? [=]] | auto].
Qed.

(** The buyer adds the premium model, then presses the button again. *)
Lemma add_to_cart_example :
  let w1 := (add_to_cart (Scenes.taps "add_9") Demo.world).2 in
  let w2 := (add_to_cart (Scenes.taps "add_9") w1).2 in
  callback_product_id "add_9" = Ok 9 /\
  cart_of_user_product 42 9 (db Demo.world) = None /\
  Store.carts (db w1) = Store.carts Demo.shop ++ [Cart.mk 4 42 9] /\
  trace w1 = [Commit; AnswerCallback (Some "Товар добавлен в корзину! 🛒") true] /\
  db w2 = db w1 /\
  trace w2 = trace w1 ++ [AnswerCallback (Some "Этот товар уже в корзине") true].
Proof.
  intros w1 w2.
  assert (Hid : callback_product_id (cb_data (Scenes.taps "add_9")) = Ok 9)
    by (vm_compute; reflexivity).
  split; [exact Hid|]. split; [vm_compute; reflexivity|].
  destruct (add_to_cart_once (Scenes.taps "add_9") Demo.world 9 Hid)
    as (Hin & _ & _ & _ & _ & Hnew).
  destruct (add_to_cart_once (Scenes.taps "add_9") w1 9 Hid)
    as (_ & _ & _ & _ & Hold & _).
  destruct (Hnew ltac:(vm_compute; reflexivity)) as [Hdb _].
  destruct (Hold Hin) as [Hsame _].
  fold w1 in Hdb. fold w2 in Hsame.
  split; [rewrite Hdb; reflexivity|]. split; [vm_compute; reflexivity|].
  split; [exact Hsame|]. vm_compute. reflexivity.
Defined.

Lemma cart_lines_run (s : Store.t) (w : World) (cart_items : list Cart.t) :
  session w = Some s ->
  forall cart_text total,
    cart_lines cart_items (cart_text, total) w =
      match cart_products s cart_items with
      | Some products =>
          (Ok (cart_text +:+ cart_items_text cart_items products,
               total + sum_prices products), w)
      | None => (Raise AttributeError, w)
      end.
Proof.
  intros Hs. induction cart_items as [|item items IH]; intros a t.
  - cbn. rewrite append_empty_r, Z.add_0_r. reflexivity.
  - cbn [cart_lines]. run. rewrite Hs. run.
    unfold cart_products. cbn [mapM]. fold (cart_products s items).
    destruct (Store.product_by_id (Cart.product_id item) s) as [product|]; cbn; [|reflexivity].
    run. rewrite IH. destruct (cart_products s items) as [products|]; cbn; [|reflexivity].
    unfold sum_prices. cbn. fold (sum_prices products).
    unfold cart_items_text. cbn [zip_with foldr]. fold (cart_items_text items products).
    rewrite !append_assoc, Z.add_assoc. reflexivity.
Qed.

(** The text of the cart, spelled out. *)
Lemma cart_text_spelled (cart_items : list Cart.t) (products : list Product.t) :
  cart_header +:+ cart_items_text cart_items products +:+ cart_footer (sum_prices products) =
  "<b>🛒 Ваша корзина:</b>" +:+ Py.nl +:+ Py.nl +:+
  foldr String.append ""
    ((fun '(item, p) =>
        "• " +:+ Product.name p +:+ " - " +:+ Py.str (Product.price p) +:+
        " руб. [<a href='tg://btn/" +:+ Py.str (Cart.id item) +:+ "'>❌</a>]" +:+ Py.nl)
       <$> zip cart_items products) +:+
  Py.nl +:+ "💸 Итого к оплате: <b>" +:+ Py.str (sum_prices products) +:+ " руб.</b>".
Proof.
  unfold cart_header, cart_footer, cart_items_text. rewrite !append_assoc.
  do 3 f_equal. f_equal.
  induction (zip cart_items products) as [|[item p] l IH]; [reflexivity|].
  cbn [foldr fmap list_fmap]. f_equal. exact IH.
Qed.

(** X11: what [show_cart] shows, the database staying as it is. For an
    empty cart it sends "Ваша корзина пуста 🛒" with the main keyboard and
    leaves the sessions as they are. For a cart whose rows all have their
    product, it sends one message: "🛒 Ваша корзина:", a line
    "• name - price руб." with the removal link of the row for each row, in
    the order of the table, and the sum of the prices after
    "💸 Итого к оплате:", under the buttons that clear the cart and start
    the checkout; when the message is accepted it is recorded as the only
    active message of the session of the user, if there is one, without any
    retraction of what was recorded before. *)
Theorem show_cart_lists_rows_and_total (message : Message) (w : World) :
  let user_id := msg_from_id message in
  let chat := ChatInt (msg_chat_id message) in
  let cart_items := Store.carts_of_user user_id (db w) in
  let w' := (show_cart message w).2 in
  (cart_items = [] ->
     db w' = db w /\ user_data w' = user_data w /\
     exists rest,
       trace w' = trace w ++
         SendMessage chat "Ваша корзина пуста 🛒" MainKeyboard (api_send (env w) (clock w))
         :: rest /\
       Forall (fun e => is_send e = true) rest) /\
  (forall products,
     cart_items <> [] ->
     cart_products (db w) cart_items = Some products ->
     db w' = db w /\
     exists rest,
       trace w' = trace w ++
         SendMessage chat
           ("<b>🛒 Ваша корзина:</b>" +:+ Py.nl +:+ Py.nl +:+
            foldr String.append ""
              ((fun '(item, p) =>
                  "• " +:+ Product.name p +:+ " - " +:+ Py.str (Product.price p) +:+
                  " руб. [<a href='tg://btn/" +:+ Py.str (Cart.id item) +:+ "'>❌</a>]" +:+
                  Py.nl)
                 <$> zip cart_items products) +:+
            Py.nl +:+ "💸 Итого к оплате: <b>" +:+ Py.str (sum_prices products) +:+
            " руб.</b>")
           (InlineKeyboardMarkup
              [[mkButton "❌ Очистить корзину" "clear_cart";
                mkButton "💳 Оформить заказ" "checkout"]])
           (api_send (env w) (clock w))
         :: rest /\
       Forall (fun e => is_send e = true) rest /\
       forall m,
         api_send (env w) (clock w) = Some m ->
         rest = [] /\ (show_cart message w).1 = Ok tt /\
         user_data w' =
           match user_data w !! user_id with
           | Some u => <[user_id := mkUserData (ud_category u) (ud_products u) [m]]>
                         (user_data w)
           | None => user_data w
           end).
Proof.
  intros user_id chat cart_items w'. split.
  - intros Hempty. subst w'. unfold show_cart. run. fold user_id cart_items.
    rewrite Hempty. run.
    destruct (api_send (env w) (clock w)) as [m|]; run.
    + split; [reflexivity|]. split; [reflexivity|]. exists []. split; [reflexivity|constructor].
    + destruct (api_send (env w) (S (clock w))); run;
        (split; [reflexivity|]; split; [reflexivity|]; eexists;
         split; [rewrite <- app_assoc; reflexivity | events_ok]).
  - intros products Hne Hprod. subst w'.
    rewrite <- (cart_text_spelled cart_items products).
    unfold show_cart. run. fold user_id cart_items.
    destruct cart_items as [|item items] eqn:Ec; [congruence|].
    rewrite (cart_lines_run (db w)) by reflexivity.
    rewrite Hprod. run. rewrite Z.add_0_l, append_assoc.
    destruct (api_send (env w) (clock w)) as [m|] eqn:Es; run.
    + destruct (user_data w !! user_id) as [u|] eqn:Eu; run; rewrite ?Eu; run;
        (split; [reflexivity|]; exists []; split; [reflexivity|]; split; [constructor|];
         intros m' [= <-]; repeat split; reflexivity).
    + destruct (api_send (env w) (S (clock w))); run;
        (split; [reflexivity|]; eexists;
         split; [rewrite <- app_assoc; reflexivity|]; split; [events_ok|];
         intros m' [=]).
Qed.

(** The cart of the buyer: two models, 350 in all. *)
Lemma show_cart_example :
  let w' := (show_cart (Demo.says "🛒 Корзина") Demo.world).2 in
  cart_products Demo.shop [Cart.mk 1 42 5; Cart.mk 2 42 7] =
    Some [Demo.bone_shaker; Demo.twin_mill] /\
  sum_prices [Demo.bone_shaker; Demo.twin_mill] = 350 /\
  trace w' =
    [SendMessage (ChatInt 42)
       ("<b>🛒 Ваша корзина:</b>" +:+ Py.nl +:+ Py.nl +:+
        "• Bone Shaker - 100 руб. [<a href='tg://btn/1'>❌</a>]" +:+ Py.nl +:+
        "• Twin Mill - 250 руб. [<a href='tg://btn/2'>❌</a>]" +:+ Py.nl +:+
        Py.nl +:+ "💸 Итого к оплате: <b>350 руб.</b>")
       (InlineKeyboardMarkup
          [[mkButton "❌ Очистить корзину" "clear_cart";
            mkButton "💳 Оформить заказ" "checkout"]])
       (Some 1000)] /\
  db w' = Demo.shop.
Proof.
  intros w'.
  assert (Hp : cart_products (db Demo.world)
                 (Store.carts_of_user (msg_from_id (Demo.says "🛒 Корзина")) (db Demo.world)) =
               Some [Demo.bone_shaker; Demo.twin_mill]) by (vm_compute; reflexivity).
  split; [exact Hp|]. split; [reflexivity|].
  destruct (show_cart_lists_rows_and_total (Demo.says "🛒 Корзина") Demo.world) as [_ Hrows].
  destruct (Hrows [Demo.bone_shaker; Demo.twin_mill] ltac:(vm_compute; discriminate) Hp)
    as (Hdb & rest & Htr & _ & Hok).
  destruct (Hok 1000 eq_refl) as (-> & _ & _).
  fold w' in Htr, Hdb. split; [rewrite Htr; vm_compute; reflexivity | exact Hdb].
Defined.

(** X12: a cart row whose product has left the catalog blocks the cart.
    When one row of the cart of the user has no product in the database,
    [show_cart] only sends "Произошла ошибка при загрузке корзины 😢", and
    [process_payment_info] only sends "Произошла ошибка при оформлении
    заказа 😢" and leaves the conversation idle; neither changes the
    database, so the cart keeps all its rows and the next attempt ends the
    same way. *)
Theorem dangling_cart_row_blocks_cart (message : Message) (w : World) :
  let user_id := msg_from_id message in
  let chat := ChatInt (msg_chat_id message) in
  let cart_items := Store.carts_of_user user_id (db w) in
  cart_products (db w) cart_items = None ->
  (let w' := (show_cart message w).2 in
   db w' = db w /\ user_data w' = user_data w /\
   trace w' = trace w ++
     [SendMessage chat "Произошла ошибка при загрузке корзины 😢" NoMarkup
        (api_send (env w) (clock w))]) /\
  (let w' := (process_payment_info message w).2 in
   db w' = db w /\
   fsm_ctx (fsm_key message) w' = fsm_idle /\
   trace w' = trace w ++
     [SendMessage chat "Произошла ошибка при оформлении заказа 😢" NoMarkup
        (api_send (env w) (clock w))]).
Proof.
  intros user_id chat cart_items Hprod.
  assert (Hne : cart_items <> []) by (intros E; rewrite E in Hprod; discriminate).
  split.
  - unfold show_cart. run. fold user_id cart_items.
    destruct cart_items as [|item items] eqn:Ec; [congruence|].
    rewrite (cart_lines_run (db w)) by reflexivity. rewrite Hprod. run.
    destruct (api_send (env w) (clock w)); run; repeat split; reflexivity.
  - unfold process_payment_info, process_payment_info_body. run. fold user_id cart_items.
    destruct cart_items as [|item items] eqn:Ec; [congruence|].
    rewrite (order_lines_run (db w)) by reflexivity. rewrite Hprod. run.
    destruct (api_send (env w) (clock w)); run;
      (split; [reflexivity|]; split;
       [unfold fsm_ctx; cbn [fsm]; now rewrite lookup_insert_eq | reflexivity]).
Qed.

(** The operator deletes the first main model while it is in the cart of
    the buyer. *)
Lemma dangling_cart_row_example :
  let w1 := (process_delete_id (Scenes.operator_says "5") Scenes.purging).2 in
  let message := Demo.says "🛒 Корзина" in
  Store.carts_of_user 42 (db w1) = [Cart.mk 1 42 5; Cart.mk 2 42 7] /\
  cart_products (db w1) (Store.carts_of_user 42 (db w1)) = None /\
  trace (show_cart message w1).2 =
    trace w1 ++
    [SendMessage (ChatInt 42) "Произошла ошибка при загрузке корзины 😢" NoMarkup (Some 1001)] /\
  Store.carts_of_user 42 (db (process_payment_info message w1).2) =
    [Cart.mk 1 42 5; Cart.mk 2 42 7].
Proof.
  intros w1 message.
  assert (Hnone : cart_products (db w1) (Store.carts_of_user (msg_from_id message) (db w1)) = None)
    by (vm_compute; reflexivity).
  split; [vm_compute; reflexivity|]. split; [exact Hnone|].
  destruct (dangling_cart_row_blocks_cart message w1 Hnone)
    as [(_ & _ & Hshow) (Hdb & _ & _)].
  split; [rewrite Hshow; vm_compute; reflexivity|].
  rewrite Hdb. vm_compute. reflexivity.
Defined.

Lemma carts_of_other_user_kept (u v : Z) (s : Store.t) :
  v <> u ->
  Store.carts_of_user v (Store.delete_carts_of_user u s) = Store.carts_of_user v s.
Proof.
  intros Hne. unfold Store.carts_of_user, Store.delete_carts_of_user. cbn.
  rewrite list_filter_filter. apply list_filter_iff. intros c. split; [tauto|].
  intros Hc. split; [exact Hc | congruence].
Qed.

(** X13: [clear_cart] empties the cart of the user who pressed the button
    and nothing else. Whatever the answers of the transport, afterwards the
    user has no cart row in the database, the rows of every other user and
    the catalog are as before, and the deletion is committed, once, before
    the callback is answered. *)
Theorem clear_cart_only_own_rows (callback : CallbackQuery) (w : World) :
  let user_id := cb_from_id callback in
  let w' := (clear_cart callback w).2 in
  db w' = Store.delete_carts_of_user user_id (db w) /\
  Store.carts_of_user user_id (db w') = [] /\
  (forall v, v <> user_id -> Store.carts_of_user v (db w') = Store.carts_of_user v (db w)) /\
  Store.products (db w') = Store.products (db w) /\
  exists rest,
    trace w' = trace w ++
      Commit :: AnswerCallback (Some "Корзина очищена!") (api_ok (env w) (clock w)) :: rest /\
    Commit ∉ rest.
Proof.
  intros user_id w'.
  assert (Hrun : db w' = Store.delete_carts_of_user user_id (db w) /\
                 exists rest,
                   trace w' = trace w ++
                     Commit :: AnswerCallback (Some "Корзина очищена!")
                                 (api_ok (env w) (clock w)) :: rest /\
                   Commit ∉ rest).
  { subst w'. unfold clear_cart. run. fold user_id.
    destruct (api_ok (env w) (clock w)); run.
    - destruct (api_send (env w) (S (clock w))); run;
        [|destruct (api_ok (env w) (S (S (clock w)))); run];
        (split; [reflexivity|]; eexists; split; [rewrite <- ?app_assoc; reflexivity|];
         cbn [app]; intros H;
         repeat (apply elem_of_cons in H as [H|H]; [discriminate|]); inversion H).
    - destruct (api_ok (env w) (S (clock w))); run;
        (split; [reflexivity|]; eexists; split; [rewrite <- ?app_assoc; reflexivity|];
         cbn [app]; intros H;
         repeat (apply elem_of_cons in H as [H|H]; [discriminate|]); inversion H). }
  destruct Hrun as [Hdb Htr]. rewrite Hdb.
  split; [reflexivity|]. split; [apply carts_of_user_cleared|].
  split; [intros v Hv; now apply carts_of_other_user_kept|]. split; [reflexivity | exact Htr].
Qed.

Lemma cart_by_id_of_user_Some (i u : Z) (s : Store.t) (c : Cart.t) :
  cart_by_id_of_user i u s = Some c ->
  c ∈ Store.carts s /\ Cart.id c = i /\ Cart.user_id c = u.
Proof.
  unfold cart_by_id_of_user. intros H. apply head_Some in H as [l Hl].
  assert (Hin : c ∈ filter (λ c : Cart.t, Cart.id c = i ∧ Cart.user_id c = u)
                      (Store.carts s)) by (rewrite Hl; left).
  apply list_elem_of_filter in Hin. tauto.
Qed.

Lemma show_cart_frame (message : Message) (w : World) :
  let w' := (show_cart message w).2 in
  db w' = db w /\ fsm w' = fsm w /\ env w' = env w /\
  exists evs, trace w' = trace w ++ evs /\ Forall (fun e => is_send e = true) evs.
Proof.
  unfold show_cart. run.
  destruct (Store.carts_of_user (msg_from_id message) (db w)) as [|item items] eqn:Ec; run.
  - destruct (api_send (env w) (clock w)) as [m|]; run;
      [|destruct (api_send (env w) (S (clock w))); run];
      (repeat (split; [reflexivity|]); eexists;
       split; [rewrite <- ?app_assoc; reflexivity | events_ok]).
  - rewrite (cart_lines_run (db w)) by reflexivity.
    destruct (cart_products (db w) (item :: items)) as [products|]; run.
    + destruct (api_send (env w) (clock w)) as [m|]; run.
      * destruct (user_data w !! msg_from_id message) as [u|] eqn:Eu; run; rewrite ?Eu; run;
          (repeat (split; [reflexivity|]); eexists;
           split; [rewrite <- ?app_assoc; reflexivity | events_ok]).
      * destruct (api_send (env w) (S (clock w))); run;
          (repeat (split; [reflexivity|]); eexists;
           split; [rewrite <- ?app_assoc; reflexivity | events_ok]).
    + destruct (api_send (env w) (clock w)); run;
        (repeat (split; [reflexivity|]); eexists;
         split; [rewrite <- ?app_assoc; reflexivity | events_ok]).
Qed.

Lemma delete_cart_keeps (c d : Cart.t) (s : Store.t) :
  d ∈ Store.carts s -> Cart.id d <> Cart.id c -> d ∈ Store.carts (delete_cart c s).
Proof.
  intros Hd Hne. unfold delete_cart. cbn. apply list_elem_of_filter. auto.
Qed.

Lemma remove_from_cart_db (callback : CallbackQuery) (w : World) (cart_id : Z) :
  callback_product_id (cb_data callback) = Ok cart_id ->
  let user_id := cb_from_id callback in
  let w' := (remove_from_cart callback w).2 in
  match cart_by_id_of_user cart_id user_id (db w) with
  | None =>
      db w' = db w /\
      exists rest,
        trace w' = trace w ++
          AnswerCallback (Some "Товар не найден в корзине") (api_ok (env w) (clock w)) :: rest
  | Some c =>
      match Store.product_by_id (Cart.product_id c) (db w) with
      | None =>
          db w' = db w /\
          trace w' = trace w ++
            [AnswerCallback (Some "Ошибка при удалении 😢") (api_ok (env w) (clock w))]
      | Some product =>
          db w' = delete_cart c (db w) /\
          exists rest,
            trace w' = trace w ++
              Commit ::
              AnswerCallback
                (Some ("Товар " +:+ Product.name product +:+ " удален из корзины"))
                (api_ok (env w) (clock w)) :: rest
      end
  end.
Proof.
  intros Hid user_id w'. subst w'. unfold remove_from_cart. rewrite Hid. run. fold user_id.
  destruct (cart_by_id_of_user cart_id user_id (db w)) as [c|]; run.
  2:{ destruct (api_ok (env w) (clock w)); run;
        [|destruct (api_ok (env w) (S (clock w))); run];
        (split; [reflexivity|]; eexists; rewrite <- ?app_assoc; reflexivity). }
  destruct (Store.product_by_id (Cart.product_id c) (db w)) as [product|]; run.
  2:{ destruct (api_ok (env w) (clock w)); run; split; reflexivity. }
  destruct (api_ok (env w) (clock w)); run.
  2:{ destruct (api_ok (env w) (S (clock w))); run;
        (split; [reflexivity|]; eexists; rewrite <- ?app_assoc; reflexivity). }
  unfold call.
  match goal with
  | |- context [show_cart ?m ?w1] =>
      pose proof (show_cart_frame m w1) as (Hd & _ & _ & evs & Ht & _);
      destruct (show_cart m w1) as [r w2]
  end.
  cbn [fst snd db trace] in *. destruct r as [[]|e]; run.
  - split; [exact Hd|]. exists evs. rewrite Ht, <- !app_assoc. reflexivity.
  - destruct (api_ok (env w2) (clock w2)); run;
      (split; [exact Hd|]; eexists; rewrite Ht, <- !app_assoc; reflexivity).
Qed.

(** X14: [remove_from_cart] removes a row only for its owner. The catalog
    is never changed and rows with another identifier are kept; with
    identifiers that are not repeated, no row of another user is removed,
    whatever identifier the callback names. When the user has no row with
    the identifier, the database is unchanged and the callback is answered
    "Товар не найден в корзине"; when the user has it (and its product is
    in the catalog), that row is deleted and committed before the callback
    is answered with the name of the product. *)
Theorem remove_from_cart_checks_owner (callback : CallbackQuery) (w : World) (cart_id : Z) :
  callback_product_id (cb_data callback) = Ok cart_id ->
  let user_id := cb_from_id callback in
  let w' := (remove_from_cart callback w).2 in
  Store.products (db w') = Store.products (db w) /\
  (forall d, d ∈ Store.carts (db w) -> Cart.id d <> cart_id -> d ∈ Store.carts (db w')) /\
  (NoDup (Cart.id <$> Store.carts (db w)) ->
   forall d, d ∈ Store.carts (db w) -> Cart.user_id d <> user_id ->
             d ∈ Store.carts (db w')) /\
  (cart_by_id_of_user cart_id user_id (db w) = None ->
   db w' = db w /\
   exists rest,
     trace w' = trace w ++
       AnswerCallback (Some "Товар не найден в корзине") (api_ok (env w) (clock w)) :: rest) /\
  (forall c product,
     cart_by_id_of_user cart_id user_id (db w) = Some c ->
     Store.product_by_id (Cart.product_id c) (db w) = Some product ->
     db w' = delete_cart c (db w) /\
     (forall d, d ∈ Store.carts (db w') -> Cart.id d <> cart_id) /\
     exists rest,
       trace w' = trace w ++
         Commit ::
         AnswerCallback (Some ("Товар " +:+ Product.name product +:+ " удален из корзины"))
           (api_ok (env w) (clock w)) :: rest).
Proof.
  intros Hid user_id w'.
  pose proof (remove_from_cart_db callback w cart_id Hid) as Hrun.
  cbv zeta in Hrun. fold user_id w' in Hrun.
  destruct (cart_by_id_of_user cart_id user_id (db w)) as [c|] eqn:Ec.
  2:{ destruct Hrun as [Hdb Htr]. rewrite Hdb.
      split; [reflexivity|]. split; [auto|]. split; [auto|]. split; [auto|].
      intros ? ? [=]. }
  apply cart_by_id_of_user_Some in Ec as (Hin & Hcid & Hcu).
  destruct (Store.product_by_id (Cart.product_id c) (db w)) as [product|] eqn:Ep.
  2:{ destruct Hrun as [Hdb Htr]. rewrite Hdb.
      split; [reflexivity|]. split; [auto|]. split; [auto|]. split; [intros [=]|].
      intros c' product' [= <-] Hp. rewrite Ep in Hp. discriminate. }
  destruct Hrun as [Hdb Htr]. rewrite Hdb.
  split; [reflexivity|]. split.
  { intros d Hd Hne. apply delete_cart_keeps; congruence. }
  split.
  { intros Hnd d Hd Hu. apply delete_cart_keeps; [exact Hd|]. intros He.
    assert (d = c); [|congruence].
    apply list_elem_of_lookup in Hd as [i Hi]. apply list_elem_of_lookup in Hin as [j Hj].
    assert (i = j).
    { eapply NoDup_lookup; [exact Hnd | |]; rewrite list_lookup_fmap.
      - rewrite Hi. reflexivity.
      - rewrite Hj. cbn. now rewrite He. }
    congruence. }
  split; [intros [=]|].
  intros c' product' [= <-] Hp. rewrite Ep in Hp. injection Hp as <-.
  split; [reflexivity|]. split; [|exact Htr].
  intros d Hd. unfold delete_cart in Hd. cbn in Hd. apply list_elem_of_filter in Hd.
  destruct Hd as [Hd _]. congruence.
Qed.

(** The buyer 42 names the row 3, which is in the cart of the user 77. *)
Lemma remove_from_cart_example :
  let w' := (remove_from_cart (Scenes.taps "remove_3") Demo.world).2 in
  callback_product_id "remove_3" = Ok 3 /\
  Cart.mk 3 77 9 ∈ Store.carts (db Demo.world) /\
  cart_by_id_of_user 3 42 (db Demo.world) = None /\
  db w' = db Demo.world /\
  trace w' = [AnswerCallback (Some "Товар не найден в корзине") true].
Proof.
  intros w'.
  assert (Hid : callback_product_id (cb_data (Scenes.taps "remove_3")) = Ok 3)
    by (vm_compute; reflexivity).
  assert (Hnone : cart_by_id_of_user 3 (cb_from_id (Scenes.taps "remove_3"))
                    (db Demo.world) = None) by (vm_compute; reflexivity).
  split; [exact Hid|]. split.
  { do 2 (apply elem_of_cons; right). apply elem_of_cons. left. reflexivity. }
  split; [exact Hnone|].
  destruct (remove_from_cart_checks_owner (Scenes.taps "remove_3") Demo.world 3 Hid)
    as (_ & _ & _ & Hmiss & _).
  destruct (Hmiss Hnone) as [Hdb _]. split; [exact Hdb|]. vm_compute. reflexivity.
Defined.

Lemma carts_of_user_delete_cart (v : Z) (c : Cart.t) (s : Store.t) :
  Store.carts_of_user v s = [] -> Store.carts_of_user v (delete_cart c s) = [].
Proof.
  unfold Store.carts_of_user, delete_cart. cbn. intros H.
  rewrite list_filter_filter. 
  induction (Store.carts s) as [|d l IH]; [reflexivity|].
  rewrite filter_cons in H. rewrite filter_cons.
  destruct (decide (Cart.user_id d = v)) as [Hd|Hd]; [discriminate|].
  destruct (decide _) as [[? ?]|_]; [contradiction | apply IH; exact H].
Qed.

(** X15: after a removal the cart shown is the cart of the author of the
    message. [remove_from_cart] calls [show_cart] with the message that
    carries the button, and [show_cart] reads the user from the author of
    its message. So when the author of that message has no cart row (the
    message under a button is a message of the bot) and the transport
    accepts the calls, the user who removed a row is told "Ваша корзина
    пуста 🛒", whatever is left in the cart. *)
Theorem removal_lists_cart_of_message_author (callback : CallbackQuery) (w : World)
    (cart_id m : Z) (c : Cart.t) (product : Product.t) :
  callback_product_id (cb_data callback) = Ok cart_id ->
  cart_by_id_of_user cart_id (cb_from_id callback) (db w) = Some c ->
  Store.product_by_id (Cart.product_id c) (db w) = Some product ->
  Store.carts_of_user (msg_from_id (cb_message callback)) (db w) = [] ->
  api_ok (env w) (clock w) = true ->
  api_send (env w) (S (clock w)) = Some m ->
  remove_from_cart callback w =
    (Ok tt,
     mkWorld (env w) (delete_cart c (db w)) None (user_data w) (image_cache w) (fsm w)
       (S (S (clock w)))
       (trace w ++
        [Commit;
         AnswerCallback (Some ("Товар " +:+ Product.name product +:+ " удален из корзины")) true;
         SendMessage (ChatInt (msg_chat_id (cb_message callback))) "Ваша корзина пуста 🛒"
           MainKeyboard (Some m)])).
Proof.
  intros Hid Hc Hp Hauthor Hok Hsend.
  apply (carts_of_user_delete_cart _ c) in Hauthor.
  unfold remove_from_cart. rewrite Hid. run. rewrite Hc. run. rewrite Hp. run.
  rewrite Hok. run. unfold call, show_cart. run. rewrite Hauthor. run.
  rewrite Hsend. run. rewrite <- !app_assoc. reflexivity.
Qed.


(** The buyer removes the first of the two rows of the cart. *)
Lemma removal_example :
  let callback := Scenes.taps "remove_1" in
  let w' := (remove_from_cart callback Demo.world).2 in
  msg_from_id (cb_message callback) = 999 /\
  Store.carts_of_user 999 (db Demo.world) = [] /\
  trace w' =
    [Commit; AnswerCallback (Some "Товар Bone Shaker удален из корзины") true;
     SendMessage (ChatInt 42) "Ваша корзина пуста 🛒" MainKeyboard (Some 1001)] /\
  Store.carts_of_user 42 (db w') = [Cart.mk 2 42 7].
Proof.
  intros callback w'. split; [reflexivity|]. split; [reflexivity|].
  pose proof (removal_lists_cart_of_message_author callback Demo.world 1 1001
                (Cart.mk 1 42 5) Demo.bone_shaker
                ltac:(vm_compute; reflexivity) ltac:(vm_compute; reflexivity)
                ltac:(vm_compute; reflexivity) ltac:(vm_compute; reflexivity)
                eq_refl eq_refl) as Hrun.
  subst w'. rewrite Hrun. cbn [snd trace db]. split; vm_compute; reflexivity.
Defined.

(* ===================================================================== *)
(** * Checkout: the contact *)
(* ===================================================================== *)

(** X16: the contact given in the first step is the contact of the order.
    For the text "Отменить заказ", [process_phone] sends the notice of the
    cancellation and, when it is accepted, clears the conversation. For any
    other message it stores the phone number of the shared contact, or the
    text when no contact is shared, asks for the payment method and, when
    the prompt is accepted, waits for it; [process_payment_info] then
    writes that phone number or text after "📞 Ваши контакты: " in the
    confirmation and after "📞 Контакты: " in the notification of the
    operator. *)
Theorem contact_reaches_the_order (phone_msg pay_msg : Message) (w : World) :
  fsm_key pay_msg = fsm_key phone_msg ->
  let key := fsm_key phone_msg in
  let w1 := (process_phone phone_msg w).2 in
  let prompt := SendMessage (ChatInt (msg_chat_id phone_msg))
                  "Теперь укажите предпочитаемый способ оплаты (карта, наличные и т.д.):"
                  ReplyKeyboardRemove (api_send (env w) (clock w)) in
  (msg_text phone_msg = Some "Отменить заказ" ->
     db w1 = db w /\
     trace w1 = trace w ++
       [SendMessage (ChatInt (msg_chat_id phone_msg)) "Оформление заказа отменено"
          MainKeyboard (api_send (env w) (clock w))] /\
     fsm w1 = match api_send (env w) (clock w) with
              | Some _ => <[key := fsm_idle]> (fsm w)
              | None => fsm w
              end) /\
  (msg_text phone_msg <> Some "Отменить заказ" ->
     let contact :=
       match msg_contact phone_msg with
       | Some phone_number => phone_number
       | None => fmt_opt (msg_text phone_msg)
       end in
     db w1 = db w /\ trace w1 = trace w ++ [prompt] /\
     order_contact pay_msg w1 = contact /\
     fsm_state (fsm_ctx key w1) =
       match api_send (env w) (clock w) with
       | Some _ => Some OrderStates_waiting_payment_info
       | None => fsm_state (fsm_ctx key w)
       end /\
     forall products m1 m2,
       let cart_items := Store.carts_of_user (msg_from_id pay_msg) (db w) in
       cart_items <> [] ->
       cart_products (db w) cart_items = Some products ->
       api_send (env w) (S (clock w)) = Some m1 ->
       api_send (env w) (S (S (clock w))) = Some m2 ->
       trace (process_payment_info pay_msg w1).2 =
         trace w ++
         [prompt; Commit;
          SendMessage (ChatInt (msg_chat_id pay_msg))
            ("✅ Ваш заказ оформлен!" +:+ Py.nl +:+ Py.nl +:+
             "📞 Ваши контакты: " +:+ contact +:+ Py.nl +:+
             "💳 Способ оплаты: " +:+ fmt_opt (msg_text pay_msg) +:+ Py.nl +:+ Py.nl +:+
             "🛒 Состав заказа:" +:+ Py.nl +:+
             foldr String.append ""
               ((fun p => "• " +:+ Product.name p +:+ " - " +:+ Py.str (Product.price p) +:+
                          " руб." +:+ Py.nl) <$> products) +:+
             Py.nl +:+ "💸 Итого к оплате: <b>" +:+ Py.str (sum_prices products) +:+
             " руб.</b>" +:+ Py.nl +:+ Py.nl +:+
             "Спасибо за заказ! Мы свяжемся с вами в ближайшее время.")
            MainKeyboard (Some m1);
          SendMessage (ChatStr (ADMIN_ID (env w)))
            ("🆕 НОВЫЙ ЗАКАЗ!" +:+ Py.nl +:+ Py.nl +:+
             "👤 Пользователь: " +:+ order_user_tag pay_msg +:+ Py.nl +:+
             "📞 Контакты: " +:+ contact +:+ Py.nl +:+
             "💳 Способ оплаты: " +:+ fmt_opt (msg_text pay_msg) +:+ Py.nl +:+ Py.nl +:+
             "📦 Заказанные товары:" +:+ Py.nl +:+
             foldr String.append ""
               ((fun p => "• " +:+ Product.name p +:+ " - " +:+ Py.str (Product.price p) +:+
                          " руб." +:+ Py.nl) <$> products) +:+
             Py.nl +:+ "💰 Общая сумма: <b>" +:+ Py.str (sum_prices products) +:+
             " руб.</b>" +:+ Py.nl +:+ Py.nl +:+
             "✉️ Пользователь ожидает вашего ответа!")
            NoMarkup (Some m2)]).
Proof.
  intros Hkey key w1 prompt. subst w1 prompt. split.
  - intros Hcancel. unfold process_phone. rewrite decide_True by exact Hcancel. run.
    destruct (api_send (env w) (clock w)); run; repeat split; reflexivity.
  - intros Hgo contact. unfold process_phone. rewrite decide_False by exact Hgo.
    assert (Hfmt : fmt match msg_contact phone_msg with
                       | Some phone_number => VStr phone_number
                       | None => match msg_text phone_msg with
                                 | Some txt => VStr txt
                                 | None => VNone
                                 end
                       end = contact).
    { unfold contact. destruct (msg_contact phone_msg); [reflexivity|].
      destruct (msg_text phone_msg); reflexivity. }
    set (v := match msg_contact phone_msg with
              | Some phone_number => VStr phone_number
              | None => _
              end) in *.
    clearbody v. run. fold key.
    destruct (api_send (env w) (clock w)) as [m|] eqn:Es; run;
      (split; [reflexivity|]; split; [reflexivity|];
       unfold order_contact; rewrite Hkey; fold key; fsm_look;
       split; [exact Hfmt|]; split; [reflexivity|]; cbv zeta;
       intros products m1 m2 Hne Hprod Hs1 Hs2;
       rewrite <- (order_text_spelled contact (fmt_opt (msg_text pay_msg)) products);
       rewrite <- (admin_text_spelled (order_user_tag pay_msg) contact
                     (fmt_opt (msg_text pay_msg)) products);
       set (cart_items := Store.carts_of_user (msg_from_id pay_msg) (db w)) in *;
       unfold process_payment_info, process_payment_info_body; run; rewrite Hkey; fold key;
       fsm_look; rewrite Hfmt;
       fold cart_items; destruct cart_items as [|item items] eqn:Ec; [congruence|];
       rewrite (order_lines_run (db w)) by reflexivity;
       rewrite Hprod; run; rewrite Hs1; run; rewrite Hs2; run;
       rewrite <- !app_assoc, !append_assoc, Z.add_0_l; reflexivity).
Qed.

(** The buyer shares the phone number, then pays by card. *)
Lemma contact_example :
  let w1 := (process_phone Scenes.shares_contact Scenes.contacting).2 in
  let w2 := (process_payment_info (Demo.says "card") w1).2 in
  fsm_state (fsm_ctx (42, 42) w1) = Some OrderStates_waiting_payment_info /\
  order_contact (Demo.says "card") w1 = "+100200300" /\
  trace w2 =
    [SendMessage (ChatInt 42)
       "Теперь укажите предпочитаемый способ оплаты (карта, наличные и т.д.):"
       ReplyKeyboardRemove (Some 1000);
     Commit;
     SendMessage (ChatInt 42)
       ("✅ Ваш заказ оформлен!" +:+ Py.nl +:+ Py.nl +:+
        "📞 Ваши контакты: +100200300" +:+ Py.nl +:+
        "💳 Способ оплаты: card" +:+ Py.nl +:+ Py.nl +:+
        "🛒 Состав заказа:" +:+ Py.nl +:+
        "• Bone Shaker - 100 руб." +:+ Py.nl +:+
        "• Twin Mill - 250 руб." +:+ Py.nl +:+
        Py.nl +:+ "💸 Итого к оплате: <b>350 руб.</b>" +:+ Py.nl +:+ Py.nl +:+
        "Спасибо за заказ! Мы свяжемся с вами в ближайшее время.")
       MainKeyboard (Some 1001);
     SendMessage (ChatStr "1")
       ("🆕 НОВЫЙ ЗАКАЗ!" +:+ Py.nl +:+ Py.nl +:+
        "👤 Пользователь: @racer" +:+ Py.nl +:+
        "📞 Контакты: +100200300" +:+ Py.nl +:+
        "💳 Способ оплаты: card" +:+ Py.nl +:+ Py.nl +:+
        "📦 Заказанные товары:" +:+ Py.nl +:+
        "• Bone Shaker - 100 руб." +:+ Py.nl +:+
        "• Twin Mill - 250 руб." +:+ Py.nl +:+
        Py.nl +:+ "💰 Общая сумма: <b>350 руб.</b>" +:+ Py.nl +:+ Py.nl +:+
        "✉️ Пользователь ожидает вашего ответа!")
       NoMarkup (Some 1002)].
Proof.
  intros w1 w2.
  destruct (contact_reaches_the_order Scenes.shares_contact (Demo.says "card")
              Scenes.contacting eq_refl) as [_ Hgo].
  destruct (Hgo ltac:(discriminate)) as (_ & _ & Hcontact & Hstate & Horder).
  fold w1 in Hcontact, Hstate, Horder.
  split; [exact Hstate|]. split; [exact Hcontact|].
  specialize (Horder [Demo.bone_shaker; Demo.twin_mill] 1001 1002
                ltac:(vm_compute; discriminate)
                ltac:(vm_compute; reflexivity) eq_refl eq_refl).
  fold w2 in Horder. exact Horder.
Defined.

(* ===================================================================== *)
(** * Catalog administration: the commands, the steps, the listing *)
(* ===================================================================== *)

(** X17: the two commands of the operator refuse everybody else. For a user
    whose identifier, written in decimal, is not [ADMIN_ID], [cmd_add] and
    [cmd_delete] send "Эта команда доступна только администратору" and
    nothing more: no conversation state is entered, no database session is
    opened, nothing is changed. *)
Theorem admin_commands_refuse_others (message : Message) (w : World) :
  Py.str (msg_from_id message) <> ADMIN_ID (env w) ->
  let refusal := SendMessage (ChatInt (msg_chat_id message))
                   "Эта команда доступна только администратору" NoMarkup
                   (api_send (env w) (clock w)) in
  let same (w' : World) :=
    trace w' = trace w ++ [refusal] /\ fsm w' = fsm w /\ db w' = db w /\
    session w' = session w /\ user_data w' = user_data w in
  same (cmd_add message w).2 /\ same (cmd_delete message w).2.
Proof.
  intros Hne refusal same. subst same refusal.
  assert (Hna : not_admin (env w) message = true).
  { unfold not_admin. destruct (String.eqb_spec (Py.str (msg_from_id message)) (ADMIN_ID (env w)));
      [contradiction | reflexivity]. }
  split.
  - unfold cmd_add. run. rewrite Hna. run.
    destruct (api_send (env w) (clock w)); run; repeat split; reflexivity.
  - unfold cmd_delete. run. rewrite Hna. run.
    destruct (api_send (env w) (clock w)); run; repeat split; reflexivity.
Qed.


(** The buyer 42 is not the operator 1. *)
Lemma admin_commands_example :
  Py.str 42 <> ADMIN_ID Demo.outside /\
  fsm (cmd_add (Demo.says "/add") Demo.world).2 = ∅ /\
  fsm (cmd_delete (Demo.says "/delete") Demo.world).2 = ∅ /\
  trace (cmd_delete (Demo.says "/delete") Demo.world).2 =
    [SendMessage (ChatInt 42) "Эта команда доступна только администратору" NoMarkup
       (Some 1000)].
Proof.
  assert (Hne : Py.str (msg_from_id (Demo.says "/add")) <> ADMIN_ID (env Demo.world))
    by (vm_compute; discriminate).
  split; [exact Hne|].
  destruct (admin_commands_refuse_others (Demo.says "/add") Demo.world Hne)
    as [(_ & Hadd & _) _].
  destruct (admin_commands_refuse_others (Demo.says "/delete") Demo.world Hne)
    as [_ (Htr & Hdel & _)].
  split; [exact Hadd|]. split; [exact Hdel|]. rewrite Htr. reflexivity.
Defined.

(** X18: what [cmd_delete] shows the operator. It never changes the
    database and closes its session. With an empty catalog it sends "Нет
    товаров для удаления" and enters no state. Otherwise it sends the list
    of all the products, one line "id: name" for each in the order of the
    table, and waits for the identifiers when the list was accepted. *)
Theorem cmd_delete_lists_catalog (message : Message) (w : World) :
  Py.str (msg_from_id message) = ADMIN_ID (env w) ->
  let w' := (cmd_delete message w).2 in
  let chat := ChatInt (msg_chat_id message) in
  let products := Store.products (db w) in
  db w' = db w /\ session w' = None /\
  (products = [] ->
     fsm w' = fsm w /\
     trace w' = trace w ++
       [SendMessage chat "Нет товаров для удаления" NoMarkup (api_send (env w) (clock w))]) /\
  (products <> [] ->
     trace w' = trace w ++
       [SendMessage chat
          ("Список товаров (ID: Название):" +:+ Py.nl +:+
           Py.join Py.nl (map delete_list_line products) +:+ Py.nl +:+ Py.nl +:+
           "Введите ID товаров для удаления через пробел:")
          NoMarkup (api_send (env w) (clock w))] /\
     fsm w' =
       match api_send (env w) (clock w) with
       | Some _ =>
           <[fsm_key message :=
               mkFsm (Some DeleteProduct_waiting_id)
                 (fsm_data (fsm_ctx (fsm_key message) w))]> (fsm w)
       | None => fsm w
       end).
Proof.
  intros Hadmin w' chat products. subst w'.
  assert (Hna : not_admin (env w) message = false).
  { unfold not_admin. rewrite Hadmin, String.eqb_refl. reflexivity. }
  unfold cmd_delete. run. rewrite Hna. run. fold products.
  destruct products as [|p ps] eqn:Ep; run.
  - destruct (api_send (env w) (clock w)); run;
      (split; [reflexivity|]; split; [reflexivity|]; split; [auto | congruence]).
  - rewrite <- Ep.
    destruct (api_send (env w) (clock w)); run;
      (split; [reflexivity|]; split; [reflexivity|]; split; [congruence|];
       intros _; split; reflexivity).
Qed.


Lemma cmd_delete_example :
  let w' := (cmd_delete (Scenes.operator_says "/delete") Demo.world).2 in
  Py.str 1 = ADMIN_ID Demo.outside /\
  trace w' =
    [SendMessage (ChatInt 1)
       ("Список товаров (ID: Название):" +:+ Py.nl +:+
        "5: Bone Shaker" +:+ Py.nl +:+ "7: Twin Mill" +:+ Py.nl +:+ "9: Deora II" +:+
        Py.nl +:+ Py.nl +:+ "Введите ID товаров для удаления через пробел:")
       NoMarkup (Some 1000)] /\
  fsm_state (fsm_ctx (1, 1) w') = Some DeleteProduct_waiting_id.
Proof.
  intros w'.
  assert (Hadmin : Py.str (msg_from_id (Scenes.operator_says "/delete")) =
                   ADMIN_ID (env Demo.world)) by reflexivity.
  split; [exact Hadmin|].
  destruct (cmd_delete_lists_catalog (Scenes.operator_says "/delete") Demo.world Hadmin)
    as (_ & _ & _ & Hlist).
  destruct (Hlist ltac:(vm_compute; discriminate)) as [Htr Hfsm].
  fold w' in Htr, Hfsm. split; [rewrite Htr; vm_compute; reflexivity|].
  unfold fsm_ctx. rewrite Hfsm. vm_compute. reflexivity.
Defined.

Lemma filter_none {A} (P : A -> Prop) `{!∀ x, Decision (P x)} (l : list A) :
  (forall x, x ∈ l -> ~ P x) -> filter P l = [].
Proof.
  induction l as [|x l IH]; intros Hp; [reflexivity|].
  rewrite filter_cons_False by (apply Hp; left). apply IH.
  intros y Hy. apply Hp. now right.
Qed.

Lemma split_go_word (s rest cur : string) :
  no_space s ->
  Py.split_go (singles (s +:+ rest)) cur =
    Py.split_go (singles rest) (cur +:+ s).
Proof.
  revert cur. induction s as [|c s IH]; intros cur Hs.
  - rewrite append_empty_r. reflexivity.
  - change (singles (String c s +:+ rest))
      with (String c "" :: singles (s +:+ rest)).
    cbn [Py.split_go].
    rewrite (proj2 (Hs c ltac:(left; reflexivity))).
    rewrite IH by (intros d Hd; apply Hs; right; exact Hd).
    rewrite append_assoc. reflexivity.
Qed.

Lemma join_words_low (l : list string) :
  Forall (fun s => no_space s /\ s <> "") l ->
  forall c, In c (list_ascii_of_string (Py.join " " l)) -> (nat_of_ascii c < 127)%nat.
Proof.
  assert (Happ : forall a b c, In c (list_ascii_of_string (a +:+ b)) ->
                   In c (list_ascii_of_string a) \/ In c (list_ascii_of_string b)).
  { induction a as [|x a IHa]; intros b c Hc; [right; exact Hc|].
    destruct Hc as [<-|Hc]; [left; left; reflexivity|].
    destruct (IHa b c Hc); [left; right|right]; assumption. }
  induction l as [|x l IH]; intros Hl c Hc; [destruct Hc|].
  apply Forall_cons in Hl as [[Hx _] Hl].
  destruct l as [|y l].
  - apply Hx. exact Hc.
  - change (Py.join " " (x :: y :: l)) with (x +:+ " " +:+ Py.join " " (y :: l)) in Hc.
    apply Happ in Hc as [Hc|Hc]; [apply Hx; exact Hc|].
    destruct Hc as [<-|Hc]; [apply Nat.ltb_lt; reflexivity|]. apply IH; assumption.
Qed.

Lemma split_singles_join (l : list string) :
  Forall (fun s => no_space s /\ s <> "") l ->
  Py.split_go (singles (Py.join " " l)) "" = l.
Proof.
  induction l as [|x l IH]; intros Hl; [reflexivity|].
  apply Forall_cons in Hl as [[Hx Hne] Hl].
  destruct l as [|y l].
  - cbn [Py.join]. rewrite <- (append_empty_r x) at 1. rewrite split_go_word by exact Hx.
    cbn [singles list_ascii_of_string fmap list_fmap Py.split_go].
    change ("" +:+ x) with x.
    destruct (String.eqb_spec x ""); [contradiction | reflexivity].
  - change (Py.join " " (x :: y :: l)) with (x +:+ " " +:+ Py.join " " (y :: l)).
    rewrite split_go_word by exact Hx. change ("" +:+ x) with x.
    change (singles (" " +:+ Py.join " " (y :: l)))
      with (" " :: singles (Py.join " " (y :: l))).
    cbn [Py.split_go]. change (Py.is_space " ") with true. cbv iota.
    destruct (String.eqb_spec x ""); [contradiction|]. f_equal. apply IH. exact Hl.
Qed.

Lemma split_join_words (l : list string) :
  Forall (fun s => no_space s /\ s <> "") l ->
  Py.split (Py.join " " l) = l.
Proof.
  intros Hl. unfold Py.split. rewrite PyFacts.chars_singles.
  - apply split_singles_join. exact Hl.
  - intros c Hc. apply PyFacts.low_byte.
    pose proof (join_words_low l Hl c Hc). lia.
Qed.

Lemma uint_no_space (d : uint) : no_space (NilEmpty.string_of_uint d).
Proof.
  induction d; intros c Hc; cbn in Hc; try contradiction;
    destruct Hc as [<-|Hc]; try (split; [apply Nat.ltb_lt; reflexivity | reflexivity]); apply IHd; exact Hc.
Qed.

Lemma str_word (n : Z) : no_space (Py.str n) /\ Py.str n <> "".
Proof.
  unfold Py.str. destruct n as [|p|p]; cbn.
  - split; [|discriminate]. intros c [<-|[]]. split; [apply Nat.ltb_lt; reflexivity | reflexivity].
  - pose proof (DecimalPos.Unsigned.to_uint_nonnil p) as Hn.
    rewrite PyFacts.string_of_uint_nonnil by assumption. split; [apply uint_no_space|].
    destruct (Pos.to_uint p); try congruence; discriminate.
  - pose proof (DecimalPos.Unsigned.to_uint_nonnil p) as Hn.
    rewrite PyFacts.string_of_uint_nonnil by assumption. split; [|discriminate].
    intros c [<-|Hc]; [split; [apply Nat.ltb_lt; reflexivity | reflexivity] | apply uint_no_space in Hc; exact Hc].
Qed.

(** X19: every identifier of the list of [cmd_delete] is accepted by the
    deletion step. When the operator answers with the identifiers of all
    the products, as [cmd_delete] writes them, separated by spaces,
    [process_delete_id] deletes every product: the catalog is empty
    afterwards, the carts are untouched and the conversation is idle. *)
Theorem reply_with_listed_ids_empties_catalog (message : Message) (w : World) :
  msg_text message =
    Some (Py.join " " (map (fun p => Py.str (Product.id p)) (Store.products (db w)))) ->
  let w' := (process_delete_id message w).2 in
  Store.products (db w') = [] /\
  Store.carts (db w') = Store.carts (db w) /\
  fsm_ctx (fsm_key message) w' = fsm_idle.
Proof.
  intros Htxt w'.
  set (ids := map (fun p => Py.str (Product.id p)) (Store.products (db w))) in *.
  assert (Hsplit : Py.split (Py.join " " ids) = ids).
  { apply split_join_words. unfold ids. apply Forall_forall. intros s Hs.
    apply list_elem_of_fmap in Hs as (p & -> & _). apply str_word. }
  assert (Hrun : db w' = (sweep (db w) ids).1.1 /\ fsm_ctx (fsm_key message) w' = fsm_idle).
  { subst w'. unfold process_delete_id. rewrite Htxt. run. rewrite Hsplit.
    rewrite (delete_loop_run ids (db w)) by reflexivity. run.
    destruct (api_send (env w) (clock w)) as [m|] eqn:Es; run;
      [|destruct (api_send (env w) (S (clock w))); run];
      (split; [reflexivity|]; unfold fsm_ctx; cbn [fsm]; now rewrite lookup_insert_eq). }
  destruct Hrun as [Hdb Hidle]. rewrite Hdb.
  split; [|split; [apply sweep_carts | exact Hidle]].
  rewrite sweep_products. apply filter_none. intros p Hp Hnot. apply Hnot.
  apply list_elem_of_omap. exists (Py.str (Product.id p)). split.
  - unfold ids. apply list_elem_of_fmap. exists p. split; [reflexivity | exact Hp].
  - apply PyFacts.int_str.
Qed.

Lemma reply_with_listed_ids_example :
  let w' := (process_delete_id (Scenes.operator_says "5 7 9") Scenes.purging).2 in
  Py.join " " (map (fun p => Py.str (Product.id p)) (Store.products Demo.shop)) = "5 7 9" /\
  Store.products (db w') = [] /\
  Store.carts (db w') = Store.carts Demo.shop.
Proof.
  intros w'. split; [reflexivity|].
  destruct (reply_with_listed_ids_empties_catalog (Scenes.operator_says "5 7 9")
              Scenes.purging eq_refl) as (Hp & Hc & _).
  split; [exact Hp | exact Hc].
Defined.

(** X20: a message without text in the deletion step leaves the operator in
    that step. [message.text.split()] fails before the database session is
    opened; the handler reports the error, but the [session.close()] of its
    [finally] block then fails on the unbound variable, so [state.clear()]
    is not reached: the handler ends with that exception, the conversation
    is still waiting for identifiers and the database is unchanged. *)
Theorem delete_without_text_keeps_state (message : Message) (w : World) :
  msg_text message = None ->
  let w' := (process_delete_id message w).2 in
  (process_delete_id message w).1 = Raise UnboundLocalError /\
  fsm w' = fsm w /\ db w' = db w /\
  trace w' = trace w ++
    [SendMessage (ChatInt (msg_chat_id message))
       ("❌ Произошла ошибка при удалении: " +:+ exn_str (env w) AttributeError) NoMarkup
       (api_send (env w) (clock w))].
Proof.
  intros Htxt. unfold process_delete_id. rewrite Htxt. run.
  destruct (api_send (env w) (clock w)); run; repeat split; reflexivity.
Qed.


Lemma delete_without_text_example :
  let w' := (process_delete_id Scenes.operator_sends Scenes.purging).2 in
  msg_text Scenes.operator_sends = None /\
  fsm_state (fsm_ctx (1, 1) w') = Some DeleteProduct_waiting_id /\
  (process_delete_id Scenes.operator_sends Scenes.purging).1 = Raise UnboundLocalError.
Proof.
  intros w'. split; [reflexivity|].
  destruct (delete_without_text_keeps_state Scenes.operator_sends Scenes.purging eq_refl)
    as (Hr & Hfsm & _).
  fold w' in Hfsm. split; [|exact Hr].
  unfold fsm_ctx. rewrite Hfsm. reflexivity.
Defined.

(** X21: the first steps of the addition collect the fields. When the three
    prompts are accepted, after [process_photo], [process_name] and
    [process_price] the data of the conversation hold the file identifier
    of the last (largest) size of the picture under ["photo_id"], the text
    of the second message under ["name"] and the number read from the third
    under ["price"], over what the data held before; the conversation
    waits for the description and the database is unchanged. *)
Theorem add_flow_collects_fields (photo_msg name_msg price_msg : Message)
    (photo : list string) (w : World) (file_id name txt : string) (price m1 m2 m3 : Z) :
  fsm_key name_msg = fsm_key photo_msg ->
  fsm_key price_msg = fsm_key photo_msg ->
  last photo = Some file_id ->
  msg_text name_msg = Some name ->
  msg_text price_msg = Some txt ->
  Py.int txt = Some price ->
  api_send (env w) (clock w) = Some m1 ->
  api_send (env w) (S (clock w)) = Some m2 ->
  api_send (env w) (S (S (clock w))) = Some m3 ->
  let key := fsm_key photo_msg in
  let w1 := (process_photo photo_msg photo w).2 in
  let w2 := (process_name name_msg w1).2 in
  let w3 := (process_price price_msg w2).2 in
  fsm_ctx key w3 =
    mkFsm (Some AddProduct_waiting_description)
      (<["price" := VInt price]>
         (<["name" := VStr name]>
            (<["photo_id" := VStr file_id]> (fsm_data (fsm_ctx key w))))) /\
  db w3 = db w /\
  trace w3 = trace w ++
    [SendMessage (ChatInt (msg_chat_id photo_msg))
       "Отлично! Теперь введите название товара:" NoMarkup (Some m1);
     SendMessage (ChatInt (msg_chat_id name_msg))
       "Введите цену товара (только число):" NoMarkup (Some m2);
     SendMessage (ChatInt (msg_chat_id price_msg))
       "Введите описание товара:" NoMarkup (Some m3)].
Proof.
  intros Hk2 Hk3 Hlast Hname Htxt Hint Hs1 Hs2 Hs3 key w1 w2 w3.
  subst w3 w2 w1. unfold process_photo. rewrite index_last, Hlast. run. rewrite Hs1. run.
  unfold process_name. rewrite Hname, Hk2. run. rewrite Hs2. run.
  unfold process_price. rewrite Htxt, Hk3. run. rewrite Hint. run. rewrite Hs3. run.
  fold key. fsm_look. split; [reflexivity|]. split; [reflexivity|].
  rewrite <- !app_assoc. reflexivity.
Qed.

Lemma add_flow_example :
  let w1 := (process_photo Scenes.operator_sends ["small"; "medium"; "large"] Demo.world).2 in
  let w2 := (process_name (Scenes.operator_says "Rodger Dodger") w1).2 in
  let w3 := (process_price (Scenes.operator_says " 300 ") w2).2 in
  Py.int " 300 " = Some 300 /\
  fsm_ctx (1, 1) w3 =
    mkFsm (Some AddProduct_waiting_description)
      {[ "photo_id" := VStr "large"; "name" := VStr "Rodger Dodger"; "price" := VInt 300 ]}.
Proof.
  intros w1 w2 w3. split; [reflexivity|].
  destruct (add_flow_collects_fields Scenes.operator_sends
              (Scenes.operator_says "Rodger Dodger") (Scenes.operator_says " 300 ")
              ["small"; "medium"; "large"] Demo.world "large" "Rodger Dodger" " 300 " 300
              1000 1001 1002 eq_refl eq_refl eq_refl eq_refl eq_refl eq_refl eq_refl eq_refl
              eq_refl) as (Hctx & _).
  fold w1 w2 w3 in Hctx. change (fsm_key Scenes.operator_sends) with (1, 1) in Hctx.
  rewrite Hctx. vm_compute. reflexivity.
Defined.

Lemma next_product_id_fresh (s : Store.t) (p : Product.t) :
  p ∈ Store.products s -> Product.id p < next_product_id s.
Proof.
  unfold next_product_id. induction (Store.products s) as [|q l IH]; intros Hp.
  - inversion Hp.
  - apply elem_of_cons in Hp as [->|Hp]; cbn [map fold_right]; [lia|].
    specialize (IH Hp). lia.
Qed.

(** X22: the last step of the addition stores the product. With a label of
    the category keyboard and the four fields in the data of the
    conversation, [process_category] appends to the catalog one product
    with these fields and that category, under an identifier no product
    had; the product is found by its identifier and is the last of its
    category; the carts are unchanged, the insertion is committed before
    the confirmation is sent and the conversation is idle, whatever the
    transport answers. *)
Theorem process_category_persists (message : Message) (w : World)
    (label category name photo_id description : string) (price : Z) :
  msg_text message = Some label ->
  admin_category_map label = Some category ->
  let data := fsm_data (fsm_ctx (fsm_key message) w) in
  data !! "name" = Some (VStr name) ->
  data !! "price" = Some (VInt price) ->
  data !! "photo_id" = Some (VStr photo_id) ->
  data !! "description" = Some (VStr description) ->
  let w' := (process_category message w).2 in
  let new_product :=
    Product.mk (next_product_id (db w)) category name price photo_id description in
  Store.products (db w') = Store.products (db w) ++ [new_product] /\
  Store.carts (db w') = Store.carts (db w) /\
  (forall p, p ∈ Store.products (db w) -> Product.id p <> Product.id new_product) /\
  Store.product_by_id (Product.id new_product) (db w') = Some new_product /\
  Store.products_of_category category (db w') =
    Store.products_of_category category (db w) ++ [new_product] /\
  fsm_ctx (fsm_key message) w' = fsm_idle /\
  exists rest,
    trace w' = trace w ++
      Commit ::
      SendMessage (ChatInt (msg_chat_id message))
        ("✅ Товар успешно добавлен в категорию " +:+ category +:+ "!" +:+ Py.nl +:+ Py.nl +:+
         "Название: " +:+ name +:+ Py.nl +:+
         "Цена: " +:+ Py.str price +:+ " руб.")
        MainKeyboard (api_send (env w) (clock w)) :: rest.
Proof.
  intros Htxt Hcat data Hname Hprice Hphoto Hdesc w' new_product.
  assert (Hrun : db w' = add_product category name price photo_id description (db w) /\
                 fsm_ctx (fsm_key message) w' = fsm_idle /\
                 exists rest,
                   trace w' = trace w ++
                     Commit ::
                     SendMessage (ChatInt (msg_chat_id message))
                       ("✅ Товар успешно добавлен в категорию " +:+ category +:+ "!" +:+
                        Py.nl +:+ Py.nl +:+
                        "Название: " +:+ name +:+ Py.nl +:+
                        "Цена: " +:+ Py.str price +:+ " руб.")
                       MainKeyboard (api_send (env w) (clock w)) :: rest).
  { subst w'. unfold process_category. rewrite Htxt. cbn [mbind option_bind].
    rewrite Hcat. unfold data_str, data_int. run. fold data.
    rewrite Hname. run. rewrite Hprice. run. rewrite Hphoto. run. rewrite Hdesc. run.
    destruct (api_send (env w) (clock w)); run;
      [|destruct (api_send (env w) (S (clock w))); run];
      (split; [reflexivity|]; split;
       [unfold fsm_ctx; cbn [fsm]; now rewrite lookup_insert_eq|];
       eexists; rewrite <- ?app_assoc; reflexivity). }
  destruct Hrun as (Hdb & Hidle & Htr). rewrite Hdb.
  assert (Hfresh : forall p, p ∈ Store.products (db w) -> Product.id p <> Product.id new_product).
  { intros p Hp. pose proof (next_product_id_fresh (db w) p Hp). cbn. lia. }
  split; [reflexivity|]. split; [reflexivity|]. split; [exact Hfresh|]. split.
  { unfold Store.product_by_id, add_product. cbn [Store.products].
    rewrite filter_app.
    assert (Hnone : filter (fun p => Product.id p = Product.id new_product)
                      (Store.products (db w)) = []).
    { apply filter_none. intros p Hp. exact (Hfresh p Hp). }
    fold new_product. rewrite Hnone. cbn [app].
    rewrite filter_cons_True by reflexivity. reflexivity. }
  split; [|split; [exact Hidle | exact Htr]].
  unfold Store.products_of_category, add_product. cbn [Store.products].
  rewrite filter_app. fold new_product. rewrite filter_cons_True by reflexivity.
  reflexivity.
Qed.


Lemma process_category_example :
  let message := Scenes.operator_says "Премиум модели (premium)" in
  let w' := (process_category message Scenes.describing).2 in
  let rodger := Product.mk 10 "premium" "Rodger Dodger" 300 "photo-D" "Muscle car" in
  admin_category_map "Премиум модели (premium)" = Some "premium" /\
  Store.products_of_category "premium" (db w') = [Demo.deora; rodger] /\
  Store.product_by_id 10 (db w') = Some rodger /\
  fsm_ctx (1, 1) w' = fsm_idle.
Proof.
  intros message w' rodger.
  assert (Hcat : admin_category_map "Премиум модели (premium)" = Some "premium")
    by (vm_compute; reflexivity).
  split; [exact Hcat|].
  destruct (process_category_persists message Scenes.describing
              "Премиум модели (premium)" "premium" "Rodger Dodger" "photo-D" "Muscle car" 300
              eq_refl Hcat ltac:(vm_compute; reflexivity) ltac:(vm_compute; reflexivity)
              ltac:(vm_compute; reflexivity) ltac:(vm_compute; reflexivity))
    as (_ & _ & _ & Hby & Hlist & Hidle & _).
  fold w' in Hby, Hlist, Hidle.
  split; [rewrite Hlist; vm_compute; reflexivity|]. split; [exact Hby | exact Hidle].
Defined.

(** X23: the last step of the addition with a field missing. When the data
    of the conversation lack one of the four fields (the flow was entered
    or left half way), [process_category], given a label of the keyboard,
    sends "❌ Ошибка при сохранении товара", stores nothing and leaves the
    conversation idle: the fields collected so far are dropped. *)
Theorem process_category_incomplete_data (message : Message) (w : World)
    (label category key : string) :
  msg_text message = Some label ->
  admin_category_map label = Some category ->
  key ∈ ["name"; "price"; "photo_id"; "description"] ->
  fsm_data (fsm_ctx (fsm_key message) w) !! key = None ->
  let w' := (process_category message w).2 in
  db w' = db w /\
  fsm_ctx (fsm_key message) w' = fsm_idle /\
  trace w' = trace w ++
    [SendMessage (ChatInt (msg_chat_id message)) "❌ Ошибка при сохранении товара" NoMarkup
       (api_send (env w) (clock w))].
Proof.
  intros Htxt Hcat Hkey Hmiss w'. subst w'.
  unfold process_category. rewrite Htxt. cbn [mbind option_bind]. rewrite Hcat.
  unfold data_str, data_int. run.
  repeat (apply elem_of_cons in Hkey as [->|Hkey]);
    [| | | | inversion Hkey].
  all: repeat first
         [ rewrite Hmiss; run
         | match goal with
           | |- context [@lookup string PyVal _ _ ?k ?d] =>
               destruct (@lookup string PyVal _ _ k d) as [[| |]|]; run
           end ].
  all: destruct (api_send (env w) (clock w)); run;
    (split; [reflexivity|]; split;
     [unfold fsm_ctx; cbn [fsm]; now rewrite lookup_insert_eq | reflexivity]).
Qed.

(** The operator names the category before the price and the description
    were given. *)
Lemma process_category_incomplete_example :
  let message := Demo.says "Мейн модели (main)" in
  let w' := (process_category message Demo.pricing).2 in
  fsm_data (fsm_ctx (fsm_key message) Demo.pricing) !! "price" = None /\
  db w' = Demo.shop /\
  fsm_ctx (42, 42) w' = fsm_idle /\
  trace w' =
    [SendMessage (ChatInt 42) "❌ Ошибка при сохранении товара" NoMarkup (Some 1000)].
Proof.
  intros message w'.
  assert (Hmiss : fsm_data (fsm_ctx (fsm_key message) Demo.pricing) !! "price" = None)
    by (vm_compute; reflexivity).
  split; [exact Hmiss|].
  destruct (process_category_incomplete_data message Demo.pricing "Мейн модели (main)" "main"
              "price" eq_refl ltac:(vm_compute; reflexivity)
              ltac:(apply elem_of_cons; right; apply elem_of_cons; left; reflexivity) Hmiss)
    as (Hdb & Hidle & Htr).
  fold w' in Hdb, Hidle, Htr. split; [exact Hdb|]. split; [exact Hidle|].
  rewrite Htr. reflexivity.
Defined.

(* ===================================================================== *)
(** * The downloads of one render and the cache *)
(* ===================================================================== *)

Lemma fetch_image_one_retrieval (url : string) (w : World) :
  exists image w',
    fetch_image url w = (Ok image, w') /\
    retrievals (trace w') = S (retrievals (trace w)).
Proof.
  rewrite fetch_image_run. cbv zeta.
  assert (H1 : forall r, retrievals (trace (emit (HttpGet url r) w)) = S (retrievals (trace w))).
  { intros r. cbn [trace emit]. rewrite retrievals_app. change (retrievals [HttpGet url r]) with 1%nat.
    lia. }
  destruct (http_get (env w) (clock w) url) as [|status body]; [eauto|].
  destruct (status =? 200); [|eauto].
  destruct (Image_open (env w) body) as [image0|]; [|eauto].
  destruct (thumbnail (env w) image0 (400, 400)); [|eauto].
  eexists _, _. split; [reflexivity|]. apply H1.
Qed.

Lemma map_M_cons {A B} (f : A -> M B) (x : A) (l : list A) (w : World) :
  map_M f (x :: l) w =
    match f x w with
    | (Ok y, w1) =>
        match map_M f l w1 with
        | (Ok ys, w2) => (Ok (y :: ys), w2)
        | (Raise e, w2) => (Raise e, w2)
        end
    | (Raise e, w1) => (Raise e, w1)
    end.
Proof.
  cbn [map_M]. unfold bind, ret. destruct (f x w) as [[y|e] w1]; [|reflexivity].
  destruct (map_M f l w1) as [[ys|e] w2]; reflexivity.
Qed.

Lemma gather_from_cache (cache : gmap string Image) (urls : list string) :
  forall w,
    let uncached := filter (fun url => cache !! url = None) urls in
    exists images w',
      map_M (fun url => match cache !! url with
                        | Some image => ret (Some image)
                        | None => fetch_image url
                        end) urls w = (Ok images, w') /\
      length images = length urls /\
      retrievals (trace w') = (retrievals (trace w) + length uncached)%nat /\
      (uncached = [] -> w' = w) /\
      forall (i : nat) url image,
        urls !! i = Some url -> cache !! url = Some image -> images !! i = Some (Some image).
Proof.
  induction urls as [|url urls IH]; intros w uncached; subst uncached.
  - exists [], w. cbn. repeat split; auto. intros i url image H; discriminate.
  - rewrite map_M_cons, filter_cons. cbv beta.
    destruct (cache !! url) as [image|] eqn:Ec.
    + rewrite decide_False by discriminate. unfold ret at 1.
      destruct (IH w) as (images & w' & Hrun & Hlen & Hret & Hsame & Hhit).
      rewrite Hrun. exists (Some image :: images), w'.
      split; [reflexivity|]. split; [cbn; lia|]. split; [exact Hret|]. split; [exact Hsame|].
      intros [|i] url' image' Hu Hc; cbn in *.
      * injection Hu as <-. rewrite Ec in Hc. injection Hc as <-. reflexivity.
      * eapply Hhit; eassumption.
    + rewrite decide_True by reflexivity.
      destruct (fetch_image_one_retrieval url w) as (image & w1 & Hf & Hr1). rewrite Hf.
      destruct (IH w1) as (images & w' & Hrun & Hlen & Hret & _ & Hhit).
      rewrite Hrun. exists (image :: images), w'.
      split; [reflexivity|]. split; [cbn; lia|]. split; [rewrite Hret, Hr1; cbn; lia|].
      split; [discriminate|].
      intros [|i] url' image' Hu Hc; cbn in *.
      * injection Hu as <-. rewrite Ec in Hc. discriminate.
      * eapply Hhit; eassumption.
Qed.

(** X24: the downloads of one render. The gather of [download_image] tasks
    returns one result for each entry of the list and makes one network
    retrieval for each entry whose URL is not in the cache when the gather
    starts, a URL that comes twice being retrieved twice; an entry whose
    URL is in the cache gets the cached bitmap, and when every URL is in
    the cache the world is left as it is. *)
Theorem gather_fetches_each_uncached_entry (urls : list string) (w : World) :
  let uncached := filter (fun url => image_cache w !! url = None) urls in
  exists images w',
    gather_download_image urls w = (Ok images, w') /\
    length images = length urls /\
    retrievals (trace w') = (retrievals (trace w) + length uncached)%nat /\
    (uncached = [] -> w' = w) /\
    forall (i : nat) url image,
      urls !! i = Some url -> image_cache w !! url = Some image ->
      images !! i = Some (Some image).
Proof.
  unfold gather_download_image. unfold bind, gets. apply gather_from_cache.
Qed.

(** Two products share a picture that is not in the cache; the picture of
    a third one is. *)
Lemma gather_example :
  let b := Demo.url_of "photo-B" in
  let c := Demo.url_of "photo-C" in
  let w := set_image_cache <[c := Demo.thumb "cached"]> Demo.world in
  let w' := (gather_download_image [b; b; c] w).2 in
  retrievals (trace w') = 2%nat /\
  trace w' = [HttpGet b (HttpStatus 200 b); HttpGet b (HttpStatus 200 b)] /\
  (gather_download_image [b; b; c] w).1 =
    Ok [Some (Demo.thumb b); Some (Demo.thumb b); Some (Demo.thumb "cached")].
Proof.
  intros b c w w'.
  destruct (gather_fetches_each_uncached_entry [b; b; c] w)
    as (images & w1 & Hrun & _ & Hret & _ & _).
  subst w'. rewrite Hrun. cbn [fst snd]. split; [exact Hret|].
  assert (E : (Ok images, w1) = gather_download_image [b; b; c] w) by (symmetry; exact Hrun).
  vm_compute in E. injection E as -> ->. split; reflexivity.
Defined.

(* ===================================================================== *)
(** * An invariant of the cart table *)
(* ===================================================================== *)

Lemma add_to_cart_db (callback : CallbackQuery) (w : World) :
  let w' := (add_to_cart callback w).2 in
  db w' = db w \/
  exists product_id,
    cart_of_user_product (cb_from_id callback) product_id (db w) = None /\
    db w' = add_cart (cb_from_id callback) product_id (db w).
Proof.
  unfold add_to_cart.
  destruct (callback_product_id (cb_data callback)) as [product_id|e]; run;
    [|left; reflexivity].
  destruct (cart_of_user_product (cb_from_id callback) product_id (db w)) as [c|] eqn:Ec; run.
  - left. destruct (api_ok (env w) (clock w)); run;
      [|destruct (api_ok (env w) (S (clock w))); run]; reflexivity.
  - right. exists product_id. split; [exact Ec|].
    destruct (api_ok (env w) (clock w)); run;
      [|destruct (api_ok (env w) (S (clock w))); run]; reflexivity.
Qed.

Lemma clear_cart_db (callback : CallbackQuery) (w : World) :
  db (clear_cart callback w).2 = Store.delete_carts_of_user (cb_from_id callback) (db w).
Proof.
  unfold clear_cart. run.
  destruct (api_ok (env w) (clock w)); run.
  - destruct (api_send (env w) (S (clock w))); run;
      [|destruct (api_ok (env w) (S (S (clock w)))); run]; reflexivity.
  - destruct (api_ok (env w) (S (clock w))); run; reflexivity.
Qed.

Lemma process_payment_info_db (message : Message) (w : World) :
  let w' := (process_payment_info message w).2 in
  db w' = db w \/ db w' = Store.delete_carts_of_user (msg_from_id message) (db w).
Proof.
  unfold process_payment_info, process_payment_info_body. run.
  destruct (Store.carts_of_user (msg_from_id message) (db w)) as [|item items] eqn:Ec; run.
  - left. destruct (api_send (env w) (clock w)); run;
      [|destruct (api_send (env w) (S (clock w))); run]; reflexivity.
  - rewrite (order_lines_run (db w)) by reflexivity.
    destruct (cart_products (db w) (item :: items)) as [products|]; run.
    + right.
      destruct (api_send (env w) (clock w)); run;
        destruct (api_send (env w) (S (clock w))); run;
        destruct (api_send (env w) (S (S (clock w)))); run; reflexivity.
    + left. destruct (api_send (env w) (clock w)); run; reflexivity.
Qed.

Lemma cart_keys_of_filter (P : Cart.t -> Prop) `{!∀ c, Decision (P c)} (l : list Cart.t) :
  NoDup (cart_key <$> l) -> NoDup (cart_key <$> filter P l).
Proof.
  intros Hnd. eapply sublist_NoDup; [exact Hnd|].
  apply fmap_sublist. apply sublist_filter.
Qed.

(** X25: no handler makes a cart hold a product twice. If no two rows of
    the cart table have the same user and the same product, the same holds
    after [add_to_cart], [remove_from_cart], [clear_cart] and
    [process_payment_info], for every button press or message and whatever
    the transport answers. *)
Theorem cart_pairs_stay_unique (w : World) :
  NoDup (cart_key <$> Store.carts (db w)) ->
  (forall callback, NoDup (cart_key <$> Store.carts (db (add_to_cart callback w).2))) /\
  (forall callback, NoDup (cart_key <$> Store.carts (db (remove_from_cart callback w).2))) /\
  (forall callback, NoDup (cart_key <$> Store.carts (db (clear_cart callback w).2))) /\
  (forall message, NoDup (cart_key <$> Store.carts (db (process_payment_info message w).2))).
Proof.
  intros Hnd. split; [|split; [|split]].
  - intros callback. destruct (add_to_cart_db callback w) as [->|(p & Hnone & ->)];
      [exact Hnd|].
    unfold add_cart. cbn [Store.carts]. rewrite fmap_app. apply NoDup_app.
    split; [exact Hnd|]. split; [|apply NoDup_singleton].
    intros k Hk Hk'. apply list_elem_of_singleton in Hk'. subst k.
    apply cart_of_user_product_None in Hnone. apply Hnone. exact Hk.
  - intros callback. unfold remove_from_cart.
    destruct (callback_product_id (cb_data callback)) as [cart_id|e] eqn:Hid;
      [|run; exact Hnd].
    pose proof (remove_from_cart_db callback w cart_id Hid) as Hrun. cbv zeta in Hrun.
    unfold remove_from_cart in Hrun. rewrite Hid in Hrun.
    destruct (cart_by_id_of_user cart_id (cb_from_id callback) (db w)) as [c|];
      [destruct (Store.product_by_id (Cart.product_id c) (db w))|];
      destruct Hrun as [-> _]; try exact Hnd.
    unfold delete_cart. cbn [Store.carts]. now apply cart_keys_of_filter.
  - intros callback. rewrite clear_cart_db. unfold Store.delete_carts_of_user.
    cbn [Store.carts]. now apply cart_keys_of_filter.
  - intros message. destruct (process_payment_info_db message w) as [->| ->]; [exact Hnd|].
    unfold Store.delete_carts_of_user. cbn [Store.carts]. now apply cart_keys_of_filter.
Qed.

(** The buyer adds the premium model, then the first main model, which is
    in the cart already. *)
Lemma cart_pairs_example :
  let w1 := (add_to_cart (Scenes.taps "add_9") Demo.world).2 in
  let w2 := (add_to_cart (Scenes.taps "add_5") w1).2 in
  NoDup (cart_key <$> Store.carts (db Demo.world)) /\
  NoDup (cart_key <$> Store.carts (db w2)) /\
  cart_key <$> Store.carts (db w2) = [(42, 5); (42, 7); (77, 9); (42, 9)].
Proof.
  intros w1 w2.
  assert (H0 : NoDup (cart_key <$> Store.carts (db Demo.world))).
  { change (NoDup [(42, 5); (42, 7); (77, 9)]).
    repeat (apply NoDup_cons_2;
            [intros H; repeat (apply elem_of_cons in H as [H|H]; [discriminate|]);
             inversion H|]).
    apply NoDup_nil_2. }
  split; [exact H0|].
  destruct (cart_pairs_stay_unique Demo.world H0) as [Hadd _].
  destruct (cart_pairs_stay_unique w1 (Hadd (Scenes.taps "add_9"))) as [Hadd' _].
  split; [exact (Hadd' (Scenes.taps "add_5"))|]. vm_compute. reflexivity.
Defined.

(* ===================================================================== *)
(** * Database sessions are closed *)
(* ===================================================================== *)

Lemma show_category_session (message : Message) (w : World) :
  session w = None -> session (show_category message w).2 = None.
Proof.
  intros Hnone. unfold show_category.
  destruct (msg_text message) as [category_name|]; run; [|exact Hnone].
  destruct (category_map category_name) as [category|]; run; [|exact Hnone].
  set (w0 := {| env := env w; db := db w; session := Some (db w);
                user_data := user_data w; image_cache := image_cache w; fsm := fsm w;
                clock := clock w; trace := trace w |}).
  destruct (show_category_body_spec message category category_name w0 (db w) eq_refl)
    as (r & w1 & evs & Hrun & _ & _ & Hs & _).
  rewrite Hrun. cbn [session w0] in Hs.
  destruct r as [[]|e]; run; rewrite ?Hs; run; [reflexivity|].
  destruct (api_send (env w1) (clock w1)); run; rewrite ?Hs; reflexivity.
Qed.

Lemma back_to_list_session (callback : CallbackQuery) (w : World) :
  session w = None -> session (back_to_list callback w).2 = None.
Proof.
  intros Hnone. unfold back_to_list.
  destruct (callback_category (cb_data callback)) as [category|e]; run; [|exact Hnone].
  destruct (user_data w !! cb_from_id callback) as [u|] eqn:Hu.
  2:{ run. destruct (api_ok (env w) (clock w)); exact Hnone. }
  destruct (String.eqb_spec (ud_category u) category) as [<-|_]; cbn [negb].
  2:{ run. destruct (api_ok (env w) (clock w)); exact Hnone. }
  assert (Hrender : forall w0, user_data w0 = user_data w ->
            session (back_to_list_render callback (ud_category u)
                       (category_label (ud_category u)) w0).2 = None).
  { intros w0 Hud. unfold back_to_list_render. run.
    set (w1 := {| env := env w0; db := db w0; session := Some (db w0);
                  user_data := user_data w0; image_cache := image_cache w0; fsm := fsm w0;
                  clock := clock w0; trace := trace w0 |}).
    assert (Hu1 : user_data w1 !! cb_from_id callback = Some u) by (cbn; now rewrite Hud).
    destruct (back_to_list_body_spec callback (category_label (ud_category u)) w1 (db w0) u
                eq_refl Hu1) as (r & w2 & evs & Hrun & _ & _ & Hs & _).
    rewrite Hrun. cbn [session w1] in Hs.
    destruct r as [[|]|e]; run; rewrite ?Hs; run.
    - reflexivity.
    - destruct (api_ok (env w2) (clock w2)); reflexivity.
    - destruct (api_send (env w2) (clock w2)); run; rewrite ?Hs; run; [|reflexivity].
      destruct (api_ok (env w2) (S (clock w2))); reflexivity. }
  destruct (last_msg_ids u) as [|i ids]; run.
  - apply Hrender. reflexivity.
  - rewrite delete_previous_messages_run. run. apply Hrender. reflexivity.
Qed.

Lemma cart_handlers_session (w : World) :
  (forall callback, session (add_to_cart callback w).2 = session w \/
                    session (add_to_cart callback w).2 = None) /\
  (forall message, session (show_cart message w).2 = None) /\
  (forall callback, session (remove_from_cart callback w).2 = session w \/
                    session (remove_from_cart callback w).2 = None) /\
  (forall callback, session (clear_cart callback w).2 = None) /\
  (forall message, session (process_payment_info message w).2 = None).
Proof.
  split; [|split; [|split; [|split]]].
  - intros callback. unfold add_to_cart.
    destruct (callback_product_id (cb_data callback)) as [product_id|e]; run;
      [right|left; reflexivity].
    destruct (cart_of_user_product (cb_from_id callback) product_id (db w)); run;
      (destruct (api_ok (env w) (clock w)); run;
       [|destruct (api_ok (env w) (S (clock w))); run]; reflexivity).
  - intros message. unfold show_cart. run.
    destruct (Store.carts_of_user (msg_from_id message) (db w)) as [|item items]; run.
    + destruct (api_send (env w) (clock w)); run;
        [|destruct (api_send (env w) (S (clock w))); run]; reflexivity.
    + rewrite (cart_lines_run (db w)) by reflexivity.
      destruct (cart_products (db w) (item :: items)); run.
      * destruct (api_send (env w) (clock w)); run.
        -- destruct (user_data w !! msg_from_id message) eqn:Eu; run; rewrite ?Eu; run;
             reflexivity.
        -- destruct (api_send (env w) (S (clock w))); run; reflexivity.
      * destruct (api_send (env w) (clock w)); run; reflexivity.
  - intros callback. unfold remove_from_cart.
    destruct (callback_product_id (cb_data callback)) as [cart_id|e]; run;
      [right|left; reflexivity].
    destruct (cart_by_id_of_user cart_id (cb_from_id callback) (db w)) as [c|]; run.
    2:{ destruct (api_ok (env w) (clock w)); run;
          [|destruct (api_ok (env w) (S (clock w))); run]; reflexivity. }
    destruct (Store.product_by_id (Cart.product_id c) (db w)); run.
    2:{ destruct (api_ok (env w) (clock w)); run; reflexivity. }
    destruct (api_ok (env w) (clock w)); run.
    2:{ destruct (api_ok (env w) (S (clock w))); run; reflexivity. }
    unfold call.
    match goal with
    | |- context [show_cart ?m ?w1] => destruct (show_cart m w1) as [r w2]
    end.
    destruct r as [[]|e]; run; [reflexivity|].
    destruct (api_ok (env w2) (clock w2)); run; reflexivity.
  - intros callback. unfold clear_cart. run.
    destruct (api_ok (env w) (clock w)); run.
    + destruct (api_send (env w) (S (clock w))); run;
        [|destruct (api_ok (env w) (S (S (clock w)))); run]; reflexivity.
    + destruct (api_ok (env w) (S (clock w))); run; reflexivity.
  - intros message. unfold process_payment_info, process_payment_info_body. run.
    destruct (Store.carts_of_user (msg_from_id message) (db w)) as [|item items]; run.
    + destruct (api_send (env w) (clock w)); run;
        [|destruct (api_send (env w) (S (clock w))); run]; reflexivity.
    + rewrite (order_lines_run (db w)) by reflexivity.
      destruct (cart_products (db w) (item :: items)); run.
      * destruct (api_send (env w) (clock w)); run;
          destruct (api_send (env w) (S (clock w))); run;
          destruct (api_send (env w) (S (S (clock w)))); run; reflexivity.
      * destruct (api_send (env w) (clock w)); run; reflexivity.
Qed.

Lemma admin_handlers_session (message : Message) (w : World) :
  (session (process_category message w).2 = session w \/
   session (process_category message w).2 = None) /\
  (session (cmd_delete message w).2 = session w \/
   session (cmd_delete message w).2 = None) /\
  session (process_delete_id message w).2 = None.
Proof.
  split; [|split].
  - unfold process_category.
    destruct (msg_text message ≫= admin_category_map) as [category|]; run.
    2:{ left. destruct (api_send (env w) (clock w)); reflexivity. }
    right. unfold data_str, data_int. run.
    repeat match goal with
           | |- context [@lookup string PyVal _ _ ?k ?d] =>
               destruct (@lookup string PyVal _ _ k d) as [[| |]|]; run
           end;
      (destruct (api_send (env w) (clock w)); run;
       [|try (destruct (api_send (env w) (S (clock w))); run)]; reflexivity).
  - unfold cmd_delete. run. destruct (not_admin (env w) message); run.
    { left. destruct (api_send (env w) (clock w)); reflexivity. }
    right. destruct (Store.products (db w)); run;
      destruct (api_send (env w) (clock w)); run; reflexivity.
  - unfold process_delete_id. destruct (msg_text message) as [txt|]; run.
    + rewrite (delete_loop_run (Py.split txt) (db w)) by reflexivity. run.
      destruct (api_send (env w) (clock w)); run;
        [|destruct (api_send (env w) (S (clock w))); run]; reflexivity.
    + destruct (api_send (env w) (clock w)); run; reflexivity.
Qed.

(** X26: no handler leaves a database session open. From a world where no
    session is open, every handler that works with the database ends with
    no session open: on its normal end, on each of its [return]
    statements, and when a query, a send or an answer to a callback
    fails. *)
Theorem no_session_left_open (w : World) :
  session w = None ->
  (forall message,
     session (show_category message w).2 = None /\
     session (show_cart message w).2 = None /\
     session (process_payment_info message w).2 = None /\
     session (process_category message w).2 = None /\
     session (cmd_delete message w).2 = None /\
     session (process_delete_id message w).2 = None) /\
  (forall callback,
     session (back_to_list callback w).2 = None /\
     session (add_to_cart callback w).2 = None /\
     session (remove_from_cart callback w).2 = None /\
     session (clear_cart callback w).2 = None).
Proof.
  intros Hnone.
  destruct (cart_handlers_session w) as (Hadd & Hshow & Hrem & Hclear & Hpay).
  split.
  - intros message. destruct (admin_handlers_session message w) as (Hcat & Hdel & Hids).
    split; [now apply show_category_session|]. split; [apply Hshow|]. split; [apply Hpay|].
    split; [destruct Hcat as [-> | ->]; auto|]. split; [destruct Hdel as [-> | ->]; auto|].
    exact Hids.
  - intros callback. split; [now apply back_to_list_session|].
    split; [destruct (Hadd callback) as [-> | ->]; auto|].
    split; [destruct (Hrem callback) as [-> | ->]; auto|]. apply Hclear.
Qed.

(** The render of a category, with its fetches and sends, and a checkout
    whose notification of the operator fails. *)
Lemma no_session_left_open_example :
  session Demo.world = None /\
  session (show_category (Demo.says "🏎 Мейн модели") Demo.world).2 = None /\
  session (process_payment_info (Demo.says "card") (Demo.paying Demo.flaky)).2 = None.
Proof.
  split; [reflexivity|].
  destruct (no_session_left_open Demo.world eq_refl) as [Hmsg _].
  destruct (no_session_left_open (Demo.paying Demo.flaky) eq_refl) as [Hpay _].
  split; [apply Hmsg | apply Hpay].
Defined.
